(** * Port2Monad: structural analysis, planning, transformation and the
      HTTP pipeline caches

    A shallow embedding of the TypeScript sources
      - [src/analysis/solidityAnalyzer.ts]   (module [Analyzer]),
      - [src/agents/migrationPlanner.ts]     (module [Planner]),
      - [src/agents/transformer.ts]          (module [Transformer]),
      - [src/server/http.ts]                 (modules [Http], [IngestRoute]),
      - [src/ingestion/fileTypeDetector.ts],
        [src/ingestion/repository.ts]        (module [Ingestion]),
      - [src/agents/explainerValidator.ts]   (module [Validator]),
    followed by the properties of the specification, stated over these
    definitions.

    Conventions.  JavaScript strings are [string] (sequences of code
    units below 256).  Arrays are [list]; a loop that pushes onto an array
    is a [fold_left] whose accumulator grows at the end.  [Map<string, V>]
    is [gmap string V].  A function that may throw returns [Result].
    Numbers that carry a confidence are IEEE 754 doubles ([float]).
    The collaborators that live outside the repository (the tree-sitter
    parser, the GitHub client, the language model, [JSON.parse]) are
    Section variables or fields of an environment record. *)

From Stdlib Require Import String Ascii List ZArith QArith Qround Lia Bool Arith.
From Stdlib Require Import DecimalString Floats Uint63.
From stdpp Require Import gmap strings.
Import ListNotations.

Set Warnings "-register-all".
Local Open Scope string_scope.
Local Open Scope list_scope.

(** ** Results of fallible code *)

Inductive Result (A : Type) : Type :=
| Ok (a : A)
| Throw (message : string).
Arguments Ok {A} a.
Arguments Throw {A} message.

(** ** JavaScript strings *)

Module JsString.

(** The double-quote character, code 34. *)
Definition dquote : ascii := "034"%char.
(** The single-quote character, code 39. *)
Definition squote : ascii := "039"%char.

(** [quoted s] is [s] between double quotes. *)
Definition quoted (s : string) : string :=
  String dquote (s +:+ String dquote "").

(** [s.slice(start, end)] for non-negative indices. *)
Definition slice (s : string) (startIndex endIndex : nat) : string :=
  String.substring startIndex (endIndex - startIndex) s.

(** [s.startsWith(p)]. *)
Definition startsWith (s p : string) : bool := String.prefix p s.

(** [s.includes(sub)]. *)
Fixpoint includes (s sub : string) : bool :=
  String.prefix sub s ||
  match s with
  | "" => false
  | String _ r => includes r sub
  end.

(** [s.lastIndexOf(c)] for a one-character needle: [None] is JavaScript's -1. *)
Fixpoint lastIndexOf (s : string) (c : ascii) : option nat :=
  match s with
  | "" => None
  | String x r =>
      match lastIndexOf r c with
      | Some i => Some (S i)
      | None => if Ascii.eqb x c then Some 0 else None
      end
  end.

(** [s.substring(0, i)] where [i] comes from [lastIndexOf]; a negative
    argument of [substring] is clamped to 0. *)
Definition upToLast (s : string) (c : ascii) : string :=
  match lastIndexOf s c with
  | Some i => String.substring 0 i s
  | None => ""
  end.

(** The longest prefix whose characters satisfy [p], and the rest. *)
Fixpoint span (p : ascii -> bool) (s : string) : string * string :=
  match s with
  | "" => ("", "")
  | String c r =>
      if p c then let '(a, b) := span p r in (String c a, b) else ("", s)
  end.

(** [\s] on code units below 256: tab, line feed, vertical tab, form feed,
    carriage return, space and the no-break space. *)
Definition is_space (c : ascii) : bool :=
  let n := nat_of_ascii c in
  (Nat.leb 9 n && Nat.leb n 13) || Nat.eqb n 32 || Nat.eqb n 160.

(** [s.trim()]. *)
Definition trimStart (s : string) : string := snd (span is_space s).
Definition rev (s : string) : string :=
  string_of_list_ascii (List.rev (list_ascii_of_string s)).
Definition trim (s : string) : string := rev (trimStart (rev (trimStart s))).

(** Number of occurrences of a character: [(s.match(/c/g) || []).length]. *)
Fixpoint count_char (c : ascii) (s : string) : nat :=
  match s with
  | "" => 0
  | String x r => (if Ascii.eqb x c then 1 else 0) + count_char c r
  end.

(** Decimal rendering of a number inside a template literal. *)
Definition of_nat (n : nat) : string := NilZero.string_of_uint (Nat.to_uint n).

(** [a.join(sep)]. *)
Fixpoint join (sep : string) (l : list string) : string :=
  match l with
  | [] => ""
  | [x] => x
  | x :: r => x +:+ sep +:+ join sep r
  end.

(** *** The quoted-literal regular expression

    The source uses one regular expression to pull a path out of an import:
    a character class of the two quote characters, a capture group of one
    or more characters outside that class, and the class again.  A match starts at a quote character, takes a non-empty run of
    non-quote characters and ends at a quote character.  The run is
    greedy, and a shorter run cannot match because the character after it
    would not be a quote: only the maximal run has to be tried.  The
    function returns capture group 1 of the match at the head of [s]. *)
Definition is_quote (c : ascii) : bool := Ascii.eqb c dquote || Ascii.eqb c squote.

Definition quoted_here (s : string) : option string :=
  match s with
  | String c r =>
      if is_quote c then
        match span (fun x => negb (is_quote x)) r with
        | (String a b, String _ _) => Some (String a b)
        | _ => None
        end
      else None
  | "" => None
  end.

(** Capture group 1 of the leftmost match of the quoted-literal regular
    expression in [s], [None] when [match] returns [null]. *)
Fixpoint match_quoted (s : string) : option string :=
  match quoted_here s with
  | Some p => Some p
  | None =>
      match s with
      | "" => None
      | String _ r => match_quoted r
      end
  end.

End JsString.

(** ** The Solidity analyzer ([src/analysis/solidityAnalyzer.ts]) *)

Module Analyzer.
Import JsString.

(** *** Types ([src/types/index.ts]) *)

Inductive FileType := solidity | typescript | javascript | config | markdown | other.

Record RepositoryFile := {
  file_path : string;
  file_name : string;
  file_extension : string;
  file_type : FileType;
  file_size : Z;
  file_sha : option string }.

Inductive RepositoryDirectory : Type := mkDirectory {
  dir_path : string;
  dir_name : string;
  files : list RepositoryFile;
  subdirectories : list RepositoryDirectory }.

Record RepositoryMetadata := {
  owner : string;
  repo_name : string;
  fullName : string;
  url : string;
  description : option string;
  defaultBranch : string;
  isPrivate : bool;
  repo_size : Z }.

Record RepositoryStats := {
  totalFiles : Z;
  solidityFiles : Z;
  typescriptFiles : Z;
  javascriptFiles : Z;
  configFiles : Z;
  otherFiles : Z;
  totalSize : Z }.

Record RepositoryTree := {
  metadata : RepositoryMetadata;
  root : RepositoryDirectory;
  tree_stats : RepositoryStats;
  fetchedAt : string }.

Inductive ContractType := contract | abstract | interface | library.

Inductive Visibility := public | external | internal | private.
Inductive StateMutability := pure | view | payable | nonpayable.

Record SolidityFunction := {
  fn_name : string;
  fn_visibility : Visibility;
  stateMutability : option StateMutability;
  parameters : list string;
  returns : list string }.

Record StateVariable := {
  var_name : string;
  var_type : string;
  var_visibility : Visibility;
  constant : bool;
  immutable : bool }.

Record SolidityContract := {
  name : string;
  type : ContractType;
  filePath : string;
  imports : list string;
  inherits : list string;
  functions : list SolidityFunction;
  stateVariables : list StateVariable;
  usesUpgradeablePattern : bool }.

Inductive EdgeType := import | inheritance.

Record DependencyEdge := {
  from : string;
  to : string;
  edge_type : EdgeType }.

Record DependencyGraph := {
  nodes : list string;
  edges : list DependencyEdge }.

Record AnalysisStats := {
  totalContracts : nat;
  abstractContracts : nat;
  interfaces : nat;
  libraries : nat;
  totalFunctions : nat;
  stat_parseErrors : nat }.

Record ParseError := { err_filePath : string; err_error : string }.

Record SolidityAnalysisResult := {
  contracts : list SolidityContract;
  dependencyGraph : DependencyGraph;
  entryPointContracts : list string;
  upgradeableContracts : list string;
  stats : AnalysisStats;
  parseErrors : list ParseError }.

Definition ContractType_eqb (a b : ContractType) : bool :=
  match a, b with
  | contract, contract | abstract, abstract
  | interface, interface | library, library => true
  | _, _ => false
  end.

Definition EdgeType_eqb (a b : EdgeType) : bool :=
  match a, b with
  | import, import | inheritance, inheritance => true
  | _, _ => false
  end.

(** [a.includes(x)] on an array of strings. *)
Definition includes_str (a : list string) (x : string) : bool :=
  existsb (String.eqb x) a.

(** *** The syntax tree of the tree-sitter parser

    A node carries its grammar type, the field name under which its parent
    holds it (if any), its byte range in the source text and its children. *)
Inductive SyntaxNode : Type := mkNode {
  node_type : string;
  node_field : option string;
  startIndex : nat;
  endIndex : nat;
  children : list SyntaxNode }.

(** The text of a node: [sourceCode.slice(node.startIndex, node.endIndex)]. *)
Definition text_of (sourceCode : string) (node : SyntaxNode) : string :=
  slice sourceCode (startIndex node) (endIndex node).

Definition childForFieldName (node : SyntaxNode) (field : string) : option SyntaxNode :=
  List.find (fun c => match node_field c with
                      | Some f => String.eqb f field
                      | None => false
                      end) (children node).

Fixpoint findNodesByType (node : SyntaxNode) (types : list string) : list SyntaxNode :=
  match node with
  | mkNode ty _ _ _ ch =>
      (if includes_str types ty then [node] else [])
        ++ flat_map (fun child => findNodesByType child types) ch
  end.

Fixpoint findNodeByType (node : SyntaxNode) (ty : string) : option SyntaxNode :=
  match node with
  | mkNode t _ _ _ ch =>
      if String.eqb t ty then Some node
      else (fix first_found (l : list SyntaxNode) : option SyntaxNode :=
              match l with
              | [] => None
              | child :: rest =>
                  match findNodeByType child ty with
                  | Some found => Some found
                  | None => first_found rest
                  end
              end) ch
  end.

Definition UPGRADEABLE_PATTERNS : list string :=
  [ "Initializable"; "UUPSUpgradeable"; "TransparentUpgradeableProxy";
    "BeaconProxy"; "initialize("; "upgradeTo(" ].

(** *** Extraction *)

Definition extractImports (rootNode : SyntaxNode) (sourceCode : string) : list string :=
  let importNodes := findNodesByType rootNode ["import_directive"] in
  fold_left
    (fun imports node =>
       let importText := text_of sourceCode node in
       match match_quoted importText with
       | Some p => imports ++ [p]
       | None => imports
       end)
    importNodes [].

Definition extractFunctions (contractNode : SyntaxNode) (sourceCode : string)
  : list SolidityFunction :=
  let functionNodes := findNodesByType contractNode ["function_definition"] in
  fold_left
    (fun functions node =>
       match childForFieldName node "name" with
       | None => functions
       | Some nameNode =>
           let name := text_of sourceCode nameNode in
           let visibility :=
             match findNodeByType node "visibility" with
             | Some visibilityNode =>
                 let visText := text_of sourceCode visibilityNode in
                 if String.eqb visText "external" then external
                 else if String.eqb visText "internal" then internal
                 else if String.eqb visText "private" then private
                 else public
             | None => public
             end in
           match visibility with
           | internal | private => functions
           | _ =>
               let stateMutability :=
                 match findNodeByType node "state_mutability" with
                 | Some mutabilityNode =>
                     let mutText := text_of sourceCode mutabilityNode in
                     if String.eqb mutText "pure" then Some pure
                     else if String.eqb mutText "view" then Some view
                     else if String.eqb mutText "payable" then Some payable
                     else None
                 | None => None
                 end in
               let parameters :=
                 match childForFieldName node "parameters" with
                 | Some paramNode =>
                     let paramText := text_of sourceCode paramNode in
                     let paramCount :=
                       (count_char "," paramText
                        + (if Nat.ltb 2 (String.length (trim paramText)) then 1 else 0))%nat in
                     map (fun i => "param" +:+ of_nat i) (seq 0 paramCount)
                 | None => []
                 end in
               let returns :=
                 match childForFieldName node "return_parameters" with
                 | Some _ => ["returnValue"]
                 | None => []
                 end in
               functions ++ [ {| fn_name := name; fn_visibility := visibility;
                                 stateMutability := stateMutability;
                                 parameters := parameters; returns := returns |} ]
           end
       end)
    functionNodes [].

Definition extractStateVariables (contractNode : SyntaxNode) (sourceCode : string)
  : list StateVariable :=
  let varNodes := findNodesByType contractNode ["state_variable_declaration"] in
  fold_left
    (fun variables node =>
       match findNodeByType node "identifier" with
       | None => variables
       | Some nameNode =>
           let name := text_of sourceCode nameNode in
           let typeNode :=
             match findNodeByType node "type_name" with
             | Some n => Some n
             | None =>
                 match findNodeByType node "user_defined_type" with
                 | Some n => Some n
                 | None => findNodeByType node "elementary_type_name"
                 end
             end in
           let ty := match typeNode with
                     | Some n => text_of sourceCode n
                     | None => "unknown"
                     end in
           let varText := text_of sourceCode node in
           let visibility :=
             if includes varText " public " then public
             else if includes varText " private " then private
             else internal in
           variables ++ [ {| var_name := name; var_type := ty;
                             var_visibility := visibility;
                             constant := includes varText " constant ";
                             immutable := includes varText " immutable " |} ]
       end)
    varNodes [].

(** The loop that fills [inherits]: a name is pushed when it is not empty
    and not yet in the array. *)
Definition push_inherit (sourceCode : string) (inherits : list string) (inhNode : SyntaxNode)
  : list string :=
  let inhName := text_of sourceCode inhNode in
  if negb (String.eqb inhName "") && negb (includes_str inherits inhName)
  then inherits ++ [inhName] else inherits.

Definition extractContract (node : SyntaxNode) (filePath : string) (sourceCode : string)
  (fileImports : list string) : option SolidityContract :=
  let type :=
    if String.eqb (node_type node) "interface_declaration" then interface
    else if String.eqb (node_type node) "library_declaration" then library
    else
      let contractText := text_of sourceCode node in
      if startsWith contractText "abstract " then abstract else contract in
  match childForFieldName node "name" with
  | None => None
  | Some nameNode =>
      let name := text_of sourceCode nameNode in
      let inherits :=
        match childForFieldName node "inheritance" with
        | Some inheritanceNode =>
            let inheritanceNames :=
              findNodesByType inheritanceNode ["identifier"; "user_defined_type"] in
            fold_left (push_inherit sourceCode) inheritanceNames []
        | None => []
        end in
      let functions := extractFunctions node sourceCode in
      let stateVariables := extractStateVariables node sourceCode in
      let contractText := text_of sourceCode node in
      let usesUpgradeablePattern :=
        existsb (fun pattern => includes contractText pattern) UPGRADEABLE_PATTERNS in
      Some {| name := name; type := type; filePath := filePath;
              imports := fileImports; inherits := inherits;
              functions := functions; stateVariables := stateVariables;
              usesUpgradeablePattern := usesUpgradeablePattern |}
  end.

(** *** The dependency graph and the entry points *)

Definition push_node (nodes : list string) (x : string) : list string :=
  if includes_str nodes x then nodes else nodes ++ [x].

Definition add_edges (c : SolidityContract) (kind : EdgeType) (targets : list string)
  (g : DependencyGraph) : DependencyGraph :=
  fold_left
    (fun g target =>
       {| nodes := push_node (nodes g) target;
          edges := edges g ++ [ {| from := name c; to := target; edge_type := kind |} ] |})
    targets g.

Definition add_contract (g : DependencyGraph) (c : SolidityContract) : DependencyGraph :=
  let g1 := {| nodes := push_node (nodes g) (name c); edges := edges g |} in
  let g2 := add_edges c import (imports c) g1 in
  add_edges c inheritance (inherits c) g2.

Definition buildDependencyGraph (contracts : list SolidityContract) : DependencyGraph :=
  fold_left add_contract contracts {| nodes := []; edges := [] |}.

Definition isOnlyInherited (contractName : string) (graph : DependencyGraph) : bool :=
  let isInherited :=
    existsb (fun e => String.eqb (to e) contractName
                      && EdgeType_eqb (edge_type e) inheritance) (edges graph) in
  let isInheriting :=
    existsb (fun e => String.eqb (from e) contractName
                      && EdgeType_eqb (edge_type e) inheritance) (edges graph) in
  isInherited && negb isInheriting.

Definition identifyEntryPoints (contracts : list SolidityContract) (graph : DependencyGraph)
  : list string :=
  let deployable :=
    List.filter (fun c => ContractType_eqb (type c) contract
                          && negb (isOnlyInherited (name c) graph)) contracts in
  map name deployable.

(** *** The analysis run *)

Fixpoint findSolidityFiles (dir : RepositoryDirectory) : list RepositoryFile :=
  match dir with
  | mkDirectory _ _ fs subs =>
      List.filter (fun f => match file_type f with solidity => true | _ => false end) fs
        ++ flat_map findSolidityFiles subs
  end.

Section Run.
(** The GitHub client: [getFileContent(owner, repo, path)]. *)
Variable getFileContent : string -> string -> string -> Result string.
(** The tree-sitter parser; [None] stands for a tree without root node. *)
Variable parse : string -> option SyntaxNode.

Definition parseFile (owner repo : string) (file : RepositoryFile)
  : Result (list SolidityContract) :=
  match getFileContent owner repo (file_path file) with
  | Throw m => Throw m
  | Ok content =>
      match parse content with
      | None => Throw "Failed to parse AST"
      | Some rootNode =>
          let imports := extractImports rootNode content in
          let contractNodes :=
            findNodesByType rootNode
              ["contract_declaration"; "interface_declaration"; "library_declaration"] in
          Ok (fold_left
                (fun contracts node =>
                   match extractContract node (file_path file) content imports with
                   | Some c => contracts ++ [c]
                   | None => contracts
                   end)
                contractNodes [])
      end
  end.

Definition analyzeSolidity (repoTree : RepositoryTree) : SolidityAnalysisResult :=
  let owner := owner (metadata repoTree) in
  let repo := repo_name (metadata repoTree) in
  let solidityFiles := findSolidityFiles (root repoTree) in
  let '(contracts, parseErrors) :=
    fold_left
      (fun '(contracts, parseErrors) file =>
         match parseFile owner repo file with
         | Ok fileContracts => (contracts ++ fileContracts, parseErrors)
         | Throw errorMsg =>
             (contracts,
              parseErrors ++ [ {| err_filePath := file_path file; err_error := errorMsg |} ])
         end)
      solidityFiles ([], []) in
  let dependencyGraph := buildDependencyGraph contracts in
  let entryPointContracts := identifyEntryPoints contracts dependencyGraph in
  let upgradeableContracts :=
    map name (List.filter usesUpgradeablePattern contracts) in
  let count (k : ContractType) :=
    length (List.filter (fun c => ContractType_eqb (type c) k) contracts) in
  {| contracts := contracts;
     dependencyGraph := dependencyGraph;
     entryPointContracts := entryPointContracts;
     upgradeableContracts := upgradeableContracts;
     stats := {| totalContracts := length contracts;
                 abstractContracts := count abstract;
                 interfaces := count interface;
                 libraries := count library;
                 totalFunctions :=
                   fold_left (fun sum c => (sum + length (functions c))%nat) contracts 0%nat;
                 stat_parseErrors := length parseErrors |};
     parseErrors := parseErrors |}.
End Run.

End Analyzer.

(** ** The migration planner ([src/agents/migrationPlanner.ts]) *)

Module Planner.
Import JsString Analyzer.

Inductive ConfidenceLevel := low | medium | high.

Inductive ChangeCategory :=
| gas_optimization | monad_feature | evm_compatibility
| performance | architecture | security_consideration.

Record MigrationRecommendation := {
  rec_filePath : string;
  contractName : string;
  changeCategory : ChangeCategory;
  recommendedChange : string;
  rationale : string;
  confidenceLevel : ConfidenceLevel;
  affectedContracts : option (list string);
  references : option (list string) }.

Record PlanSummary := {
  totalFilesAnalyzed : nat;
  totalContractsAnalyzed : nat;
  totalRecommendations : nat;
  highConfidenceCount : nat;
  mediumConfidenceCount : nat;
  lowConfidenceCount : nat }.

Record MigrationPlan := {
  repositoryName : string;
  timestamp : string;
  analysisId : string;
  monadVersion : string;
  recommendations : list MigrationRecommendation;
  summary : PlanSummary;
  assumptions : list string;
  limitations : list string;
  nextSteps : list string }.

Definition ConfidenceLevel_eqb (a b : ConfidenceLevel) : bool :=
  match a, b with
  | low, low | medium, medium | high, high => true
  | _, _ => false
  end.

(** A content block of the model's reply: a text block, or a block of
    another type (named by its [type] field). *)
Inductive ContentBlock :=
| TextBlock (text : string)
| OtherBlock (block_type : string).

(** What [JSON.parse] returns, read through the type the source assigns to
    the value: an array is taken as an array of recommendations, as the
    annotation [MigrationRecommendation[]] does without checking.  An array
    with other elements ([null], or a [confidenceLevel] outside the three
    levels) is not part of this embedding. *)
Inductive Parsed :=
| ParsedArray (items : list MigrationRecommendation)
| ParsedOther.

(** *** The bracket regular expression

    An opening square bracket, any characters (greedy, line breaks
    included), a closing square bracket: the match runs from the first
    opening bracket that has a closing bracket after it to the last closing
    bracket of the text.  If the first opening bracket has no closing
    bracket after it, no later one has. *)
Fixpoint from_first (c : ascii) (s : string) : option string :=
  match s with
  | "" => None
  | String x r => if Ascii.eqb x c then Some s else from_first c r
  end.

Definition match_delimited (open close : ascii) (s : string) : option string :=
  match from_first open s with
  | None => None
  | Some s' =>
      match lastIndexOf s' close with
      | None => None
      | Some i => Some (String.substring 0 (S i) s')
      end
  end.

Definition match_json_array (s : string) : option string := match_delimited "[" "]" s.

(** The single recommendation returned when the reply cannot be parsed. *)
Definition fallback_recommendation : MigrationRecommendation :=
  {| rec_filePath := "general";
     contractName := "General";
     changeCategory := architecture;
     recommendedChange := "Review Claude response for detailed recommendations";
     rationale := "LLM analysis completed but response parsing requires verification";
     confidenceLevel := low;
     affectedContracts := None;
     references := None |}.

Definition buildAssumptions (analysis : SolidityAnalysisResult) : list string :=
  let assumptions :=
    [ "Monad maintains full EVM bytecode compatibility";
      "Solidity compiler versions used are compatible with EVM target";
      "External dependencies exist or will be deployed to Monad";
      "Block time and gas model assumptions match Ethereum";
      "No reliance on specific validator/miner behavior (MEV)" ] in
  let assumptions :=
    if Nat.ltb 0 (length (parseErrors analysis))
    then assumptions ++
         [ "Some contracts could not be fully analyzed due to parse errors - manual review recommended" ]
    else assumptions in
  if existsb usesUpgradeablePattern (contracts analysis)
  then assumptions ++ [ "UUPS/proxy patterns are compatible with Monad as-is" ]
  else assumptions.

Definition buildLimitations (analysis : SolidityAnalysisResult) : list string :=
  let limitations :=
    [ "AST analysis does not include runtime behavior or potential exploits";
      "Gas optimization suggestions are estimates - actual gas costs may vary";
      "Assembly code analysis is limited - manual review required";
      "External library compatibility cannot be fully determined from source analysis" ] in
  if Nat.ltb 0 (length (parseErrors analysis))
  then limitations ++
       [ of_nat (length (parseErrors analysis)) +:+ " contracts could not be analyzed" ]
  else limitations.

(** The user message sent to the model. *)
Definition user_message (context : string) : string :=
  "Analyze this Solidity codebase for Monad migration and provide recommendations:"
    +:+ String "010" (String "010" context).

Section Planner.
(** [client.messages.create] with the planner's system prompt, applied to
    the user message; the reply's [content] array. *)
Variable messages_create : string -> Result (list ContentBlock).
(** [JSON.parse]; [None] when it throws. *)
Variable JSON_parse : string -> option Parsed.
(** The prompt text assembled by [buildContext]; it is only passed on to
    the model. *)
Variable buildContext : RepositoryMetadata -> SolidityAnalysisResult -> string.
(** [new Date(ms).toISOString()]. *)
Variable toISOString : Z -> string.
(** Decimal rendering of a time stamp in a template literal. *)
Variable of_time : Z -> string.

Definition generateRecommendations (context : string)
  : Result (list MigrationRecommendation) :=
  match messages_create (user_message context) with
  | Throw m => Throw m
  | Ok [] => Throw "Cannot read properties of undefined (reading 'type')"
  | Ok (OtherBlock _ :: _) => Throw "Unexpected response type from Claude"
  | Ok (TextBlock text :: _) =>
      (* the [try] block; every exception inside it reaches the [catch] *)
      let attempt : Result (list MigrationRecommendation) :=
        match match_json_array text with
        | None => Throw "No JSON array found in response"
        | Some jsonMatch =>
            match JSON_parse jsonMatch with
            | None => Throw "SyntaxError"
            | Some ParsedOther => Throw "Response is not an array"
            | Some (ParsedArray recommendations) => Ok recommendations
            end
        end in
      match attempt with
      | Ok recommendations => Ok recommendations
      | Throw _ => Ok [ fallback_recommendation ]
      end
  end.

Definition planMigration (now : Z) (repoMetadata : RepositoryMetadata)
  (analysisResult : SolidityAnalysisResult) : Result MigrationPlan :=
  let context := buildContext repoMetadata analysisResult in
  match generateRecommendations context with
  | Throw m => Throw m
  | Ok recommendations =>
      let count (l : ConfidenceLevel) :=
        length (List.filter (fun r => ConfidenceLevel_eqb (confidenceLevel r) l)
                  recommendations) in
      Ok {| repositoryName := fullName repoMetadata;
            timestamp := toISOString now;
            analysisId := fullName repoMetadata +:+ "-" +:+ of_time now;
            monadVersion := "1.0.0";
            recommendations := recommendations;
            summary :=
              {| totalFilesAnalyzed := length (contracts analysisResult);
                 totalContractsAnalyzed := totalContracts (stats analysisResult);
                 totalRecommendations := length recommendations;
                 highConfidenceCount := count high;
                 mediumConfidenceCount := count medium;
                 lowConfidenceCount := count low |};
            assumptions := buildAssumptions analysisResult;
            limitations := buildLimitations analysisResult;
            nextSteps :=
              [ "Review recommendations and categorize by priority";
                "Create a deployment checklist based on high-confidence items";
                "Set up testnet environment on Monad";
                "Deploy and test each contract migration in isolation";
                "Perform load testing for parallelization scenarios";
                "Audit critical contracts pre-mainnet deployment" ] |}
  end.
End Planner.

End Planner.

(** ** The transformer ([src/agents/transformer.ts]) *)

Module Transformer.
Import JsString Analyzer Planner.

(** *** Types *)

Record LineRange := { range_start : Z; range_end : Z }.

Record AppliedChange := {
  applied_changeIndex : nat;
  applied_recommendationId : string;
  applied_description : string;
  originalCode : string;
  transformedCode : string;
  lineNumbers : option LineRange }.

Record SkippedChange := {
  skipped_changeIndex : nat;
  skipped_recommendationId : string;
  skipped_description : string;
  skipped_reason : string }.

(** Numbers that carry a confidence are JavaScript numbers: doubles. *)
Record TransformedFile := {
  tf_filePath : string;
  originalContent : string;
  transformedContent : string;
  appliedChanges : list AppliedChange;
  skippedChanges : list SkippedChange;
  hasChanges : bool;
  tf_confidenceScore : float;
  tf_warnings : list string }.

Record FileTransformReport := {
  fr_filePath : string;
  success : bool;
  appliedChangesCount : nat;
  skippedChangesCount : nat;
  confidenceScore : float;
  fr_warnings : list string;
  diffPreview : string }.

Record ConsistencyReport := {
  checked : bool;
  importsValid : bool;
  inheritanceValid : bool;
  issues : list string }.

Record ReportSummary := {
  overallConfidence : float;
  summary_recommendations : list string;
  summary_nextSteps : list string }.

Record TransformError := { te_filePath : option string; te_error : string }.

Record TransformationReport := {
  report_repositoryName : string;
  report_timestamp : string;
  transformationId : string;
  filesProcessed : nat;
  filesModified : nat;
  filesSkipped : nat;
  totalAppliedChanges : nat;
  totalSkippedChanges : nat;
  fileReports : list FileTransformReport;
  crossFileConsistency : ConsistencyReport;
  report_summary : ReportSummary;
  errors : list TransformError }.

Inductive Action := apply | skip.

Record ChangeItem := {
  change_type : string;
  change_description : string;
  originalSnippet : string;
  transformedSnippet : string;
  lineRange : option LineRange }.

(** The transformer's reply.  [appliedChanges] and [warnings] are guarded
    against absence where the source reads them, so they are optional. *)
Record PerFileTransformation := {
  action : Action;
  reason : option string;
  reply_appliedChanges : option (list ChangeItem);
  reply_transformedCode : option string;
  reply_warnings : option (list string) }.

Record TransformationContext := {
  ctx_filePath : string;
  ctx_originalContent : string;
  ctx_recommendations : list MigrationRecommendation;
  contractNames : list string;
  importedContracts : list string }.

(** *** Numbers

    JavaScript numbers are IEEE 754 doubles.  The functions that compute
    with confidence scores are written over the operations they use, so
    that they can be read over the doubles, as the program runs them, and
    over the exact rationals. *)
Class Number (N : Type) : Type := {
  (** a decimal literal of the source, given by its exact value *)
  literal : Q -> N;
  (** the length of an array *)
  of_length : nat -> N;
  num_add : N -> N -> N;
  num_mul : N -> N -> N;
  num_div : N -> N -> N;
  num_lt : N -> N -> bool;
  (** [Math.round]: the nearest integer, a tie going up *)
  Math_round : N -> N }.

Declare Scope num_scope.
Delimit Scope num_scope with num.
Infix "+" := num_add : num_scope.
Infix "*" := num_mul : num_scope.
Infix "/" := num_div : num_scope.
Infix "<?" := num_lt : num_scope.

(** **** Doubles *)

(** From [2^52] on, every double is an integer. *)
Definition two52 : float := 4503599627370496%float.

(** The integer part of a double [x] with [0 <= x < 2^52]: adding [2^52]
    rounds [x] to an integer, and subtracting it again is exact. *)
Definition floor_small (x : float) : float :=
  let t := ((x + two52) - two52)%float in
  if (x <? t)%float then (t - 1)%float else t.

(** [Math.round] on doubles: NaN, the infinities, the zeros and the
    doubles that are integers are returned as they are.  Otherwise the
    result is the integer nearest to [x], the one closer to plus infinity
    at a tie, with the sign of [x]: a negative number that rounds to zero
    gives the negative zero. *)
Definition double_round (x : float) : float :=
  if negb (x =? x)%float then x
  else if (two52 <=? PrimFloat.abs x)%float then x
  else if (x =? 0)%float then x
  else
    let y := PrimFloat.abs x in
    let f := floor_small y in
    if (0 <? x)%float
    then PrimFloat.abs (if (y - f <? 0.5)%float then f else f + 1)%float
    else (- PrimFloat.abs (if (y - f <=? 0.5)%float then f else f + 1))%float.

(** An integer as a double; exact below [2^53], which covers the lengths
    of arrays and the digits of the literals of the source. *)
Definition double_of_Z (z : Z) : float :=
  match z with
  | Zneg p => (- PrimFloat.of_uint63 (Uint63.of_Z (Zpos p)))%float
  | _ => PrimFloat.of_uint63 (Uint63.of_Z z)
  end.

(** The double nearest to a decimal literal with few digits: numerator
    and denominator are doubles, and the division rounds once. *)
Definition double_literal (q : Q) : float :=
  (double_of_Z (Qnum q) / double_of_Z (Zpos (Qden q)))%float.

#[export] Instance doubles : Number float := {|
  literal := double_literal;
  of_length := fun n => double_of_Z (Z.of_nat n);
  num_add := PrimFloat.add;
  num_mul := PrimFloat.mul;
  num_div := PrimFloat.div;
  num_lt := PrimFloat.ltb;
  Math_round := double_round |}.

(** **** Exact rationals *)

Definition Q_of_nat (n : nat) : Q := inject_Z (Z.of_nat n).

Definition Qlt_bool (a b : Q) : bool := negb (Qle_bool b a).

#[export] Instance rationals : Number Q := {|
  literal := fun q => q;
  of_length := Q_of_nat;
  num_add := Qplus;
  num_mul := Qmult;
  num_div := Qdiv;
  num_lt := Qlt_bool;
  Math_round := fun x => inject_Z (Qfloor (x + (1 # 2))) |}.

(** **** Scores *)

Section Scores.
Context {N : Type} `{Number N}.

(** [Math.round(x * 100) / 100]. *)
Definition round2 (x : N) : N := (Math_round (x * literal 100) / literal 100)%num.

Definition confidence_of (l : ConfidenceLevel) : N :=
  match l with
  | high => literal (9 # 10)
  | medium => literal (6 # 10)
  | low => literal (3 # 10)
  end.

Definition calculateConfidenceScore (appliedChanges : list AppliedChange)
  (recommendations : list MigrationRecommendation) : N :=
  if Nat.eqb (length appliedChanges) 0 then literal 0
  else
    let avgConfidence :=
      (fold_left (fun sum r => sum + confidence_of (confidenceLevel r))
         recommendations (literal 0)
       / of_length (length recommendations))%num in
    let applicationRate :=
      (of_length (length appliedChanges) / of_length (length recommendations))%num in
    round2 (avgConfidence * applicationRate)%num.
End Scores.

(** *** Strings *)

Definition nl : string := String "010" "".

(** [s.split('\n')]. *)
Fixpoint split_lines (s : string) : list string :=
  match s with
  | "" => [""]
  | String c r =>
      if Ascii.eqb c "010" then "" :: split_lines r
      else match split_lines r with
           | l :: ls => String c l :: ls
           | [] => [String c ""]
           end
  end.

(** An array element inside a template literal; a missing one prints as
    [undefined]. *)
Definition show_line (l : option string) : string :=
  match l with Some s => s | None => "undefined" end.

Definition option_string_eqb (a b : option string) : bool :=
  match a, b with
  | Some x, Some y => String.eqb x y
  | None, None => true
  | _, _ => false
  end.

Definition generateDiffPreview (original transformed : string) : string :=
  if String.eqb original transformed then ""
  else
    let originalLines := split_lines original in
    let transformedLines := split_lines transformed in
    let maxLines := Nat.max (length originalLines) (length transformedLines) in
    let diffs :=
      fold_left
        (fun diffs i =>
           if negb (option_string_eqb (nth_error originalLines i) (nth_error transformedLines i))
           then diffs ++ [ "-  " +:+ show_line (nth_error originalLines i);
                           "+  " +:+ show_line (nth_error transformedLines i) ]
           else diffs)
        (seq 0 (Nat.min maxLines 10)) [] in
    String.substring 0 500 (join nl diffs).

(** *** The import regular expression of the consistency check

    The word import, one or more white-space characters, a double quote or
    an opening brace, one or more characters that are neither a double
    quote nor a closing brace, and a double quote or a closing brace.  Both
    repetitions are greedy and followed by a character outside their class,
    so only the maximal runs can match.  [import_here s] is the match at the
    head of [s]. *)
Definition is_open (c : ascii) : bool := Ascii.eqb c dquote || Ascii.eqb c "{".
Definition is_close (c : ascii) : bool := Ascii.eqb c dquote || Ascii.eqb c "}".

Definition import_here (s : string) : option string :=
  if String.prefix "import" s then
    let after := String.substring 6 (String.length s - 6) s in
    match span is_space after with
    | (String w ws, String o r) =>
        if is_open o then
          match span (fun x => negb (is_close x)) r with
          | (String b bs, String c _) =>
              Some ("import" +:+ String w ws +:+ String o (String b bs +:+ String c ""))
          | _ => None
          end
        else None
    | _ => None
    end
  else None.

(** All matches, as [String.prototype.match] with the [g] flag returns
    them: leftmost first, the search resuming after each match.  [skip]
    counts the characters still covered by the previous match. *)
Fixpoint match_imports_from (skip : nat) (s : string) : list string :=
  match s with
  | "" => []
  | String _ r =>
      match skip with
      | S k => match_imports_from k r
      | O =>
          match import_here s with
          | Some m => m :: match_imports_from (String.length m - 1) r
          | None => match_imports_from 0 r
          end
      end
  end.

Definition match_imports (s : string) : list string := match_imports_from 0 s.

Definition match_json_object (s : string) : option string := match_delimited "{" "}" s.

Definition resolveImport (fromFile importPath : string) : string :=
  let fromDir := upToLast fromFile "/" in
  if startsWith importPath "./" then
    fromDir +:+ "/" +:+ String.substring 2 (String.length importPath - 2) importPath
  else if startsWith importPath "../" then
    let parent := upToLast fromDir "/" in
    parent +:+ "/" +:+ String.substring 3 (String.length importPath - 3) importPath
  else importPath.

Definition fileExists (analysisResult : SolidityAnalysisResult) (path : string) : bool :=
  existsb (fun c => String.eqb (filePath c) path) (contracts analysisResult).

(** [Map.set] on a map kept in insertion order. *)
Fixpoint map_set {V : Type} (k : string) (v : V) (m : list (string * V)) : list (string * V) :=
  match m with
  | [] => [(k, v)]
  | (k', v') :: rest =>
      if String.eqb k' k then (k', v) :: rest else (k', v') :: map_set k v rest
  end.

(** The body of the loop of [groupRecommendationsByFile]: create the
    group when the key is new, then push onto the group. *)
Fixpoint push_grouped (k : string) (r : MigrationRecommendation)
  (m : list (string * list MigrationRecommendation))
  : list (string * list MigrationRecommendation) :=
  match m with
  | [] => [(k, [r])]
  | (k', l) :: rest =>
      if String.eqb k' k then (k', l ++ [r]) :: rest else (k', l) :: push_grouped k r rest
  end.

Definition groupRecommendationsByFile (plan : MigrationPlan)
  : list (string * list MigrationRecommendation) :=
  fold_left (fun grouped rec => push_grouped (rec_filePath rec) rec grouped)
    (recommendations plan) [].

(** The import check of [validateCrossFileConsistency] for one file.  The
    state is the local array [issues] and the flag [importsValid]. *)
Definition check_imports (analysisResult : SolidityAnalysisResult)
  (state : list string * bool) (entry : string * TransformedFile) : list string * bool :=
  let '(filePath, transformed) := entry in
  let importMatches := match_imports (transformedContent transformed) in
  fold_left
    (fun '(issues, importsValid) importStatement =>
       match match_quoted importStatement with
       | Some importPath =>
           if negb (String.eqb importPath "") && negb (startsWith importPath "http") then
             let resolvedPath := resolveImport filePath importPath in
             if negb (fileExists analysisResult resolvedPath)
                && negb (includes importPath "@")
             then (issues ++ [ "File " +:+ filePath +:+ ": Import not found: " +:+ importPath ],
                   false)
             else (issues, importsValid)
           else (issues, importsValid)
       | None => (issues, importsValid)
       end)
    importMatches state.

(** The inheritance check for one contract; the state is [issues] and the
    flag [inheritanceValid]. *)
Definition check_inheritance (analysisResult : SolidityAnalysisResult)
  (state : list string * bool) (c : SolidityContract) : list string * bool :=
  fold_left
    (fun '(issues, inheritanceValid) parentName =>
       match List.find (fun p => String.eqb (name p) parentName)
               (contracts analysisResult) with
       | None =>
           if negb (includes parentName "@")
           then (issues ++ [ "Contract " +:+ name c +:+ ": Parent contract not found: "
                               +:+ parentName ],
                 false)
           else (issues, inheritanceValid)
       | Some _ => (issues, inheritanceValid)
       end)
    (inherits c) state.

(** [validateCrossFileConsistency]: the [crossFileConsistency] field it
    leaves in a report whose flags were both [true] before the call. *)
Definition validateCrossFileConsistency (analysisResult : SolidityAnalysisResult)
  (transformedFiles : list (string * TransformedFile)) : ConsistencyReport :=
  let '(issues, importsValid) :=
    fold_left (check_imports analysisResult) transformedFiles ([], true) in
  let '(issues, inheritanceValid) :=
    fold_left (check_inheritance analysisResult) (contracts analysisResult) (issues, true) in
  {| checked := true;
     importsValid := importsValid;
     inheritanceValid := inheritanceValid;
     issues := issues |}.

Definition show_category (c : ChangeCategory) : string :=
  match c with
  | gas_optimization => "gas-optimization"
  | monad_feature => "monad-feature"
  | evm_compatibility => "evm-compatibility"
  | performance => "performance"
  | architecture => "architecture"
  | security_consideration => "security-consideration"
  end.

Definition or_none (s : string) : string := if String.eqb s "" then "none" else s.

Definition userPrompt (context : TransformationContext) : string :=
  let recommendationsText :=
    join (nl +:+ nl)
      (map (fun '(i, r) =>
              of_nat (i + 1) +:+ ". [" +:+ show_category (changeCategory r) +:+ "] "
                +:+ recommendedChange r +:+ nl +:+ "   Rationale: " +:+ rationale r)
         (combine (seq 0 (length (ctx_recommendations context)))
            (ctx_recommendations context))) in
  "Transform this Solidity file according to these migration recommendations:" +:+ nl
    +:+ nl
    +:+ "FILE: " +:+ ctx_filePath context +:+ nl
    +:+ "CONTRACTS: " +:+ or_none (join ", " (contractNames context)) +:+ nl
    +:+ "IMPORTS: " +:+ or_none (join ", " (importedContracts context)) +:+ nl
    +:+ nl
    +:+ "RECOMMENDATIONS TO APPLY:" +:+ nl
    +:+ recommendationsText +:+ nl
    +:+ nl
    +:+ "ORIGINAL CODE:" +:+ nl
    +:+ "```solidity" +:+ nl
    +:+ ctx_originalContent context +:+ nl
    +:+ "```" +:+ nl
    +:+ nl
    +:+ "Apply ONLY the changes described above. Preserve formatting and comments. Be conservative - skip ambiguous changes.".

Definition generateRecommendations {N : Type} `{Number N} (filesModified : nat) (overall : N)
  (consistency : ConsistencyReport) (errors : list TransformError) : list string :=
  let r1 := if Nat.eqb filesModified 0
            then [ "No transformations applied - review migration plan" ] else [] in
  let r2 := if (overall <? literal (7 # 10))%num
            then [ "Low confidence in transformations - manual review recommended" ] else [] in
  let r3 := if Nat.ltb 0 (length (issues consistency))
            then [ "Fix " +:+ of_nat (length (issues consistency))
                     +:+ " cross-file consistency issues" ] else [] in
  let r4 := if Nat.ltb 0 (length errors)
            then [ "Review " +:+ of_nat (length errors) +:+ " transformation errors" ] else [] in
  let recommendations := r1 ++ r2 ++ r3 ++ r4 in
  if Nat.eqb (length recommendations) 0
  then [ "Transformations completed successfully - ready for testing" ]
  else recommendations.

(** The state that the loop of [transformRepository] updates. *)
Record LoopState := {
  ls_filesProcessed : nat;
  ls_filesModified : nat;
  ls_filesSkipped : nat;
  ls_totalAppliedChanges : nat;
  ls_totalSkippedChanges : nat;
  ls_fileReports : list FileTransformReport;
  ls_errors : list TransformError;
  ls_transformedFiles : list (string * TransformedFile) }.

Definition initial_state : LoopState :=
  {| ls_filesProcessed := 0; ls_filesModified := 0; ls_filesSkipped := 0;
     ls_totalAppliedChanges := 0; ls_totalSkippedChanges := 0;
     ls_fileReports := []; ls_errors := []; ls_transformedFiles := [] |}.

Section Agent.
(** The model client with the transformer's system prompt. *)
Variable messages_create : string -> Result (list ContentBlock).
(** [JSON.parse] of the reply, read as a [PerFileTransformation]. *)
Variable JSON_parse : string -> Result PerFileTransformation.
(** [githubClient.getFileContent(owner, repo, path)]. *)
Variable github_getFileContent : string -> string -> string -> Result string.
Variable toISOString : Z -> string.
Variable of_time : Z -> string.

Variable migrationPlan : MigrationPlan.
Variable analysisResult : SolidityAnalysisResult.
Variable repositoryTree : RepositoryTree.

(** [findFileInTree] always returns [null], so the content comes from
    the GitHub client; a failure there yields [null]. *)
Definition getFileContent (filePath : string) : option string :=
  match github_getFileContent (owner (metadata repositoryTree))
          (repo_name (metadata repositoryTree)) filePath with
  | Ok content => Some content
  | Throw _ => None
  end.

Definition performFileTransformation (context : TransformationContext)
  : Result PerFileTransformation :=
  match messages_create (userPrompt context) with
  | Throw m => Throw m
  | Ok [] => Throw "Cannot read properties of undefined (reading 'type')"
  | Ok (OtherBlock _ :: _) => Throw "Unexpected response type from Claude"
  | Ok (TextBlock text :: _) =>
      match match_json_object text with
      | None =>
          Ok {| action := skip;
                reason := Some "Failed to parse transformation response";
                reply_appliedChanges := Some [];
                reply_transformedCode := None;
                reply_warnings := Some [ "Claude response parsing failed" ] |}
      | Some jsonMatch =>
          match JSON_parse jsonMatch with
          | Ok result => Ok result
          | Throw parseError =>
              Ok {| action := skip;
                    reason := Some "Failed to parse Claude JSON response";
                    reply_appliedChanges := Some [];
                    reply_transformedCode := None;
                    reply_warnings := Some [ "JSON parsing error: " +:+ parseError ] |}
          end
      end
  end.

Definition transformFile (filePath : string)
  (recommendations : list MigrationRecommendation) : Result TransformedFile :=
  match getFileContent filePath with
  | None | Some "" => Throw ("Could not fetch file content: " +:+ filePath)
  | Some originalContent =>
      let contract :=
        List.find (fun c => String.eqb (Analyzer.filePath c) filePath)
          (contracts analysisResult) in
      let context :=
        {| ctx_filePath := filePath;
           ctx_originalContent := originalContent;
           ctx_recommendations := recommendations;
           contractNames := match contract with Some c => [name c] | None => [] end;
           importedContracts := match contract with Some c => imports c | None => [] end |} in
      match performFileTransformation context with
      | Throw m => Throw m
      | Ok transformation =>
          let appliedChanges :=
            match action transformation, reply_appliedChanges transformation with
            | apply, Some changes =>
                map (fun '(i, change) =>
                       {| applied_changeIndex := i;
                          applied_recommendationId := filePath +:+ "-" +:+ of_nat i;
                          applied_description := change_description change;
                          originalCode := originalSnippet change;
                          transformedCode := transformedSnippet change;
                          lineNumbers := lineRange change |})
                  (combine (seq 0 (length changes)) changes)
            | _, _ => []
            end in
          let skippedChanges :=
            match action transformation with
            | skip =>
                map (fun '(i, r) =>
                       {| skipped_changeIndex := i;
                          skipped_recommendationId := filePath +:+ "-" +:+ of_nat i;
                          skipped_description := recommendedChange r;
                          skipped_reason :=
                            match reason transformation with
                            | None | Some "" => "Ambiguous or unsafe transformation"
                            | Some why => why
                            end |})
                  (combine (seq 0 (length recommendations)) recommendations)
            | apply => []
            end in
          let hasChanges := Nat.ltb 0 (length appliedChanges) in
          let transformedContent :=
            if hasChanges then
              match reply_transformedCode transformation with
              | None | Some "" => originalContent
              | Some code => code
              end
            else originalContent in
          Ok {| tf_filePath := filePath;
                originalContent := originalContent;
                transformedContent := transformedContent;
                appliedChanges := appliedChanges;
                skippedChanges := skippedChanges;
                hasChanges := hasChanges;
                tf_confidenceScore := calculateConfidenceScore appliedChanges recommendations;
                tf_warnings := match reply_warnings transformation with
                               | Some w => w
                               | None => []
                               end |}
      end
  end.

(** One iteration of the loop over the grouped recommendations. *)
Definition process_file (st : LoopState)
  (entry : string * list MigrationRecommendation) : LoopState :=
  let '(filePath, recommendations) := entry in
  match transformFile filePath recommendations with
  | Ok transformed =>
      {| ls_filesProcessed := ls_filesProcessed st + 1;
         ls_filesModified :=
           if hasChanges transformed then ls_filesModified st + 1 else ls_filesModified st;
         ls_filesSkipped :=
           if hasChanges transformed then ls_filesSkipped st else ls_filesSkipped st + 1;
         ls_totalAppliedChanges :=
           ls_totalAppliedChanges st + length (appliedChanges transformed);
         ls_totalSkippedChanges :=
           ls_totalSkippedChanges st + length (skippedChanges transformed);
         ls_fileReports :=
           ls_fileReports st ++
           [ {| fr_filePath := filePath;
                success := true;
                appliedChangesCount := length (appliedChanges transformed);
                skippedChangesCount := length (skippedChanges transformed);
                confidenceScore := tf_confidenceScore transformed;
                fr_warnings := tf_warnings transformed;
                diffPreview :=
                  generateDiffPreview (originalContent transformed)
                    (transformedContent transformed) |} ];
         ls_errors := ls_errors st;
         ls_transformedFiles := map_set filePath transformed (ls_transformedFiles st) |}
  | Throw message =>
      {| ls_filesProcessed := ls_filesProcessed st + 1;
         ls_filesModified := ls_filesModified st;
         ls_filesSkipped := ls_filesSkipped st + 1;
         ls_totalAppliedChanges := ls_totalAppliedChanges st;
         ls_totalSkippedChanges := ls_totalSkippedChanges st;
         ls_fileReports := ls_fileReports st;
         ls_errors := ls_errors st ++ [ {| te_filePath := Some filePath; te_error := message |} ];
         ls_transformedFiles := ls_transformedFiles st |}
  end.

(** The summary value computed after the loop. *)
Definition overall_confidence (filesModified : nat)
  (fileReports : list FileTransformReport) : float :=
  if Nat.ltb 0 filesModified then
    round2 (fold_left (fun sum f => sum + confidenceScore f) fileReports (literal 0)
            / of_length (length fileReports))%num
  else literal 0.

Definition transformRepository (now : Z) : TransformationReport :=
  let recommendationsByFile := groupRecommendationsByFile migrationPlan in
  let st := fold_left process_file recommendationsByFile initial_state in
  let consistency := validateCrossFileConsistency analysisResult (ls_transformedFiles st) in
  let overall := overall_confidence (ls_filesModified st) (ls_fileReports st) in
  {| report_repositoryName := fullName (metadata repositoryTree);
     report_timestamp := toISOString now;
     transformationId := fullName (metadata repositoryTree) +:+ "-" +:+ of_time now;
     filesProcessed := ls_filesProcessed st;
     filesModified := ls_filesModified st;
     filesSkipped := ls_filesSkipped st;
     totalAppliedChanges := ls_totalAppliedChanges st;
     totalSkippedChanges := ls_totalSkippedChanges st;
     fileReports := ls_fileReports st;
     crossFileConsistency := consistency;
     report_summary :=
       {| overallConfidence := overall;
          summary_recommendations :=
            generateRecommendations (ls_filesModified st) overall consistency (ls_errors st);
          summary_nextSteps :=
            [ "Review transformed code in diffs/";
              "Run test suite to verify functionality";
              "Check cross-file imports and references";
              "Deploy to Monad testnet";
              "Perform load testing for parallelization benefits";
              "Audit critical contracts pre-mainnet" ] |};
     errors := ls_errors st |}.
End Agent.

End Transformer.

(** ** The HTTP server and its caches ([src/server/http.ts])

    The handlers of the analysis, plan and transform routes are embedded.
    The ingestion handler only stores the tree it fetched in [repoCache];
    the explain-validate handler repeats the cache code of the transform
    handler before it calls the explainer. *)

Module Http.
Import JsString Analyzer Planner Transformer.

(** *** The three process-wide caches *)

(** Every writer of [analysisCache] stores the metadata of the tree it
    analysed, so [repoMetadata] is always present in an entry; the two
    branches of [handlePlanMigrationRequest] that handle a missing
    [repoMetadata] cannot be taken and are left out. *)
Record AnalysisCache := {
  analysisResult : SolidityAnalysisResult;
  repoMetadata : RepositoryMetadata;
  ac_timestamp : Z }.

Record PlanCache := {
  plan : MigrationPlan;
  pc_timestamp : Z }.

Record Caches := {
  repoCache : gmap string RepositoryTree;
  analysisCache : gmap string AnalysisCache;
  planCache : gmap string PlanCache }.

Definition empty_caches : Caches :=
  {| repoCache := ∅; analysisCache := ∅; planCache := ∅ |}.

Definition CACHE_TTL_MS : Z := 30 * 60 * 1000.

Definition MAX_RECOMMENDATIONS : nat := 200.

Definition set_repo (key : string) (tree : RepositoryTree) (c : Caches) : Caches :=
  {| repoCache := <[key := tree]> (repoCache c);
     analysisCache := analysisCache c;
     planCache := planCache c |}.

Definition set_analysis (key : string) (entry : AnalysisCache) (c : Caches) : Caches :=
  {| repoCache := repoCache c;
     analysisCache := <[key := entry]> (analysisCache c);
     planCache := planCache c |}.

Definition set_plan (key : string) (entry : PlanCache) (c : Caches) : Caches :=
  {| repoCache := repoCache c;
     analysisCache := analysisCache c;
     planCache := <[key := entry]> (planCache c) |}.

(** *** Requests and responses *)

(** The body of a request as the request interfaces declare it: a JSON
    object whose fields [repoUrl] and [repoId] are strings or absent.  The
    handlers do not validate the body; what they do when one of these
    fields holds another JSON value (a truthy [repoUrl] that is not a string
    makes [body.repoUrl.match] throw, which is answered with status 500) is
    not part of this embedding. *)
Record RequestBody := {
  repoUrl : option string;
  repoId : option string }.

(** Truthiness of an optional string field. *)
Definition truthy (o : option string) : bool :=
  match o with
  | Some s => negb (String.eqb s "")
  | None => false
  end.

Inductive Response :=
| Status400 (error : string)
| Status500 (error : string)
| AnalyzeOk (result : SolidityAnalysisResult)
| PlanOk (plan : MigrationPlan)
| TransformOk (report : TransformationReport) (modifiedFiles : list string)
    (sampleDiffPreview : string).

(** *** The repository key

    The URL regular expression: the text github.com and a slash, one or
    more non-slash characters, a slash, one or more non-slash characters.
    Both groups are greedy and end at a slash or at the end of the text. *)
Definition not_slash (c : ascii) : bool := negb (Ascii.eqb c "/").

Definition github_here (s : string) : option (string * string) :=
  if String.prefix "github.com/" s then
    let after := String.substring 11 (String.length s - 11) s in
    match span not_slash after with
    | (String a1 a2, String _ r) =>
        match span not_slash r with
        | (String b1 b2, _) => Some (String a1 a2, String b1 b2)
        | _ => None
        end
    | _ => None
    end
  else None.

Fixpoint match_github (s : string) : option (string * string) :=
  match github_here s with
  | Some m => Some m
  | None =>
      match s with
      | "" => None
      | String _ r => match_github r
      end
  end.

(** [s.replace(/\.git$/, '')]. *)
Definition strip_git (s : string) : string :=
  let n := String.length s in
  if Nat.leb 4 n && String.eqb (String.substring (n - 4) 4 s) ".git"
  then String.substring 0 (n - 4) s else s.

Definition key_of_url (url : string) : option string :=
  match match_github url with
  | Some (o, r) => Some (o +:+ "/" +:+ strip_git r)
  | None => None
  end.

(** The key resolution shared by the plan and transform handlers: the
    response of an early return, or the key. *)
Definition resolve_key (body : RequestBody) : Response + string :=
  if negb (truthy (repoUrl body)) && negb (truthy (repoId body)) then
    inl (Status400 "Missing required field: repoUrl or repoId")
  else
    match repoId body, repoUrl body with
    | Some id, _ =>
        if truthy (Some id) then inr id
        else if truthy (repoUrl body) then
          match key_of_url (default "" (repoUrl body)) with
          | Some k => inr k
          | None => inl (Status400 "Invalid GitHub repository URL")
          end
        else inl (Status400 "Unable to resolve repository identifier")
    | None, Some url =>
        if truthy (Some url) then
          match key_of_url url with
          | Some k => inr k
          | None => inl (Status400 "Invalid GitHub repository URL")
          end
        else inl (Status400 "Unable to resolve repository identifier")
    | None, None => inl (Status400 "Unable to resolve repository identifier")
    end.

(** *** Handlers as coroutines

    An [async] handler runs synchronously up to its next [await].  A
    handler is either finished with a response, or suspended on a call to
    one of the four stage functions together with the code that runs when
    the call settles.  That code receives the outcome of the call, the
    value [Date.now()] has while it runs, and the caches as they are at
    that moment; it returns the caches it leaves and the next state. *)
Inductive Handler : Type :=
| Done (r : Response)
| AwaitIngest (url : string)
    (k : Result RepositoryTree -> Z -> Caches -> Caches * Handler)
| AwaitAnalyze (tree : RepositoryTree)
    (k : Result SolidityAnalysisResult -> Z -> Caches -> Caches * Handler)
| AwaitPlan (meta : RepositoryMetadata) (analysis : SolidityAnalysisResult)
    (k : Result MigrationPlan -> Z -> Caches -> Caches * Handler)
| AwaitTransform (p : MigrationPlan) (analysis : SolidityAnalysisResult)
    (tree : RepositoryTree)
    (k : Result TransformationReport -> Z -> Caches -> Caches * Handler).

(** The first synchronous segment of a handler. *)
Definition Segment : Type := Z -> Caches -> Caches * Handler.

Definition fail (c : Caches) (message : string) : Caches * Handler :=
  (c, Done (Status500 message)).

(** **** [handleAnalyzeSolidityRequest] *)

Definition analyze_and_respond (repoTree : RepositoryTree) (c : Caches) : Caches * Handler :=
  (c, AwaitAnalyze repoTree
        (fun r _ c =>
           match r with
           | Ok analysisResult => (c, Done (AnalyzeOk analysisResult))
           | Throw m => fail c m
           end)).

Definition handleAnalyzeSolidityRequest (body : RequestBody) : Segment :=
  fun _ c =>
    match repoUrl body with
    | None | Some "" => (c, Done (Status400 "Missing required field: repoUrl"))
    | Some url =>
        match key_of_url url with
        | None => (c, Done (Status400 "Invalid GitHub repository URL"))
        | Some cacheKey =>
            match repoCache c !! cacheKey with
            | Some repoTree => analyze_and_respond repoTree c
            | None =>
                (c, AwaitIngest url
                      (fun r _ c =>
                         match r with
                         | Ok repoTree =>
                             analyze_and_respond repoTree (set_repo cacheKey repoTree c)
                         | Throw m => fail c m
                         end))
            end
        end
    end.

(** **** [handlePlanMigrationRequest] *)

(** The truncation applied to the plan before it is cached and returned. *)
Definition truncate_plan (migrationPlan : MigrationPlan) : MigrationPlan :=
  if Nat.ltb MAX_RECOMMENDATIONS (length (recommendations migrationPlan)) then
    {| repositoryName := repositoryName migrationPlan;
       timestamp := timestamp migrationPlan;
       analysisId := analysisId migrationPlan;
       monadVersion := monadVersion migrationPlan;
       recommendations := firstn MAX_RECOMMENDATIONS (recommendations migrationPlan);
       summary := summary migrationPlan;
       assumptions := assumptions migrationPlan;
       limitations :=
         limitations migrationPlan ++
         [ "Recommendations truncated to first " +:+ of_nat MAX_RECOMMENDATIONS
             +:+ " items for response size limits" ];
       nextSteps := nextSteps migrationPlan |}
  else migrationPlan.

Definition plan_and_respond (cacheKey : string) (meta : RepositoryMetadata)
  (analysis : SolidityAnalysisResult) (c : Caches) : Caches * Handler :=
  (c, AwaitPlan meta analysis
        (fun r now c =>
           match r with
           | Ok migrationPlan =>
               let migrationPlan := truncate_plan migrationPlan in
               (set_plan cacheKey {| plan := migrationPlan; pc_timestamp := now |} c,
                Done (PlanOk migrationPlan))
           | Throw m => fail c m
           end)).

Definition plan_analyze (cacheKey : string) (repoTree : RepositoryTree) (c : Caches)
  : Caches * Handler :=
  (c, AwaitAnalyze repoTree
        (fun r now c =>
           match r with
           | Ok analysisResult =>
               let repoMetadata := metadata repoTree in
               plan_and_respond cacheKey repoMetadata analysisResult
                 (set_analysis cacheKey
                    {| analysisResult := analysisResult;
                       repoMetadata := repoMetadata;
                       ac_timestamp := now |} c)
           | Throw m => fail c m
           end)).

Definition handlePlanMigrationRequest (body : RequestBody) : Segment :=
  fun _ c =>
    match resolve_key body with
    | inl response => (c, Done response)
    | inr cacheKey =>
        match analysisCache c !! cacheKey with
        | Some cached =>
            plan_and_respond cacheKey (repoMetadata cached) (analysisResult cached) c
        | None =>
            match repoCache c !! cacheKey with
            | Some repoTree => plan_analyze cacheKey repoTree c
            | None =>
                match repoUrl body with
                | None | Some "" =>
                    (c, Done (Status400 "Repository not cached; provide repoUrl to ingest"))
                | Some url =>
                    (c, AwaitIngest url
                          (fun r _ c =>
                             match r with
                             | Ok repoTree =>
                                 plan_analyze cacheKey repoTree (set_repo cacheKey repoTree c)
                             | Throw m => fail c m
                             end))
                end
            end
        end
    end.

(** **** [handleTransformRequest] *)

Definition transform_response (report : TransformationReport) : Response :=
  let modifiedFiles :=
    map fr_filePath
      (List.filter (fun f => Nat.ltb 0 (appliedChangesCount f)) (fileReports report)) in
  let sampleDiffPreview :=
    match List.find (fun f => negb (String.eqb (diffPreview f) "")) (fileReports report) with
    | Some sampleFile => diffPreview sampleFile
    | None => ""
    end in
  TransformOk report modifiedFiles sampleDiffPreview.

Definition transform_stage (tree : RepositoryTree) (analysis : SolidityAnalysisResult)
  (migrationPlan : MigrationPlan) (c : Caches) : Caches * Handler :=
  (c, AwaitTransform migrationPlan analysis tree
        (fun r _ c =>
           match r with
           | Ok report => (c, Done (transform_response report))
           | Throw m => fail c m
           end)).

(** Is the entry absent, or older than the time to live? *)
Definition expired (now : Z) (stamp : option Z) : bool :=
  match stamp with
  | None => true
  | Some t => Z.ltb CACHE_TTL_MS (now - t)
  end.

Definition plan_stage (cacheKey : string) (tree : RepositoryTree) (entry : AnalysisCache)
  (now : Z) (c : Caches) : Caches * Handler :=
  match planCache c !! cacheKey with
  | Some planCache_ =>
      if expired now (Some (pc_timestamp planCache_)) then
        (c, AwaitPlan (repoMetadata entry) (analysisResult entry)
              (fun r now c =>
                 match r with
                 | Ok migrationPlan =>
                     transform_stage tree (analysisResult entry) migrationPlan
                       (set_plan cacheKey {| plan := migrationPlan; pc_timestamp := now |} c)
                 | Throw m => fail c m
                 end))
      else transform_stage tree (analysisResult entry) (plan planCache_) c
  | None =>
      (c, AwaitPlan (repoMetadata entry) (analysisResult entry)
            (fun r now c =>
               match r with
               | Ok migrationPlan =>
                   transform_stage tree (analysisResult entry) migrationPlan
                     (set_plan cacheKey {| plan := migrationPlan; pc_timestamp := now |} c)
               | Throw m => fail c m
               end))
  end.

Definition analysis_stage (cacheKey : string) (tree : RepositoryTree)
  (now : Z) (c : Caches) : Caches * Handler :=
  let recompute :=
    (c, AwaitAnalyze tree
          (fun r now c =>
             match r with
             | Ok analysisResult =>
                 let entry := {| analysisResult := analysisResult;
                                 repoMetadata := metadata tree;
                                 ac_timestamp := now |} in
                 plan_stage cacheKey tree entry now (set_analysis cacheKey entry c)
             | Throw m => fail c m
             end)) in
  match analysisCache c !! cacheKey with
  | Some analysisCache_ =>
      if expired now (Some (ac_timestamp analysisCache_)) then recompute
      else plan_stage cacheKey tree analysisCache_ now c
  | None => recompute
  end.

(** [body.repoUrl || `https://github.com/${cacheKey}`]. *)
Definition ingest_url (body : RequestBody) (cacheKey : string) : string :=
  if truthy (repoUrl body) then default "" (repoUrl body)
  else "https://github.com/" +:+ cacheKey.

Definition handleTransformRequest (body : RequestBody) : Segment :=
  fun now c =>
    match resolve_key body with
    | inl response => (c, Done response)
    | inr cacheKey =>
        match repoCache c !! cacheKey with
        | Some tree => analysis_stage cacheKey tree now c
        | None =>
            let repoUrl := ingest_url body cacheKey in
            (c, AwaitIngest repoUrl
                  (fun r now c =>
                     match r with
                     | Ok tree => analysis_stage cacheKey tree now (set_repo cacheKey tree c)
                     | Throw m => fail c m
                     end))
        end
    end.

(** *** Running handlers *)

(** The stage functions the handlers await. *)
Record Env := {
  ingestRepository : string -> Result RepositoryTree;
  analyzeSolidityRepository : RepositoryTree -> Result SolidityAnalysisResult;
  planRepositoryMigration :
    RepositoryMetadata -> SolidityAnalysisResult -> Result MigrationPlan;
  transformRepository :
    MigrationPlan -> SolidityAnalysisResult -> RepositoryTree -> Result TransformationReport }.

(** The stage a handler is suspended on. *)
Inductive Stage := StageTree | StageAnalysis | StagePlan | StageTransform.

Definition Stage_eqb (a b : Stage) : bool :=
  match a, b with
  | StageTree, StageTree | StageAnalysis, StageAnalysis
  | StagePlan, StagePlan | StageTransform, StageTransform => true
  | _, _ => false
  end.

(** The shared state of the process, and the stage calls made so far. *)
Record World := {
  caches : Caches;
  calls : list Stage }.

Definition started (h : Handler) : list Stage :=
  match h with
  | Done _ => []
  | AwaitIngest _ _ => [StageTree]
  | AwaitAnalyze _ _ => [StageAnalysis]
  | AwaitPlan _ _ _ => [StagePlan]
  | AwaitTransform _ _ _ _ => [StageTransform]
  end.

Definition settle (w : World) (r : Caches * Handler) : World * Handler :=
  ({| caches := fst r; calls := calls w ++ started (snd r) |}, snd r).

(** A request arrives at time [now]: its first segment runs. *)
Definition arrive (now : Z) (w : World) (s : Segment) : World * Handler :=
  settle w (s now (caches w)).

(** The call a handler waits for settles at time [now]: the handler
    runs up to its next [await]. *)
Definition resume (env : Env) (now : Z) (w : World) (h : Handler) : World * Handler :=
  match h with
  | Done _ => (w, h)
  | AwaitIngest url k => settle w (k (ingestRepository env url) now (caches w))
  | AwaitAnalyze tree k => settle w (k (analyzeSolidityRepository env tree) now (caches w))
  | AwaitPlan meta analysis k =>
      settle w (k (planRepositoryMigration env meta analysis) now (caches w))
  | AwaitTransform p analysis tree k =>
      settle w (k (transformRepository env p analysis tree) now (caches w))
  end.

(** One request served alone: the calls it awaits settle at the given
    times, one per call. *)
Fixpoint run (env : Env) (times : list Z) (w : World) (h : Handler) : World * Handler :=
  match times with
  | [] => (w, h)
  | now :: later =>
      match h with
      | Done _ => (w, h)
      | _ => let '(w', h') := resume env now w h in run env later w' h'
      end
  end.

Definition serve (env : Env) (now : Z) (times : list Z) (w : World) (s : Segment)
  : World * Handler :=
  let '(w', h) := arrive now w s in run env times w' h.




(** How often a stage function has been called. *)
Definition count_calls (s : Stage) (w : World) : nat :=
  length (List.filter (Stage_eqb s) (calls w)).


End Http.

(** ** Ingestion ([src/ingestion/fileTypeDetector.ts], [src/ingestion/repository.ts]) *)

Module Ingestion.
Import JsString Analyzer.

(** *** File names *)

(** [s.split(c)] for a one-character separator: never empty. *)
Fixpoint split_char (c : ascii) (s : string) : list string :=
  match s with
  | "" => [""]
  | String x r =>
      if Ascii.eqb x c then "" :: split_char c r
      else match split_char c r with
           | l :: ls => String x l :: ls
           | [] => [String x ""]
           end
  end.

(** [toLowerCase] on code units below 256: the letters A to Z, and the
    capital letters from 192 to 222 other than the multiplication sign,
    move up by 32. *)
Definition lower (c : ascii) : ascii :=
  let n := nat_of_ascii c in
  if (Nat.leb 65 n && Nat.leb n 90)
     || (Nat.leb 192 n && Nat.leb n 222 && negb (Nat.eqb n 215))
  then ascii_of_nat (n + 32) else c.

Fixpoint toLowerCase (s : string) : string :=
  match s with
  | "" => ""
  | String c r => String (lower c) (toLowerCase r)
  end.

(** [s.endsWith(e)]. *)
Definition endsWith (s e : string) : bool :=
  Nat.leb (String.length e) (String.length s)
  && String.eqb
       (String.substring (String.length s - String.length e) (String.length e) s) e.

Definition SOLIDITY_EXTENSIONS : list string := [".sol"].
Definition TYPESCRIPT_EXTENSIONS : list string := [".ts"; ".tsx"].
Definition JAVASCRIPT_EXTENSIONS : list string := [".js"; ".jsx"].
Definition CONFIG_EXTENSIONS : list string := [".json"; ".yaml"; ".yml"; ".toml"; ".config.js"].
Definition MARKDOWN_EXTENSIONS : list string := [".md"; ".markdown"; ".mdx"].

Definition IGNORE_DIRECTORIES : list string :=
  [ "node_modules"; ".git"; ".github"; "dist"; "build"; "coverage"; ".next"; "out";
    ".vercel"; "artifacts"; "cache"; ".cache"; "venv"; ".venv"; "__pycache__" ].

Definition IGNORE_FILES : list string :=
  [ ".DS_Store"; "Thumbs.db"; ".env"; ".env.local"; ".env.production"; ".npmrc"; ".yarnrc" ].

Definition getFileExtension (filename : string) : string :=
  let parts := split_char "." filename in
  if Nat.leb (length parts) 1 then ""
  else "." +:+ toLowerCase (List.last parts "").

Definition detectFileType (filename : string) : FileType :=
  let ext := getFileExtension filename in
  if includes_str SOLIDITY_EXTENSIONS ext then solidity
  else if includes_str TYPESCRIPT_EXTENSIONS ext then typescript
  else if includes_str JAVASCRIPT_EXTENSIONS ext then javascript
  else if includes_str CONFIG_EXTENSIONS ext
          || existsb (fun e => endsWith filename e) CONFIG_EXTENSIONS then config
  else if includes_str MARKDOWN_EXTENSIONS ext then markdown
  else other.

Definition shouldIgnoreDirectory (dirName : string) : bool :=
  includes_str IGNORE_DIRECTORIES dirName.

Definition shouldIgnoreFile (fileName : string) : bool :=
  includes_str IGNORE_FILES fileName.

Definition isRelevantFile (fileType : FileType) : bool :=
  match fileType with
  | solidity | typescript | javascript | config => true
  | markdown | other => false
  end.

(** *** The repository URL

    The regular expression of [parseRepositoryUrl]: the text github.com and
    a slash, one or more non-slash characters, a slash, one or more
    non-slash characters, an optional slash, and the end of the text.  Both
    groups are greedy and must be followed by a slash or by the end, so
    only the maximal runs can match.  [repo_here s] is the match at the
    head of [s]. *)
Definition not_slash (c : ascii) : bool := negb (Ascii.eqb c "/").

Definition repo_here (s : string) : option (string * string) :=
  if String.prefix "github.com/" s then
    let after := String.substring 11 (String.length s - 11) s in
    match span not_slash after with
    | (String a1 a2, String _ r) =>
        match span not_slash r with
        | (String b1 b2, "") => Some (String a1 a2, String b1 b2)
        | (String b1 b2, "/") => Some (String a1 a2, String b1 b2)
        | _ => None
        end
    | _ => None
    end
  else None.

Fixpoint match_repo (s : string) : option (string * string) :=
  match repo_here s with
  | Some m => Some m
  | None =>
      match s with
      | "" => None
      | String _ r => match_repo r
      end
  end.

Definition parseRepositoryUrl (repoUrl : string) : Result (string * string) :=
  match match_repo repoUrl with
  | Some m => Ok m
  | None =>
      Throw ("Invalid GitHub repository URL: " +:+ repoUrl
               +:+ ". Expected format: https://github.com/owner/repo")
  end.

(** *** The ingester *)

Definition MAX_RECURSION_DEPTH : nat := 10.
Definition MAX_FILES_TO_FETCH : Z := 5000.

(** An entry of a directory listing, as the GitHub client returns it. *)
Record ContentItem := {
  item_type : string;
  item_name : string;
  item_path : string;
  item_size : Z;
  item_sha : option string }.

(** The counters of the ingester. *)
Record Counters := {
  fileCount : Z;
  solidityCount : Z;
  typescriptCount : Z;
  javascriptCount : Z;
  configCount : Z;
  otherCount : Z }.

Definition zero_counters : Counters :=
  {| fileCount := 0; solidityCount := 0; typescriptCount := 0;
     javascriptCount := 0; configCount := 0; otherCount := 0 |}.

(** [this.fileCount++] and the switch on the file type. *)
Definition count_file (fileType : FileType) (k : Counters) : Counters :=
  let k := {| fileCount := fileCount k + 1;
              solidityCount := solidityCount k;
              typescriptCount := typescriptCount k;
              javascriptCount := javascriptCount k;
              configCount := configCount k;
              otherCount := otherCount k |} in
  match fileType with
  | solidity =>
      {| fileCount := fileCount k; solidityCount := solidityCount k + 1;
         typescriptCount := typescriptCount k; javascriptCount := javascriptCount k;
         configCount := configCount k; otherCount := otherCount k |}
  | typescript =>
      {| fileCount := fileCount k; solidityCount := solidityCount k;
         typescriptCount := typescriptCount k + 1; javascriptCount := javascriptCount k;
         configCount := configCount k; otherCount := otherCount k |}
  | javascript =>
      {| fileCount := fileCount k; solidityCount := solidityCount k;
         typescriptCount := typescriptCount k; javascriptCount := javascriptCount k + 1;
         configCount := configCount k; otherCount := otherCount k |}
  | config =>
      {| fileCount := fileCount k; solidityCount := solidityCount k;
         typescriptCount := typescriptCount k; javascriptCount := javascriptCount k;
         configCount := configCount k + 1; otherCount := otherCount k |}
  | markdown | other =>
      {| fileCount := fileCount k; solidityCount := solidityCount k;
         typescriptCount := typescriptCount k; javascriptCount := javascriptCount k;
         configCount := configCount k; otherCount := otherCount k + 1 |}
  end.

(** The last segment of the path, or [root] when it is empty. *)
Definition directory_name (path : string) : string :=
  match List.last (split_char "/" path) "" with
  | "" => "root"
  | n => n
  end.

Definition empty_directory (path : string) : RepositoryDirectory :=
  mkDirectory path (directory_name path) [] [].

Section Client.
(** [client.getRepository(owner, repo)]. *)
Variable getRepository : string -> string -> Result RepositoryMetadata.
(** [client.getRepositoryContents(owner, repo, path)]. *)
Variable getRepositoryContents : string -> string -> string -> Result (list ContentItem).
Variable toISOString : Z -> string.

(** [fetchDirectoryTree] by the number of levels that may still be
    fetched, which is [MAX_RECURSION_DEPTH + 1 - depth]: no level is left
    exactly when [depth > MAX_RECURSION_DEPTH].  The counters are the
    fields of the ingester.  A listing that cannot be fetched gives an
    empty directory. *)
Fixpoint fetch_levels (levels : nat) (owner repo path : string) (k : Counters)
  : Counters * RepositoryDirectory :=
  match levels with
  | O => (k, empty_directory path)
  | S deeper =>
      if Z.ltb MAX_FILES_TO_FETCH (fileCount k) then (k, empty_directory path)
      else
        match getRepositoryContents owner repo path with
        | Throw _ => (k, empty_directory path)
        | Ok contents =>
            let '(k', fs, subs) :=
              fold_left
                (fun '(k, fs, subs) item =>
                   if String.eqb (item_type item) "dir" then
                     if shouldIgnoreDirectory (item_name item) then (k, fs, subs)
                     else
                       let '(k1, subdir) := fetch_levels deeper owner repo (item_path item) k in
                       if Nat.ltb 0 (length (files subdir))
                          || Nat.ltb 0 (length (subdirectories subdir))
                       then (k1, fs, subs ++ [subdir])
                       else (k1, fs, subs)
                   else
                     if shouldIgnoreFile (item_name item) then (k, fs, subs)
                     else
                       let fileType := detectFileType (item_name item) in
                       let file := {| file_path := item_path item;
                                      file_name := item_name item;
                                      file_extension := getFileExtension (item_name item);
                                      file_type := fileType;
                                      file_size := item_size item;
                                      file_sha := item_sha item |} in
                       (count_file fileType k, fs ++ [file], subs))
                contents (k, [], []) in
            (k', mkDirectory path (directory_name path) fs subs)
        end
  end.

Definition fetchDirectoryTree (owner repo path : string) (depth : nat) (k : Counters)
  : Counters * RepositoryDirectory :=
  fetch_levels (MAX_RECURSION_DEPTH + 1 - depth) owner repo path k.

Definition ingestRepository (now : Z) (repoUrl : string) : Result RepositoryTree :=
  match parseRepositoryUrl repoUrl with
  | Throw m => Throw m
  | Ok (owner, repo) =>
      match getRepository owner repo with
      | Throw m => Throw m
      | Ok metadata =>
          let '(k, root) := fetchDirectoryTree owner repo "" 0 zero_counters in
          Ok {| metadata := metadata;
                root := root;
                tree_stats :=
                  {| totalFiles := fileCount k;
                     solidityFiles := solidityCount k;
                     typescriptFiles := typescriptCount k;
                     javascriptFiles := javascriptCount k;
                     configFiles := configCount k;
                     otherFiles := otherCount k;
                     totalSize := repo_size metadata * 1024 |};
                fetchedAt := toISOString now |}
      end
  end.
End Client.

End Ingestion.

(** ** The ingestion route ([src/server/http.ts]) *)

Module IngestRoute.
Import JsString Analyzer Http.

(** [buildPreview] by the number of levels below the current one, which is
    [maxDepth - currentDepth]: none is left exactly when
    [currentDepth >= maxDepth]. *)
Fixpoint preview_levels (levels : nat) (dir : RepositoryDirectory) : RepositoryDirectory :=
  match levels with
  | O => mkDirectory (dir_path dir) (dir_name dir) (firstn 10 (files dir)) []
  | S below =>
      mkDirectory (dir_path dir) (dir_name dir) (firstn 10 (files dir))
        (map (preview_levels below) (firstn 5 (subdirectories dir)))
  end.

Definition buildPreview (dir : RepositoryDirectory) (currentDepth maxDepth : nat)
  : RepositoryDirectory :=
  preview_levels (maxDepth - currentDepth) dir.

Record IngestMetadata := {
  im_owner : string;
  im_name : string;
  im_fullName : string }.

Record IngestStats := {
  is_totalFiles : Z;
  is_solidityFiles : Z;
  is_typescriptFiles : Z;
  is_javascriptFiles : Z;
  is_configFiles : Z;
  is_totalSize : Z }.

Inductive IngestResponse :=
| Ingest400 (error : string)
| Ingest500 (error : string)
| IngestOk (meta : IngestMetadata) (stats : IngestStats)
    (preview : RepositoryDirectory) (maxDepth : nat).

(** [handleIngestRequest].  The handler touches the caches once, after its
    only [await]: [c] is the caches at the moment the ingestion settles. *)
Definition handleIngestRequest (env : Env) (body : RequestBody) (c : Caches)
  : Caches * IngestResponse :=
  match repoUrl body with
  | None | Some "" => (c, Ingest400 "Missing required field: repoUrl")
  | Some url =>
      match ingestRepository env url with
      | Throw m => (c, Ingest500 m)
      | Ok tree =>
          let preview := buildPreview (root tree) 0 2 in
          let cacheKey := owner (metadata tree) +:+ "/" +:+ repo_name (metadata tree) in
          (set_repo cacheKey tree c,
           IngestOk
             {| im_owner := owner (metadata tree);
                im_name := repo_name (metadata tree);
                im_fullName := fullName (metadata tree) |}
             {| is_totalFiles := totalFiles (tree_stats tree);
                is_solidityFiles := solidityFiles (tree_stats tree);
                is_typescriptFiles := typescriptFiles (tree_stats tree);
                is_javascriptFiles := javascriptFiles (tree_stats tree);
                is_configFiles := configFiles (tree_stats tree);
                is_totalSize := totalSize (tree_stats tree) |}
             preview 2)
      end
  end.

End IngestRoute.

(** ** The validator ([src/agents/explainerValidator.ts])

    The three checks of [validateCode] that produce its errors.  The
    warnings of [validateCode] hold characters above code unit 255 and are
    not part of this development. *)

Module Validator.
Import JsString Analyzer.

Definition validateImports (analysis : SolidityAnalysisResult) : list string :=
  let contractFiles : gmap string string :=
    fold_left (fun m c => <[name c := filePath c]> m) (contracts analysis) ∅ in
  fold_left
    (fun issues contract =>
       fold_left
         (fun issues importedName =>
            if negb (bool_decide (is_Some (contractFiles !! importedName)))
               && negb (includes importedName "@")
            then issues ++ [ "Contract " +:+ name contract
                               +:+ " imports unknown contract: " +:+ importedName ]
            else issues)
         (imports contract) issues)
    (contracts analysis) [].

Definition validateInheritance (analysis : SolidityAnalysisResult) : list string :=
  let contractNames : gset string := list_to_set (map name (contracts analysis)) in
  fold_left
    (fun issues contract =>
       fold_left
         (fun issues parent =>
            if negb (bool_decide (parent ∈ contractNames))
               && negb (includes parent "IERC")
            then issues ++ [ "Contract " +:+ name contract
                               +:+ " inherits from unknown parent: " +:+ parent ]
            else issues)
         (inherits contract) issues)
    (contracts analysis) [].

(** The loop over the functions computes a value it never uses. *)
Definition validateContractReferences (analysis : SolidityAnalysisResult)
  (modifiedFiles : list string) : list string := [].

(** The array [errors] of [validateCode]. *)
Definition validation_errors (analysis : SolidityAnalysisResult)
  (modifiedFiles : list string) : list string :=
  validateImports analysis ++ validateInheritance analysis
    ++ validateContractReferences analysis modifiedFiles.

End Validator.

(** ** Sample inputs *)

Module Samples.
Import JsString Analyzer Planner Transformer Http.

(** *** A file with a base contract and a contract derived from it *)

Definition sale_source : string :=
  "contract Token {}" +:+ nl +:+ "contract Sale is Token {}".

Definition leaf (ty : string) (field : option string) (s e : nat) : SyntaxNode :=
  mkNode ty field s e [].

(** The tree of that file.  The grammar gives a contract declaration the
    fields [name] and [body] only: the keywords and the inheritance
    specifiers after [is] are children without a field name, and the type
    inside a specifier is held under the field [ancestor]. *)
Definition sale_tree : SyntaxNode :=
  mkNode "source_file" None 0 43
    [ mkNode "contract_declaration" None 0 17
        [ leaf "contract" None 0 8;
          leaf "identifier" (Some "name") 9 14;
          mkNode "contract_body" (Some "body") 15 17
            [ leaf "{" None 15 16; leaf "}" None 16 17 ] ];
      mkNode "contract_declaration" None 18 43
        [ leaf "contract" None 18 26;
          leaf "identifier" (Some "name") 27 31;
          leaf "is" None 32 34;
          mkNode "inheritance_specifier" None 35 40
            [ mkNode "user_defined_type" (Some "ancestor") 35 40
                [ leaf "identifier" None 35 40 ] ];
          mkNode "contract_body" (Some "body") 41 43
            [ leaf "{" None 41 42; leaf "}" None 42 43 ] ] ].

Definition plain_contract (n path : string) (imps inhs : list string) : SolidityContract :=
  {| name := n; type := contract; filePath := path;
     imports := imps; inherits := inhs;
     functions := []; stateVariables := [];
     usesUpgradeablePattern := false |}.

Definition Token : SolidityContract := plain_contract "Token" "contracts/Sale.sol" [] [].

(** The unit of [Sale] with its parent, as an analysis that knows the
    inheritance would report it. *)
Definition Sale : SolidityContract :=
  plain_contract "Sale" "contracts/Sale.sol" [] ["Token"].

(** The unit of [Sale] as the analyzer extracts it from [sale_tree]. *)
Definition Sale_extracted : SolidityContract :=
  plain_contract "Sale" "contracts/Sale.sol" [] [].

Definition solidity_file (p : string) : RepositoryFile :=
  {| file_path := p; file_name := p; file_extension := ".sol";
     file_type := solidity; file_size := 0; file_sha := None |}.

Definition sample_metadata : RepositoryMetadata :=
  {| owner := "acme"; repo_name := "sale"; fullName := "acme/sale";
     url := "https://github.com/acme/sale"; description := None;
     defaultBranch := "main"; isPrivate := false; repo_size := 1 |}.

Definition sample_tree : RepositoryTree :=
  {| metadata := sample_metadata;
     root := mkDirectory "" "" [ solidity_file "contracts/Sale.sol" ] [];
     tree_stats := {| totalFiles := 1; solidityFiles := 1; typescriptFiles := 0;
                      javascriptFiles := 0; configFiles := 0; otherFiles := 0;
                      totalSize := 0 |};
     fetchedAt := "2025-01-01T00:00:00.000Z" |}.

(** The analysis run of the repository whose only file declares [Token]
    and [Sale is Token]. *)
Definition sale_run : SolidityAnalysisResult :=
  analyzeSolidity (fun _ _ _ => Ok sale_source) (fun _ => Some sale_tree) sample_tree.

(** *** A file that imports the same path twice *)

Definition twice_source : string :=
  "import " +:+ quoted "./A.sol" +:+ ";" +:+ nl
    +:+ "import {B} from " +:+ quoted "./A.sol" +:+ ";" +:+ nl
    +:+ "contract C {}".

Definition twice_tree : SyntaxNode :=
  mkNode "source_file" None 0 58
    [ leaf "import_directive" None 0 17;
      leaf "import_directive" None 18 44;
      mkNode "contract_declaration" None 45 58
        [ leaf "identifier" (Some "name") 54 55;
          leaf "contract_body" (Some "body") 56 58 ] ].

Definition twice_contract : SolidityContract :=
  plain_contract "C" "contracts/C.sol" ["./A.sol"; "./A.sol"] [].

Definition twice_repo : RepositoryTree :=
  {| metadata := sample_metadata;
     root := mkDirectory "" "" [ solidity_file "contracts/C.sol" ] [];
     tree_stats := tree_stats sample_tree;
     fetchedAt := fetchedAt sample_tree |}.

Definition twice_run : SolidityAnalysisResult :=
  analyzeSolidity (fun _ _ _ => Ok twice_source) (fun _ => Some twice_tree) twice_repo.

(** *** Replies of the model *)

Definition refusal : string := "I am sorry, I cannot produce recommendations.".

Definition sample_recommendation (path : string) (l : ConfidenceLevel)
  : MigrationRecommendation :=
  {| rec_filePath := path; contractName := "C"; changeCategory := performance;
     recommendedChange := "Batch the storage writes";
     rationale := "Fewer conflicting writes"; confidenceLevel := l;
     affectedContracts := None; references := None |}.

Definition sample_plan (recs : list MigrationRecommendation) : MigrationPlan :=
  {| repositoryName := "acme/sale"; timestamp := "2025-01-01T00:00:00.000Z";
     analysisId := "acme/sale-0"; monadVersion := "1.0.0";
     recommendations := recs;
     summary := {| totalFilesAnalyzed := 0; totalContractsAnalyzed := 0;
                   totalRecommendations := length recs; highConfidenceCount := 0;
                   mediumConfidenceCount := 0; lowConfidenceCount := 0 |};
     assumptions := []; limitations := ["Static analysis only"]; nextSteps := [] |}.

Definition sample_analysis (cs : list SolidityContract) : SolidityAnalysisResult :=
  {| contracts := cs;
     dependencyGraph := buildDependencyGraph cs;
     entryPointContracts := identifyEntryPoints cs (buildDependencyGraph cs);
     upgradeableContracts := [];
     stats := {| totalContracts := length cs; abstractContracts := 0; interfaces := 0;
                 libraries := 0; totalFunctions := 0; stat_parseErrors := 0 |};
     parseErrors := [] |}.

(** *** A transformation of two files: one changed, one skipped *)

Definition two_file_plan : MigrationPlan :=
  sample_plan [ sample_recommendation "contracts/A.sol" high;
                sample_recommendation "contracts/B.sol" high ].

Definition apply_reply : PerFileTransformation :=
  {| action := apply; reason := None;
     reply_appliedChanges :=
       Some [ {| change_type := "performance"; change_description := "Batched writes";
                 originalSnippet := "x = 1;"; transformedSnippet := "x = 2;";
                 lineRange := None |} ];
     reply_transformedCode := Some "contract A { uint x = 2; }";
     reply_warnings := Some [] |}.

Definition skip_reply : PerFileTransformation :=
  {| action := skip; reason := Some "Ambiguous"; reply_appliedChanges := Some [];
     reply_transformedCode := None; reply_warnings := Some [] |}.

(** The model applies the change to [contracts/A.sol] and skips the other
    file. *)
Definition two_file_model (prompt : string) : Result (list ContentBlock) :=
  if includes prompt "FILE: contracts/A.sol"
  then Ok [TextBlock "{apply}"] else Ok [TextBlock "{skip}"].

Definition two_file_parse (s : string) : Result PerFileTransformation :=
  if String.eqb s "{apply}" then Ok apply_reply else Ok skip_reply.

Definition two_file_content (_ _ path : string) : Result string :=
  Ok "contract A { uint x = 1; }".

(** Two files with one applied change each: one low-confidence
    recommendation for the first, two for the second. *)
Definition tie_plan : MigrationPlan :=
  sample_plan [ sample_recommendation "contracts/A.sol" low;
                sample_recommendation "contracts/B.sol" low;
                sample_recommendation "contracts/B.sol" low ].

Definition tie_report : TransformationReport :=
  Transformer.transformRepository (fun _ => Ok [TextBlock "{apply}"]) two_file_parse
    two_file_content (fun _ => "2025-01-01T00:00:00.000Z") (fun _ => "0")
    tie_plan (sample_analysis []) sample_tree 0.

Definition two_file_report : TransformationReport :=
  Transformer.transformRepository two_file_model two_file_parse two_file_content
    (fun _ => "2025-01-01T00:00:00.000Z") (fun _ => "0")
    two_file_plan (sample_analysis []) sample_tree 0.

(** *** Transformed files with an import that cannot be resolved *)

Definition transformed_with (path content : string) : TransformedFile :=
  {| tf_filePath := path; originalContent := content; transformedContent := content;
     appliedChanges := []; skippedChanges := []; hasChanges := false;
     tf_confidenceScore := 0; tf_warnings := [] |}.

Definition analysis_of_A : SolidityAnalysisResult :=
  sample_analysis [ plain_contract "A" "contracts/A.sol" ["./Missing.sol"] [] ].

(** The import written with double quotes. *)
Definition missing_double : string :=
  "import " +:+ quoted "./Missing.sol" +:+ ";" +:+ nl +:+ "contract A {}".

(** The same import written with single quotes. *)
Definition missing_single : string :=
  "import './Missing.sol';" +:+ nl +:+ "contract A {}".

(** The same import with a list of imported names. *)
Definition missing_named : string :=
  "import {Missing} from " +:+ quoted "./Missing.sol" +:+ ";" +:+ nl +:+ "contract A {}".

(** A transformation run in which the model skips the only file, whose
    content is given; the file stays as it is. *)
Definition skipped_run (content : string) : TransformationReport :=
  Transformer.transformRepository
    (fun _ => Ok [TextBlock "{skip}"]) (fun _ => Ok skip_reply) (fun _ _ _ => Ok content)
    (fun _ => "2025-01-01T00:00:00.000Z") (fun _ => "0")
    (sample_plan [ sample_recommendation "contracts/A.sol" high ])
    analysis_of_A sample_tree 0.

(** *** Stage functions for the server *)

Definition sample_report : TransformationReport :=
  {| report_repositoryName := "acme/sale"; report_timestamp := "";
     transformationId := "acme/sale-0";
     filesProcessed := 0; filesModified := 0; filesSkipped := 0;
     totalAppliedChanges := 0; totalSkippedChanges := 0; fileReports := [];
     crossFileConsistency := {| checked := true; importsValid := true;
                                inheritanceValid := true; issues := [] |};
     report_summary := {| overallConfidence := 0; summary_recommendations := [];
                          summary_nextSteps := [] |};
     errors := [] |}.

Definition sample_env : Env :=
  {| ingestRepository := fun _ => Ok sample_tree;
     analyzeSolidityRepository := fun _ => Ok (sample_analysis [Token; Sale]);
     planRepositoryMigration :=
       fun _ _ => Ok (sample_plan [ sample_recommendation "contracts/Sale.sol" high ]);
     transformRepository := fun _ _ _ => Ok sample_report |}.

(** A generator that returns 201 recommendations. *)
Definition long_env : Env :=
  {| ingestRepository := fun _ => Ok sample_tree;
     analyzeSolidityRepository := fun _ => Ok (sample_analysis [Token; Sale]);
     planRepositoryMigration :=
       fun _ _ => Ok (sample_plan (repeat (sample_recommendation "contracts/Sale.sol" low) 201));
     transformRepository := fun _ _ _ => Ok sample_report |}.

Definition by_id (id : string) : RequestBody := {| repoUrl := None; repoId := Some id |}.
Definition by_url (u : string) : RequestBody := {| repoUrl := Some u; repoId := None |}.

Definition cold : World := {| caches := empty_caches; calls := [] |}.

Definition minutes (n : Z) : Z := n * 60 * 1000.

Definition sale_url : string := "https://github.com/acme/sale".

(** A plan request on a cold cache: the ingestion and the analysis settle
    at time 0, the plan two minutes later. *)
Definition after_plan : World :=
  fst (serve sample_env 0 [0; 0; minutes 2]%Z cold (handlePlanMigrationRequest (by_url sale_url))).

(** A transform request 31 minutes after the start. *)
Definition after_transform : World :=
  fst (serve sample_env (minutes 31) [minutes 31; minutes 31] after_plan
         (handleTransformRequest (by_id "acme/sale"))).

(** The same request when its analysis settles only 33 minutes after the
    start and its plan a minute later: by then the plan stored at minute 2
    has expired too. *)
Definition late_transform : World * Handler :=
  serve sample_env (minutes 31) [minutes 33; minutes 34; minutes 35] after_plan
    (handleTransformRequest (by_id "acme/sale")).

(** An analysis request on a cold cache, and a second one 31 minutes
    later. *)
Definition after_analyze : World :=
  fst (serve sample_env 0 [0; 0]%Z cold (handleAnalyzeSolidityRequest (by_url sale_url))).

Definition after_second_analyze : World :=
  fst (serve sample_env (minutes 31) [minutes 31] after_analyze
         (handleAnalyzeSolidityRequest (by_url sale_url))).




End Samples.


(** ** Vocabulary of the specification *)

Module Vocabulary.
Import JsString Analyzer Planner Transformer Http.

(** Some inheritance edge of [g] targets the name [n]. *)
Definition inherited_from (g : DependencyGraph) (n : string) : Prop :=
  exists e, In e (edges g) /\ to e = n /\ edge_type e = inheritance.

(** Some inheritance edge of [g] originates from the name [n]. *)
Definition inherits_something (g : DependencyGraph) (n : string) : Prop :=
  exists e, In e (edges g) /\ from e = n /\ edge_type e = inheritance.

(** The edges one contract unit contributes: one per entry of [imports],
    then one per entry of [inherits]. *)
Definition contract_edges (c : SolidityContract) : list DependencyEdge :=
  map (fun t => {| from := name c; to := t; edge_type := import |}) (imports c)
    ++ map (fun t => {| from := name c; to := t; edge_type := inheritance |}) (inherits c).

(** The elements of a list in the order of their first occurrence. *)
Fixpoint first_occurrences (l : list string) : list string :=
  match l with
  | [] => []
  | x :: r => x :: List.filter (fun y => negb (String.eqb y x)) (first_occurrences r)
  end.

Definition nonempty (s : string) : bool := negb (String.eqb s "").

(** The loop body of the inheritance extraction, on names. *)
Definition push_name (acc : list string) (s : string) : list string :=
  if negb (String.eqb s "") && negb (includes_str acc s) then acc ++ [s] else acc.

(** [m] is a contiguous part of [s]. *)
Definition part_of (m s : string) : Prop :=
  exists before after, s = before +:+ m +:+ after.

(** The quoted literal of each import directive that has one, in document
    order. *)
Definition quoted_literals (rootNode : SyntaxNode) (sourceCode : string) : list string :=
  flat_map (fun node => match match_quoted (text_of sourceCode node) with
                        | Some p => [p]
                        | None => []
                        end)
    (findNodesByType rootNode ["import_directive"]).

(** The field names under which the nodes of a tree are held. *)
Fixpoint field_names (node : SyntaxNode) : list string :=
  match node with
  | mkNode _ field _ _ ch =>
      match field with Some f => [f] | None => [] end ++ flat_map field_names ch
  end.

(** Being a unit of kind [contract]. *)
Definition is_contract (c : SolidityContract) : bool := ContractType_eqb (type c) contract.


(** The overall confidence as the specification words it: the mean of the
    scores of the modified files only, rounded to two decimals, and 0 when
    no file was modified. *)
Definition modified (f : FileTransformReport) : bool := Nat.ltb 0 (appliedChangesCount f).

(** A double whose sign bit is clear, or NaN: not a negative number and
    not the negative zero. *)
Definition unsigned_sf (x : spec_float) : Prop :=
  match x with
  | S754_zero s | S754_infinity s | S754_finite s _ _ => s = false
  | S754_nan => True
  end.

Definition unsigned (x : float) : Prop := unsigned_sf (Prim2SF x).

(** The sum of an array of numbers as [reduce] computes it: from the
    left, starting at 0. *)
Definition sum_of {N : Type} `{Number N} (l : list N) : N :=
  fold_left num_add l (literal 0).

Definition mean_of_modified (reports : list FileTransformReport) : float :=
  let m := List.filter modified reports in
  match m with
  | [] => literal 0
  | _ => round2 (sum_of (map confidenceScore m) / of_length (length m))%num
  end.

(** Nothing is removed from a cache, and a cached tree stays as it is. *)
Definition no_deletion (c0 c : Caches) : Prop :=
  (forall k t, repoCache c0 !! k = Some t -> repoCache c !! k = Some t)
  /\ (forall k, is_Some (analysisCache c0 !! k) -> is_Some (analysisCache c !! k))
  /\ (forall k, is_Some (planCache c0 !! k) -> is_Some (planCache c !! k)).

(** The caches without the analysis, or without the plan, of a key. *)
Definition drop_analysis (key : string) (c : Caches) : Caches :=
  {| repoCache := repoCache c;
     analysisCache := delete key (analysisCache c);
     planCache := planCache c |}.

Definition drop_plan (key : string) (c : Caches) : Caches :=
  {| repoCache := repoCache c;
     analysisCache := analysisCache c;
     planCache := delete key (planCache c) |}.

Definition truncation_notice : string :=
  "Recommendations truncated to first 200 items for response size limits".

(** The invariant of the loop of [transformRepository]: the counter of
    modified files counts the reports with applied changes, a report
    without applied changes has the score 0, and no score is negative. *)
Definition consistent (st : LoopState) : Prop :=
  ls_filesModified st = length (List.filter modified (ls_fileReports st))
  /\ Forall (fun f => modified f = false -> confidenceScore f = 0%float) (ls_fileReports st)
  /\ Forall (fun f => unsigned (confidenceScore f)) (ls_fileReports st).

(** What a successful plan response guarantees. *)
Definition plan_post (env : Env) (body : RequestBody) (c : Caches) (r : Response) : Prop :=
  forall p, r = PlanOk p ->
    exists key meta analysis generated stamp,
      resolve_key body = inr key
      /\ planRepositoryMigration env meta analysis = Ok generated
      /\ p = truncate_plan generated
      /\ planCache c !! key = Some {| plan := p; pc_timestamp := stamp |}.

End Vocabulary.

(** ** A program logic for handlers *)

Module HandlerLogic.
Import Http.

Section Logic.
Variable env : Env.
(** The times at which a segment may run. *)
Variable T : Z -> Prop.
(** What holds of the caches whenever the handler is suspended or done. *)
Variable Inv : Caches -> Prop.
(** What holds of the caches and the response when the handler is done. *)
Variable Post : Caches -> Response -> Prop.

(** [Always c h]: the handler [h], suspended with the caches [c] and
    served alone by [env], keeps [Inv] and ends in [Post]. *)
Inductive Always : Caches -> Handler -> Prop :=
| Always_done c r :
    Inv c -> Post c r -> Always c (Done r)
| Always_ingest c url k :
    Inv c ->
    (forall t, T t ->
               Always (fst (k (ingestRepository env url) t c))
                 (snd (k (ingestRepository env url) t c))) ->
    Always c (AwaitIngest url k)
| Always_analyze c tree k :
    Inv c ->
    (forall t, T t ->
               Always (fst (k (analyzeSolidityRepository env tree) t c))
                 (snd (k (analyzeSolidityRepository env tree) t c))) ->
    Always c (AwaitAnalyze tree k)
| Always_plan c meta analysis k :
    Inv c ->
    (forall t, T t ->
               Always (fst (k (planRepositoryMigration env meta analysis) t c))
                 (snd (k (planRepositoryMigration env meta analysis) t c))) ->
    Always c (AwaitPlan meta analysis k)
| Always_transform c p analysis tree k :
    Inv c ->
    (forall t, T t ->
               Always (fst (k (transformRepository env p analysis tree) t c))
                 (snd (k (transformRepository env p analysis tree) t c))) ->
    Always c (AwaitTransform p analysis tree k).
End Logic.







End HandlerLogic.

(** ** Further vocabulary *)

Module Support.
Import JsString Analyzer Planner Transformer Http.

(** Induction over a syntax tree, with the property known of all children. *)
Fixpoint SyntaxNode_nested_ind (P : SyntaxNode -> Prop)
  (step : forall ty field s e ch, Forall P ch -> P (mkNode ty field s e ch))
  (node : SyntaxNode) : P node :=
  match node with
  | mkNode ty field s e ch =>
      step ty field s e ch
        ((fix all (l : list SyntaxNode) : Forall P l :=
            match l with
            | [] => List.Forall_nil P
            | child :: rest =>
                @List.Forall_cons _ P child rest (SyntaxNode_nested_ind P step child) (all rest)
            end) ch)
  end.

(** Induction over a directory, with the property known of all
    subdirectories. *)
Fixpoint RepositoryDirectory_nested_ind (P : RepositoryDirectory -> Prop)
  (step : forall path name fs subs, Forall P subs -> P (mkDirectory path name fs subs))
  (dir : RepositoryDirectory) : P dir :=
  match dir with
  | mkDirectory path name fs subs =>
      step path name fs subs
        ((fix all (l : list RepositoryDirectory) : Forall P l :=
            match l with
            | [] => List.Forall_nil P
            | d :: rest =>
                @List.Forall_cons _ P d rest (RepositoryDirectory_nested_ind P step d) (all rest)
            end) subs)
  end.

(** All files of a directory tree: the files of the directory, then those
    of its subdirectories, in order. *)
Fixpoint all_files (dir : RepositoryDirectory) : list RepositoryFile :=
  match dir with
  | mkDirectory _ _ fs subs => fs ++ flat_map all_files subs
  end.

Definition is_solidity (f : RepositoryFile) : bool :=
  match file_type f with solidity => true | _ => false end.

(** What a function kept by [extractFunctions] looks like. *)
Definition exposed (f : SolidityFunction) : Prop :=
  (fn_visibility f = public \/ fn_visibility f = external)
  /\ stateMutability f <> Some nonpayable
  /\ length (returns f) <= 1.

(** The contracts a file contributes to an analysis run, and the parse
    error it contributes. *)
Definition parsed_of (getFileContent : string -> string -> string -> Result string)
  (parse : string -> option SyntaxNode) (owner repo : string) (file : RepositoryFile)
  : list SolidityContract :=
  match parseFile getFileContent parse owner repo file with
  | Ok cs => cs
  | Throw _ => []
  end.

Definition failure_of (getFileContent : string -> string -> string -> Result string)
  (parse : string -> option SyntaxNode) (owner repo : string) (file : RepositoryFile)
  : list ParseError :=
  match parseFile getFileContent parse owner repo file with
  | Ok _ => []
  | Throw m => [ {| err_filePath := file_path file; err_error := m |} ]
  end.

(** The group stored under a key of a map kept in insertion order. *)
Definition group_of (k : string) (m : list (string * list MigrationRecommendation))
  : list MigrationRecommendation :=
  match List.find (fun p => String.eqb (fst p) k) m with
  | Some p => snd p
  | None => []
  end.

(** The recommendations of a plan for one file, in plan order. *)
Definition for_file (k : string) (recs : list MigrationRecommendation)
  : list MigrationRecommendation :=
  List.filter (fun r => String.eqb (rec_filePath r) k) recs.

(** The counters of the loop of [transformRepository] agree with the
    reports and the errors collected so far. *)
Definition counted (st : LoopState) : Prop :=
  ls_filesProcessed st = ls_filesModified st + ls_filesSkipped st
  /\ ls_filesProcessed st = length (ls_fileReports st) + length (ls_errors st)
  /\ ls_totalAppliedChanges st = list_sum (map appliedChangesCount (ls_fileReports st))
  /\ ls_totalSkippedChanges st = list_sum (map skippedChangesCount (ls_fileReports st))
  /\ map fst (ls_transformedFiles st) = map fr_filePath (ls_fileReports st).

(** The parents a contract names that the consistency check does not
    accept: no analysed contract has the name, and the name holds no at
    sign. *)
Definition missing_parents (a : SolidityAnalysisResult) (c : SolidityContract) : list string :=
  List.filter
    (fun parentName =>
       negb (existsb (fun p => String.eqb (name p) parentName) (contracts a))
       && negb (includes parentName "@"))
    (inherits c).

Definition none {A : Type} (l : list A) : bool :=
  match l with [] => true | _ :: _ => false end.

Definition success_message : string :=
  "Transformations completed successfully - ready for testing".

(** Every character of a string satisfies [p]. *)
Fixpoint all_chars (p : ascii -> bool) (s : string) : bool :=
  match s with
  | "" => true
  | String c r => p c && all_chars p r
  end.

(** A character that is neither a quote nor a brace. *)
Definition plain (c : ascii) : bool :=
  negb (is_quote c) && negb (is_open c) && negb (is_close c).

(** Eleven numbered lines that end with [last]. *)
Definition eleven_lines (last : string) : string :=
  join nl ["1"; "2"; "3"; "4"; "5"; "6"; "7"; "8"; "9"; "10"; last].


(** Some stage function of the environment throws the message [m]. *)
Definition thrown (env : Env) (m : string) : Prop :=
  (exists url, ingestRepository env url = Throw m)
  \/ (exists tree, analyzeSolidityRepository env tree = Throw m)
  \/ (exists meta a, planRepositoryMigration env meta a = Throw m)
  \/ (exists p a tree, transformRepository env p a tree = Throw m).

(** The responses a handler can give after its first [await]: a stage
    failure, or the outcome of the last stage. *)
Definition late (env : Env) (r : Response) : Prop :=
  match r with
  | Status400 _ => False
  | Status500 m => thrown env m
  | AnalyzeOk a => exists tree, analyzeSolidityRepository env tree = Ok a
  | PlanOk p =>
      exists meta a generated,
        planRepositoryMigration env meta a = Ok generated /\ p = truncate_plan generated
  | TransformOk report modifiedFiles sampleDiffPreview =>
      (exists p a tree, transformRepository env p a tree = Ok report)
      /\ TransformOk report modifiedFiles sampleDiffPreview = transform_response report
  end.

(** The first segment of a handler leaves the caches as they are, and either
    answers with status 400 or leaves a handler whose answer is late. *)
Definition early_or_late (env : Env) (s : Segment) : Prop :=
  forall now c,
    fst (s now c) = c
    /\ ((exists e, snd (s now c) = Done (Status400 e))
        \/ HandlerLogic.Always env (fun _ => True) (fun _ => True) (fun _ r => late env r)
             c (snd (s now c))).

(** An environment whose planner is overloaded. *)
Definition failing_planner_env : Env :=
  {| ingestRepository := fun _ => Ok Samples.sample_tree;
     analyzeSolidityRepository :=
       fun _ => Ok (Samples.sample_analysis [Samples.Token; Samples.Sale]);
     planRepositoryMigration := fun _ _ => Throw "overloaded";
     transformRepository := fun _ _ _ => Ok Samples.sample_report |}.

End Support.

(** ** Vocabulary of the ingestion *)

Module IngestionSupport.
Import JsString Analyzer Ingestion.

(** The type a file has by its extension alone. *)
Definition type_of_extension (ext : string) : FileType :=
  if includes_str SOLIDITY_EXTENSIONS ext then solidity
  else if includes_str TYPESCRIPT_EXTENSIONS ext then typescript
  else if includes_str JAVASCRIPT_EXTENSIONS ext then javascript
  else if includes_str CONFIG_EXTENSIONS ext then config
  else if includes_str MARKDOWN_EXTENSIONS ext then markdown
  else other.

(** The counter a file type is counted in: Markdown files are counted with
    the other files. *)
Definition counted_in (t : FileType) (f : RepositoryFile) : bool :=
  match t, file_type f with
  | solidity, solidity | typescript, typescript | javascript, javascript
  | config, config => true
  | other, (markdown | other) => true
  | _, _ => false
  end.

Definition tally (t : FileType) (fs : list RepositoryFile) : Z :=
  Z.of_nat (length (List.filter (counted_in t) fs)).

(** The counters [k] exceed the counters [k0] by the files [fs]. *)
Definition tallied (k0 k : Counters) (fs : list RepositoryFile) : Prop :=
  fileCount k = (fileCount k0 + Z.of_nat (length fs))%Z
  /\ solidityCount k = (solidityCount k0 + tally solidity fs)%Z
  /\ typescriptCount k = (typescriptCount k0 + tally typescript fs)%Z
  /\ javascriptCount k = (javascriptCount k0 + tally javascript fs)%Z
  /\ configCount k = (configCount k0 + tally config fs)%Z
  /\ otherCount k = (otherCount k0 + tally other fs)%Z.

(** What the ingester records of a file it keeps. *)
Definition recorded (f : RepositoryFile) : Prop :=
  shouldIgnoreFile (file_name f) = false
  /\ file_type f = detectFileType (file_name f)
  /\ file_extension f = getFileExtension (file_name f).

(** The number of directory levels of a tree. *)
Fixpoint height (dir : RepositoryDirectory) : nat :=
  match dir with
  | mkDirectory _ _ _ subs => S (list_max (map height subs))
  end.

(** The directories below a directory, at any depth. *)
Fixpoint descendants (dir : RepositoryDirectory) : list RepositoryDirectory :=
  match dir with
  | mkDirectory _ _ _ subs => flat_map (fun s => s :: descendants s) subs
  end.

Definition inhabited (dir : RepositoryDirectory) : Prop :=
  files dir <> [] \/ subdirectories dir <> [].

(** What holds of a directory fetched with the given number of levels
    left, from the counters [k]. *)
Definition fetched (levels : nat) (k : Counters) (r : Counters * RepositoryDirectory) : Prop :=
  tallied k (fst r) (Support.all_files (snd r))
  /\ Forall recorded (Support.all_files (snd r))
  /\ height (snd r) <= Nat.max 1 levels
  /\ Forall inhabited (descendants (snd r))
  /\ (inhabited (snd r) -> 1 <= levels).

(** The largest number of files a preview of the given number of levels
    below the root can hold. *)
Fixpoint preview_bound (levels : nat) : nat :=
  match levels with
  | O => 10
  | S below => 10 + 5 * preview_bound below
  end.

Definition small (dir : RepositoryDirectory) : Prop :=
  length (files dir) <= 10 /\ length (subdirectories dir) <= 5.

(** A repository with two contracts, a README, a secret and a dependency
    directory. *)
Definition sample_listing (owner repo path : string) : Result (list ContentItem) :=
  if String.eqb path "" then
    Ok [ {| item_type := "dir"; item_name := "contracts"; item_path := "contracts";
            item_size := 0; item_sha := None |};
         {| item_type := "dir"; item_name := "node_modules"; item_path := "node_modules";
            item_size := 0; item_sha := None |};
         {| item_type := "file"; item_name := "README.md"; item_path := "README.md";
            item_size := 120; item_sha := Some "a1" |};
         {| item_type := "file"; item_name := ".env"; item_path := ".env";
            item_size := 30; item_sha := Some "a2" |} ]
  else if String.eqb path "contracts" then
    Ok [ {| item_type := "file"; item_name := "Token.sol"; item_path := "contracts/Token.sol";
            item_size := 900; item_sha := Some "b1" |};
         {| item_type := "file"; item_name := "Sale.sol"; item_path := "contracts/Sale.sol";
            item_size := 700; item_sha := Some "b2" |} ]
  else Throw "Not Found".

Definition sample_repository (owner repo : string) : Result RepositoryMetadata :=
  Ok {| Analyzer.owner := owner; repo_name := repo; fullName := owner +:+ "/" +:+ repo;
        url := "https://github.com/" +:+ owner +:+ "/" +:+ repo;
        description := None; defaultBranch := "main"; isPrivate := false; repo_size := 4 |}.

Definition sample_ingestion : Result RepositoryTree :=
  ingestRepository sample_repository sample_listing (fun _ => "2025-01-01T00:00:00.000Z")
    0 "https://github.com/acme/sale".

End IngestionSupport.

(** * Properties *)

(** ** The analyzer *)

Module AnalyzerProofs.
Import JsString Analyzer Samples Vocabulary Support.

Lemma includes_str_In (a : list string) (x : string) :
  includes_str a x = true <-> In x a.
Proof.
  unfold includes_str. rewrite existsb_exists. split.
  - intros [y [Hy He]]. apply String.eqb_eq in He. now subst.
  - intros H. exists x. split; [assumption | apply String.eqb_refl].
Qed.

Lemma ContractType_eqb_eq (a b : ContractType) : ContractType_eqb a b = true <-> a = b.
Proof. destruct a, b; simpl; split; intro H; try reflexivity; discriminate. Qed.

Lemma EdgeType_eqb_eq (a b : EdgeType) : EdgeType_eqb a b = true <-> a = b.
Proof. destruct a, b; simpl; split; intro H; try reflexivity; discriminate. Qed.

(** *** The edges of the graph *)

Lemma edges_add_edges (c : SolidityContract) (k : EdgeType) (targets : list string) :
  forall g, edges (add_edges c k targets g)
            = edges g ++ map (fun t => {| from := name c; to := t; edge_type := k |}) targets.
Proof.
  unfold add_edges. induction targets as [| t ts IH]; intros g; simpl.
  - now rewrite app_nil_r.
  - rewrite IH. simpl. now rewrite <- app_assoc.
Qed.

Lemma edges_add_contract (g : DependencyGraph) (c : SolidityContract) :
  edges (add_contract g c) = edges g ++ contract_edges c.
Proof.
  unfold add_contract, contract_edges.
  rewrite !edges_add_edges. simpl. now rewrite app_assoc.
Qed.

Lemma edges_fold (cs : list SolidityContract) :
  forall g, edges (fold_left add_contract cs g) = edges g ++ flat_map contract_edges cs.
Proof.
  induction cs as [| c cs IH]; intros g; simpl.
  - now rewrite app_nil_r.
  - rewrite IH, edges_add_contract. now rewrite <- app_assoc.
Qed.

Lemma edges_buildDependencyGraph (cs : list SolidityContract) :
  edges (buildDependencyGraph cs) = flat_map contract_edges cs.
Proof. unfold buildDependencyGraph. now rewrite edges_fold. Qed.

Lemma isOnlyInherited_iff (n : string) (g : DependencyGraph) :
  isOnlyInherited n g = true <-> inherited_from g n /\ ~ inherits_something g n.
Proof.
  unfold isOnlyInherited, inherited_from, inherits_something.
  rewrite andb_true_iff, negb_true_iff, <- not_true_iff_false, !existsb_exists.
  assert (E : forall (sel : DependencyEdge -> string),
             (exists x, In x (edges g) /\
                        String.eqb (sel x) n && EdgeType_eqb (edge_type x) inheritance = true)
             <-> (exists e, In e (edges g) /\ sel e = n /\ edge_type e = inheritance)).
  { intros sel. split; intros [e [Hin H]]; exists e; split; try assumption.
    - apply andb_true_iff in H as [H1 H2].
      apply String.eqb_eq in H1. apply EdgeType_eqb_eq in H2. now split.
    - destruct H as [H1 H2]. apply andb_true_iff. split.
      + now apply String.eqb_eq.
      + now apply EdgeType_eqb_eq. }
  now rewrite (E to), (E from).
Qed.

(** The entry points of a list of contract units, by name. *)
Lemma identifyEntryPoints_iff (cs : list SolidityContract) (g : DependencyGraph) (n : string) :
  In n (identifyEntryPoints cs g) <->
  exists C, In C cs /\ name C = n /\ type C = contract
            /\ ~ (inherited_from g n /\ ~ inherits_something g n).
Proof.
  unfold identifyEntryPoints. rewrite in_map_iff. split.
  - intros [C [Hn HC]]. apply filter_In in HC as [Hin Hf].
    apply andb_true_iff in Hf as [Ht Ho].
    exists C. repeat split; try assumption.
    + now apply ContractType_eqb_eq.
    + subst n. rewrite <- isOnlyInherited_iff. now apply negb_true_iff in Ho as ->.
  - intros [C [Hin [Hn [Ht Ho]]]]. exists C. split; [assumption |].
    apply filter_In. split; [assumption |]. apply andb_true_iff. split.
    + now apply ContractType_eqb_eq.
    + subst n. rewrite <- isOnlyInherited_iff in Ho.
      now destruct (isOnlyInherited (name C) g).
Qed.

(** What an analysis run puts in its result. *)
Lemma analyzeSolidity_fields getFileContent parse (repoTree : RepositoryTree) :
  let r := analyzeSolidity getFileContent parse repoTree in
  dependencyGraph r = buildDependencyGraph (contracts r)
  /\ entryPointContracts r = identifyEntryPoints (contracts r) (dependencyGraph r).
Proof.
  unfold analyzeSolidity.
  destruct (fold_left _ (findSolidityFiles (root repoTree)) ([], [])) as [cs errs].
  simpl. split; reflexivity.
Qed.

(** *** Duplicate edges *)

Lemma from_contract_edges (c : SolidityContract) (e : DependencyEdge) :
  In e (contract_edges c) -> from e = name c.
Proof.
  unfold contract_edges. rewrite in_app_iff, !in_map_iff.
  intros [[t [<- _]] | [t [<- _]]]; reflexivity.
Qed.

Lemma NoDup_contract_edges (c : SolidityContract) :
  List.NoDup (imports c) -> List.NoDup (inherits c) -> List.NoDup (contract_edges c).
Proof.
  intros Hi Hh. unfold contract_edges. apply List.NoDup_app.
  - apply Finite.Injective_map_NoDup; [| assumption].
    intros x y H. now inversion H.
  - apply Finite.Injective_map_NoDup; [| assumption].
    intros x y H. now inversion H.
  - intros e H1 H2. apply in_map_iff in H1 as [t1 [<- _]].
    apply in_map_iff in H2 as [t2 [H2 _]]. discriminate H2.
Qed.

Lemma NoDup_flat_contract_edges (cs : list SolidityContract) :
  List.NoDup (map name cs) ->
  (forall c, In c cs -> List.NoDup (imports c) /\ List.NoDup (inherits c)) ->
  List.NoDup (flat_map contract_edges cs).
Proof.
  induction cs as [| c cs IH]; intros Hn Hl; simpl.
  - constructor.
  - simpl in Hn. apply List.NoDup_cons_iff in Hn as [Hc Hn].
    apply List.NoDup_app.
    + apply NoDup_contract_edges; apply (Hl c); now left.
    + apply IH; [assumption |]. intros c' Hc'. apply Hl. now right.
    + intros e He Hr. apply from_contract_edges in He.
      apply in_flat_map in Hr as [c' [Hc' He']].
      apply from_contract_edges in He'.
      apply Hc. apply in_map_iff. exists c'. split; [congruence | assumption].
Qed.

(** C2, as the code has it.  The graph holds one edge per entry of the
    [imports] list and per entry of the [inherits] list of each contract
    unit, in order, and nothing is collapsed.  The edges are free of
    duplicates when the contract names are pairwise distinct and the two
    lists of every unit are free of duplicates. *)
Theorem one_edge_per_entry (cs : list SolidityContract) :
  edges (buildDependencyGraph cs) = flat_map contract_edges cs
  /\ (List.NoDup (map name cs) ->
      (forall c, In c cs -> List.NoDup (imports c) /\ List.NoDup (inherits c)) ->
      List.NoDup (edges (buildDependencyGraph cs))).
Proof.
  split.
  - apply edges_buildDependencyGraph.
  - intros Hn Hl. rewrite edges_buildDependencyGraph.
    now apply NoDup_flat_contract_edges.
Qed.

Lemma one_edge_per_entry_witness :
  List.NoDup (edges (buildDependencyGraph [Token; Sale])).
Proof.
  apply (proj2 (one_edge_per_entry [Token; Sale])).
  - simpl. repeat constructor; simpl; intuition discriminate.
  - intros c [<- | [<- | []]]; simpl; split; repeat constructor; simpl; tauto.
Defined.

(** C2 fails as stated: the file that imports the path [./A.sol] in two
    directives yields the edge from [C] to that path twice. *)
Lemma duplicate_edges_survive :
  edges (dependencyGraph twice_run)
  = [ {| from := "C"; to := "./A.sol"; edge_type := import |};
      {| from := "C"; to := "./A.sol"; edge_type := import |} ]
  /\ ~ List.NoDup (edges (dependencyGraph twice_run)).
Proof.
  assert (E : edges (dependencyGraph twice_run)
              = [ {| from := "C"; to := "./A.sol"; edge_type := import |};
                  {| from := "C"; to := "./A.sol"; edge_type := import |} ])
    by reflexivity.
  split; [exact E |]. rewrite E. intros H.
  apply List.NoDup_cons_iff in H as [H _]. apply H. now left.
Qed.

(** *** The lists of a contract unit *)

Lemma fold_push_inherit (sourceCode : string) (nodes : list SyntaxNode) :
  forall acc, fold_left (push_inherit sourceCode) nodes acc
              = fold_left push_name (map (text_of sourceCode) nodes) acc.
Proof. induction nodes as [| n ns IH]; intros acc; simpl; [reflexivity | apply IH]. Qed.

Lemma filter_twice {A : Type} (P Q : A -> bool) (l : list A) :
  List.filter P (List.filter Q l) = List.filter (fun y => Q y && P y) l.
Proof.
  induction l as [| x l IH]; simpl; [reflexivity |].
  destruct (Q x); simpl; [destruct (P x) |]; now rewrite IH.
Qed.

Lemma includes_str_app (a b : list string) (x : string) :
  includes_str (a ++ b) x = includes_str a x || includes_str b x.
Proof. unfold includes_str. apply existsb_app. Qed.

Lemma fold_push_name (l : list string) :
  forall acc,
    fold_left push_name l acc
    = acc ++ List.filter (fun y => negb (includes_str acc y))
               (first_occurrences (List.filter nonempty l)).
Proof.
  induction l as [| x r IH]; intros acc; simpl.
  - now rewrite app_nil_r.
  - unfold push_name at 2. unfold nonempty at 1.
    destruct (String.eqb x "") eqn:Ex; simpl; [apply IH |].
    destruct (includes_str acc x) eqn:Ea; simpl.
    + rewrite IH. f_equal. rewrite filter_twice. apply filter_ext_in.
      intros y _. destruct (String.eqb y x) eqn:Ey; simpl; [| reflexivity].
      apply String.eqb_eq in Ey. subst y. now rewrite Ea.
    + rewrite IH, <- app_assoc. simpl. do 2 f_equal.
      rewrite filter_twice. apply filter_ext.
      intros y. rewrite includes_str_app. unfold includes_str at 2. simpl.
      rewrite orb_false_r, negb_orb. apply andb_comm.
Qed.

Lemma NoDup_first_occurrences (l : list string) : List.NoDup (first_occurrences l).
Proof.
  induction l as [| x r IH]; simpl; constructor.
  - intros H. apply filter_In in H as [_ H]. now rewrite String.eqb_refl in H.
  - now apply List.NoDup_filter.
Qed.

Lemma In_first_occurrences (l : list string) (x : string) :
  In x (first_occurrences l) <-> In x l.
Proof.
  induction l as [| y r IH]; simpl; [tauto |].
  rewrite filter_In, IH. split.
  - intros [H | [H _]]; auto.
  - intros [H | H]; [now left |].
    destruct (String.eqb x y) eqn:E.
    + left. apply String.eqb_eq in E. now subst.
    + right. now split.
Qed.

Lemma fold_collect {A B : Type} (f : A -> option B) (l : list A) :
  forall acc,
    fold_left (fun acc a => match f a with Some x => acc ++ [x] | None => acc end) l acc
    = acc ++ flat_map (fun a => match f a with Some x => [x] | None => [] end) l.
Proof.
  induction l as [| a l IH]; intros acc; simpl.
  - now rewrite app_nil_r.
  - rewrite IH. destruct (f a); simpl; [now rewrite <- app_assoc | reflexivity].
Qed.

Lemma extractImports_quoted_literals (rootNode : SyntaxNode) (sourceCode : string) :
  extractImports rootNode sourceCode = quoted_literals rootNode sourceCode.
Proof.
  unfold extractImports, quoted_literals.
  apply (fold_collect (fun node => match_quoted (text_of sourceCode node))).
Qed.

(** The loop that fills [inherits] never pushes a name twice. *)
Lemma NoDup_fold_push_inherit (sourceCode : string) (nodes : list SyntaxNode) :
  List.NoDup (fold_left (push_inherit sourceCode) nodes []).
Proof.
  rewrite fold_push_inherit, fold_push_name. simpl.
  apply List.NoDup_filter, NoDup_first_occurrences.
Qed.

Lemma extractContract_lists (node : SyntaxNode) (path sourceCode : string)
  (fileImports : list string) (c : SolidityContract) :
  extractContract node path sourceCode fileImports = Some c ->
  imports c = fileImports /\ List.NoDup (inherits c).
Proof.
  unfold extractContract.
  destruct (childForFieldName node "name") as [nameNode |]; [| discriminate].
  intros H. injection H as <-. simpl. split; [reflexivity |].
  destruct (childForFieldName node "inheritance") as [clause |]; [| constructor].
  apply NoDup_fold_push_inherit.
Qed.

Lemma In_collected {A B : Type} (f : A -> option B) (l : list A) (b : B) :
  forall acc,
    In b (fold_left (fun acc a => match f a with Some x => acc ++ [x] | None => acc end) l acc)
    -> In b acc \/ exists a, In a l /\ f a = Some b.
Proof.
  induction l as [| a l IH]; intros acc H; simpl in H; [now left |].
  apply IH in H as [H | [a' [Ha' Hf]]].
  - destruct (f a) eqn:E; [| now left].
    apply in_app_iff in H as [H | [<- | []]]; [now left |].
    right. exists a. split; [now left | assumption].
  - right. exists a'. split; [now right | assumption].
Qed.

(** C7, as the code has it.  Every contract unit of a parsed file has an
    [inherits] list without duplicate entries.  Its [imports] list is the
    list of the file: the quoted literal of every import directive that has
    one, in document order, with nothing removed. *)
Theorem extracted_lists getFileContent parse (owner repo : string) (file : RepositoryFile)
  (content : string) (rootNode : SyntaxNode) (units : list SolidityContract) :
  getFileContent owner repo (file_path file) = Ok content ->
  parse content = Some rootNode ->
  parseFile getFileContent parse owner repo file = Ok units ->
  forall c, In c units ->
    List.NoDup (inherits c)
    /\ imports c = quoted_literals rootNode content.
Proof.
  intros Hc Hp Hu c Hin. unfold parseFile in Hu. rewrite Hc, Hp in Hu.
  injection Hu as <-.
  apply In_collected in Hin as [[] | [node [Hn He]]].
  apply extractContract_lists in He as [Hi Hh].
  split; [exact Hh |].
  rewrite Hi. apply extractImports_quoted_literals.
Qed.

Lemma extracted_lists_witness :
  List.NoDup (inherits twice_contract)
  /\ imports twice_contract = quoted_literals twice_tree twice_source
  /\ quoted_literals twice_tree twice_source = ["./A.sol"; "./A.sol"].
Proof.
  assert (Hin : In twice_contract [twice_contract]) by (left; reflexivity).
  destruct (extracted_lists (fun _ _ _ => Ok twice_source) (fun _ => Some twice_tree)
              "acme" "sale" (solidity_file "contracts/C.sol")
              twice_source twice_tree [twice_contract] eq_refl eq_refl eq_refl
              twice_contract Hin)
    as [Hnd Himp].
  split; [exact Hnd | split; [exact Himp | reflexivity]].
Defined.

(** C7 fails as stated: the unit extracted from the file that imports the
    path [./A.sol] in two directives lists that path twice. *)
Lemma duplicate_imports_survive :
  exists c,
    parseFile (fun _ _ _ => Ok twice_source) (fun _ => Some twice_tree)
      "acme" "sale" (solidity_file "contracts/C.sol") = Ok [c]
    /\ imports c = ["./A.sol"; "./A.sol"]
    /\ ~ List.NoDup (imports c).
Proof.
  exists twice_contract. split; [reflexivity | split; [reflexivity |]].
  simpl. intros H. apply List.NoDup_cons_iff in H as [H _]. apply H. now left.
Qed.
(** *** Entry points *)

Lemma childForFieldName_absent (node : SyntaxNode) (f : string) :
  ~ In f (field_names node) -> childForFieldName node f = None.
Proof.
  destruct node as [ty fd s e ch]. unfold childForFieldName. simpl. intros H.
  destruct (List.find _ ch) as [c |] eqn:E; [| reflexivity].
  apply find_some in E as [Hin Hf]. exfalso. apply H.
  apply in_or_app. right. apply in_flat_map. exists c. split; [assumption |].
  destruct c as [ty' [f' |] s' e' ch']; simpl in *; [| discriminate].
  left. apply String.eqb_eq in Hf. congruence.
Qed.

Lemma field_names_found (types : list string) (node d : SyntaxNode) :
  In d (findNodesByType node types) -> incl (field_names d) (field_names node).
Proof.
  induction node as [ty fd s e ch IH] using SyntaxNode_nested_ind.
  simpl. intros H. apply in_app_iff in H as [H | H].
  - destruct (includes_str types ty); [| contradiction].
    destruct H as [<- | []]. apply incl_refl.
  - apply in_flat_map in H as [c [Hc Hd]]. rewrite List.Forall_forall in IH.
    intros x Hx. apply in_or_app. right. apply in_flat_map.
    exists c. split; [assumption |]. now apply (IH c Hc Hd).
Qed.

Lemma extractContract_without_field (node : SyntaxNode) (path sourceCode : string)
  (fileImports : list string) (c : SolidityContract) :
  ~ In "inheritance" (field_names node) ->
  extractContract node path sourceCode fileImports = Some c ->
  inherits c = [].
Proof.
  intros H. unfold extractContract.
  rewrite (childForFieldName_absent node "inheritance" H).
  destruct (childForFieldName node "name"); [| discriminate].
  intros E. injection E as <-. reflexivity.
Qed.

(** Every unit of a run was extracted from a file that was read and parsed. *)
Lemma contracts_of_run getFileContent parse (repoTree : RepositoryTree) (C : SolidityContract) :
  In C (contracts (analyzeSolidity getFileContent parse repoTree)) ->
  exists file units,
    In file (findSolidityFiles (root repoTree))
    /\ parseFile getFileContent parse (owner (metadata repoTree))
         (repo_name (metadata repoTree)) file = Ok units
    /\ In C units.
Proof.
  unfold analyzeSolidity.
  match goal with
  | |- context [fold_left ?f _ _] =>
      assert (G : forall (fs : list RepositoryFile) acc,
                 In C (fst (fold_left f fs acc)) ->
                 In C (fst acc)
                 \/ exists file units,
                      In file fs
                      /\ parseFile getFileContent parse (owner (metadata repoTree))
                           (repo_name (metadata repoTree)) file = Ok units
                      /\ In C units)
  end.
  { intros fs. induction fs as [| file fs IH]; intros acc H; simpl in H; [now left |].
    apply IH in H as [H | (f & u & Hf & Hp & Hu)].
    - destruct acc as [cs errs].
      destruct (parseFile getFileContent parse (owner (metadata repoTree))
                  (repo_name (metadata repoTree)) file) as [u | m] eqn:E; simpl in H.
      + apply in_app_iff in H as [H | H]; [now left |].
        right. exists file, u. repeat split; [now left | assumption ..].
      + now left.
    - right. exists f, u. repeat split; [now right | assumption ..]. }
  specialize (G (findSolidityFiles (root repoTree)) ([], [])).
  destruct (fold_left _ (findSolidityFiles (root repoTree)) ([], [])) as [cs errs].
  simpl in *. intros H. destruct (G H) as [[] | H']. exact H'.
Qed.

Lemma run_without_field getFileContent parse (repoTree : RepositoryTree) :
  (forall sourceCode rootNode,
     parse sourceCode = Some rootNode -> ~ In "inheritance" (field_names rootNode)) ->
  forall C, In C (contracts (analyzeSolidity getFileContent parse repoTree)) ->
            inherits C = [].
Proof.
  intros Hg C HC.
  apply contracts_of_run in HC as (file & units & _ & Hp & Hu).
  unfold parseFile in Hp.
  destruct (getFileContent _ _ _) as [content | m]; [| discriminate].
  destruct (parse content) as [rootNode |] eqn:Er; [| discriminate].
  injection Hp as <-.
  apply In_collected in Hu as [[] | [node [Hn He]]].
  apply extractContract_without_field in He; [assumption |].
  intros Hin. apply (Hg content rootNode Er).
  now apply (field_names_found _ rootNode node Hn).
Qed.

(** C1.  In every analysis run, a name is in the entry-point list iff it is
    the name of a contract unit of kind [contract] for which it is not the
    case that an inheritance edge of the dependency graph targets it while
    none originates from it; so a concrete contract is left out iff it is
    inherited from and does not itself inherit.  But the extractor looks
    for the parents of a declaration under the field name [inheritance]:
    when the parser gives no node that field name, every unit has an empty
    [inherits] list, the graph has no inheritance edge and every unit of
    kind [contract] is an entry point.  For the repository that declares
    [Token] and [Sale is Token], the entry points are [Token] and [Sale],
    not [Sale] alone. *)
Theorem entry_points_miss_inheritance :
  (forall getFileContent parse (repoTree : RepositoryTree) (n : string),
     let r := analyzeSolidity getFileContent parse repoTree in
     In n (entryPointContracts r) <->
     exists C, In C (contracts r) /\ name C = n /\ type C = contract
               /\ ~ (inherited_from (dependencyGraph r) n
                     /\ ~ inherits_something (dependencyGraph r) n))
  /\ (forall getFileContent parse (repoTree : RepositoryTree) (C : SolidityContract),
        let r := analyzeSolidity getFileContent parse repoTree in
        In C (contracts r) -> type C = contract ->
        (~ In (name C) (entryPointContracts r) <->
         inherited_from (dependencyGraph r) (name C)
         /\ ~ inherits_something (dependencyGraph r) (name C)))
  /\ (forall getFileContent parse (repoTree : RepositoryTree),
        (forall sourceCode rootNode,
           parse sourceCode = Some rootNode -> ~ In "inheritance" (field_names rootNode)) ->
        let r := analyzeSolidity getFileContent parse repoTree in
        (forall C, In C (contracts r) -> inherits C = [])
        /\ (forall n, ~ inherited_from (dependencyGraph r) n)
        /\ entryPointContracts r = map name (List.filter is_contract (contracts r)))
  /\ field_names sale_tree = ["name"; "body"; "name"; "ancestor"; "body"]
  /\ contracts sale_run = [Token; Sale_extracted]
  /\ edges (dependencyGraph sale_run) = []
  /\ entryPointContracts sale_run = ["Token"; "Sale"].
Proof.
  split; [| split; [| split; [| repeat split; reflexivity]]].
  - intros gfc parse repoTree n r.
    destruct (analyzeSolidity_fields gfc parse repoTree) as [_ He].
    fold r in He. rewrite He. apply identifyEntryPoints_iff.
  - intros gfc parse repoTree C r Hin Ht.
    destruct (analyzeSolidity_fields gfc parse repoTree) as [_ He].
    fold r in He. rewrite He, identifyEntryPoints_iff.
    rewrite <- isOnlyInherited_iff. split.
    + intros Hno. destruct (isOnlyInherited (name C) (dependencyGraph r)) eqn:E;
        [reflexivity |].
      exfalso. apply Hno. exists C. repeat split; try assumption.
      intros H. apply isOnlyInherited_iff in H. congruence.
    + intros Ho [C' [_ [Hn [_ Hnot]]]]. apply Hnot.
      now apply isOnlyInherited_iff.
  - intros gfc parse repoTree Hg r.
    pose proof (run_without_field gfc parse repoTree Hg) as Hi. fold r in Hi.
    destruct (analyzeSolidity_fields gfc parse repoTree) as [Hd He].
    fold r in Hd, He.
    assert (Hno : forall n, ~ inherited_from (dependencyGraph r) n).
    { intros n (e & Hin & _ & Ht). rewrite Hd, edges_buildDependencyGraph in Hin.
      apply in_flat_map in Hin as (c & Hc & Hin). unfold contract_edges in Hin.
      rewrite (Hi c Hc) in Hin. simpl in Hin. rewrite app_nil_r in Hin.
      apply in_map_iff in Hin as (t & <- & _). discriminate Ht. }
    split; [exact Hi | split; [exact Hno |]].
    rewrite He. unfold identifyEntryPoints. f_equal. apply filter_ext.
    intros c. unfold is_contract.
    destruct (isOnlyInherited (name c) (dependencyGraph r)) eqn:E.
    + apply isOnlyInherited_iff in E as [E _]. now apply Hno in E.
    + now rewrite andb_true_r.
Qed.

Lemma entry_points_miss_inheritance_witness :
  (forall C, In C (contracts sale_run) -> inherits C = [])
  /\ entryPointContracts sale_run = map name (List.filter is_contract (contracts sale_run))
  /\ (~ In (name Token) (entryPointContracts sale_run) <->
      inherited_from (dependencyGraph sale_run) (name Token)
      /\ ~ inherits_something (dependencyGraph sale_run) (name Token)).
Proof.
  destruct entry_points_miss_inheritance as (_ & Hout & Hall & _).
  assert (Hg : forall sourceCode rootNode,
             (fun _ : string => Some sale_tree) sourceCode = Some rootNode ->
             ~ In "inheritance" (field_names rootNode)).
  { intros sourceCode rootNode E. injection E as <-.
    simpl. intros H. repeat destruct H as [H | H]; try discriminate H. exact H. }
  destruct (Hall (fun _ _ _ => Ok sale_source) (fun _ => Some sale_tree) sample_tree Hg)
    as (Hi & _ & He).
  split; [exact Hi | split; [exact He |]].
  apply (Hout (fun _ _ _ => Ok sale_source) (fun _ => Some sale_tree) sample_tree Token);
    [left; reflexivity | reflexivity].
Defined.
End AnalyzerProofs.

(** ** The planner *)

Module PlannerProofs.
Import JsString Analyzer Planner Samples Vocabulary.

Lemma append_cons (x : ascii) (a b : string) : String x a +:+ b = String x (a +:+ b).
Proof. reflexivity. Qed.

Lemma from_first_suffix (c : ascii) (s s' : string) :
  from_first c s = Some s' -> exists before, s = before +:+ s'.
Proof.
  induction s as [| x r IH]; simpl; [discriminate |].
  destruct (Ascii.eqb x c).
  - intros H. injection H as <-. now exists "".
  - intros H. destruct (IH H) as [b ->]. exists (String x b). apply append_cons.
Qed.

Lemma substring_prefix (n : nat) (s : string) :
  exists after, s = String.substring 0 n s +:+ after.
Proof.
  revert s. induction n as [| n IH]; intros s.
  - exists s. now destruct s.
  - destruct s as [| x r]; simpl.
    + now exists "".
    + destruct (IH r) as [a Ha]. exists a. rewrite append_cons. now rewrite <- Ha.
Qed.

(** The text matched by a regular expression is a part of the subject. *)
Lemma match_delimited_part (o c : ascii) (s m : string) :
  match_delimited o c s = Some m -> part_of m s.
Proof.
  unfold match_delimited, part_of.
  destruct (from_first o s) as [s' |] eqn:E; [| discriminate].
  destruct (lastIndexOf s' c) as [i |]; [| discriminate].
  intros H. injection H as <-.
  apply from_first_suffix in E as [b ->].
  destruct (substring_prefix (S i) s') as [a Ha].
  exists b, a. now rewrite <- Ha.
Qed.

Section Planner.
Variable messages_create : string -> Result (list ContentBlock).
Variable JSON_parse : string -> option Parsed.
Variable buildContext : RepositoryMetadata -> SolidityAnalysisResult -> string.
Variable toISOString : Z -> string.
Variable of_time : Z -> string.

(** The fallback is returned whenever the bracketed span of the reply
    is missing or is not read as an array. *)
Lemma generateRecommendations_fallback (context text : string) (rest : list ContentBlock) :
  messages_create (user_message context) = Ok (TextBlock text :: rest) ->
  (forall m items, match_json_array text = Some m -> JSON_parse m <> Some (ParsedArray items)) ->
  generateRecommendations messages_create JSON_parse context
  = Ok [ fallback_recommendation ].
Proof using Type.
  intros Hm Hp. unfold generateRecommendations. rewrite Hm.
  destruct (match_json_array text) as [m |] eqn:E; [| reflexivity].
  destruct (JSON_parse m) as [[items |] |] eqn:P; try reflexivity.
  exfalso. now apply (Hp m items).
Qed.

(** C9.  When the text of the generator's reply has no part that
    [JSON.parse] reads as an array, the plan stage does not throw: it
    returns a plan with exactly one recommendation, the fallback, whose
    category is [architecture], whose confidence level is [low] and
    whose rationale says that response parsing requires verification. *)
Theorem unparsable_reply_yields_fallback (now : Z) (repoMetadata : RepositoryMetadata)
  (analysisResult : SolidityAnalysisResult) (text : string) (rest : list ContentBlock) :
  messages_create (user_message (buildContext repoMetadata analysisResult))
  = Ok (TextBlock text :: rest) ->
  (forall m items, part_of m text -> JSON_parse m <> Some (ParsedArray items)) ->
  exists plan,
    planMigration messages_create JSON_parse buildContext toISOString of_time
      now repoMetadata analysisResult = Ok plan
    /\ recommendations plan = [ fallback_recommendation ]
    /\ changeCategory fallback_recommendation = architecture
    /\ confidenceLevel fallback_recommendation = low
    /\ rationale fallback_recommendation
       = "LLM analysis completed but response parsing requires verification".
Proof using Type.
  intros Hm Hp. unfold planMigration.
  rewrite (generateRecommendations_fallback _ text rest Hm).
  - eexists. split; [reflexivity |]. simpl. repeat split.
  - intros m items Hmatch. apply Hp. now apply match_delimited_part in Hmatch.
Qed.
End Planner.

Lemma unparsable_reply_yields_fallback_witness :
  exists plan,
    planMigration (fun _ => Ok [TextBlock refusal]) (fun _ => None) (fun _ _ => "context")
      (fun _ => "2025-01-01T00:00:00.000Z") (fun _ => "0")
      0 sample_metadata (sample_analysis [Token; Sale]) = Ok plan
    /\ recommendations plan = [ fallback_recommendation ].
Proof.
  destruct (unparsable_reply_yields_fallback
              (fun _ => Ok [TextBlock refusal]) (fun _ => None) (fun _ _ => "context")
              (fun _ => "2025-01-01T00:00:00.000Z") (fun _ => "0")
              0 sample_metadata (sample_analysis [Token; Sale]) refusal []
              eq_refl ltac:(intros m items _; discriminate))
    as [plan [Hp [Hr _]]].
  exists plan. split; assumption.
Defined.

End PlannerProofs.

(** ** The transformer *)

Module TransformerProofs.
Import JsString Analyzer Planner Transformer Samples Vocabulary.

(** *** The sign of doubles *)

Lemma binary_round_aux_unsigned (mx ex : Z) (lx : location) :
  unsigned_sf (binary_round_aux prec emax false mx ex lx).
Proof.
  unfold binary_round_aux.
  destruct (shr_fexp prec emax mx ex lx) as [m1 e1].
  destruct (shr_fexp prec emax _ e1 loc_Exact) as [m2 e2].
  destruct (shr_m m2); simpl; auto.
  destruct (Z.leb e2 (emax - prec)); reflexivity.
Qed.

Lemma binary_round_unsigned (mx : positive) (ex : Z) :
  unsigned_sf (binary_round prec emax false mx ex).
Proof.
  unfold binary_round. destruct (shl_align _ _ _) as [mz ez].
  apply binary_round_aux_unsigned.
Qed.

Lemma add_unsigned (x y : float) : unsigned x -> unsigned y -> unsigned (x + y)%float.
Proof.
  unfold unsigned. rewrite FloatAxioms.add_spec. unfold SF64add, SFadd.
  destruct (Prim2SF x) as [sx | sx | | sx mx ex], (Prim2SF y) as [sy | sy | | sy my ey];
    simpl; intros Hx Hy; subst; simpl; auto.
  apply binary_round_unsigned.
Qed.

Lemma mul_unsigned (x y : float) : unsigned x -> unsigned y -> unsigned (x * y)%float.
Proof.
  unfold unsigned. rewrite FloatAxioms.mul_spec. unfold SF64mul, SFmul.
  destruct (Prim2SF x) as [sx | sx | | sx mx ex], (Prim2SF y) as [sy | sy | | sy my ey];
    simpl; intros Hx Hy; subst; simpl; auto.
  apply binary_round_aux_unsigned.
Qed.

Lemma div_unsigned (x y : float) : unsigned x -> unsigned y -> unsigned (x / y)%float.
Proof.
  unfold unsigned. rewrite FloatAxioms.div_spec. unfold SF64div, SFdiv.
  destruct (Prim2SF x) as [sx | sx | | sx mx ex], (Prim2SF y) as [sy | sy | | sy my ey];
    simpl; intros Hx Hy; subst; simpl; auto.
  destruct (SFdiv_core_binary _ _ _ _ _ _) as [[mz ez] lz].
  apply binary_round_aux_unsigned.
Qed.

Lemma abs_unsigned (x : float) : unsigned (PrimFloat.abs x).
Proof. unfold unsigned. rewrite FloatAxioms.abs_spec. now destruct (Prim2SF x). Qed.

Lemma of_uint63_unsigned (n : int) : unsigned (PrimFloat.of_uint63 n).
Proof.
  unfold unsigned. rewrite FloatAxioms.of_uint63_spec. unfold binary_normalize.
  pose proof (Uint63.to_Z_bounded n) as B.
  destruct (Uint63Axioms.to_Z n) eqn:E; simpl; auto.
  - apply binary_round_unsigned.
  - change (Uint63Axioms.to_Z n) with (Uint63.to_Z n) in E. lia.
Qed.

(** [Math.round] of a number that is not negative is not negative. *)
Lemma double_round_unsigned (x : float) : unsigned x -> unsigned (double_round x).
Proof.
  intros H. unfold double_round.
  destruct (negb (x =? x)%float) eqn:N; [assumption |].
  destruct (two52 <=? PrimFloat.abs x)%float; [assumption |].
  destruct (x =? 0)%float eqn:Z; [assumption |].
  destruct (0 <? x)%float eqn:P; [apply abs_unsigned |].
  exfalso. unfold unsigned in H.
  rewrite FloatAxioms.eqb_spec in N, Z. rewrite FloatAxioms.ltb_spec in P.
  change (Prim2SF 0) with (S754_zero false) in *.
  revert N Z P. unfold SFeqb, SFltb, SFcompare.
  destruct (Prim2SF x) as [sx | sx | | sx mx ex]; simpl in H; subst; discriminate.
Qed.

Lemma double_of_Z_unsigned (z : Z) : (0 <= z)%Z -> unsigned (double_of_Z z).
Proof. intros H. destruct z; try apply of_uint63_unsigned. lia. Qed.

Lemma literal_unsigned (q : Q) : (0 <= Qnum q)%Z -> unsigned (literal q).
Proof.
  intros H. apply div_unsigned; apply double_of_Z_unsigned; [assumption | lia].
Qed.

Lemma of_length_unsigned (n : nat) : unsigned (of_length n).
Proof. apply double_of_Z_unsigned. lia. Qed.

Lemma round2_unsigned (x : float) : unsigned x -> unsigned (round2 x).
Proof.
  intros H. apply div_unsigned; [| now apply literal_unsigned].
  apply double_round_unsigned, mul_unsigned; [assumption | now apply literal_unsigned].
Qed.

(** Adding the literal 0 to a number that is not negative changes nothing. *)
Lemma add_zero (x : float) : unsigned x -> (x + 0)%float = x.
Proof.
  unfold unsigned. intros H. apply Prim2SF_inj. rewrite FloatAxioms.add_spec.
  change (Prim2SF 0) with (S754_zero false).
  unfold SF64add, SFadd.
  destruct (Prim2SF x) as [sx | sx | | sx mx ex]; simpl in H; subst; reflexivity.
Qed.

(** *** Scores and sums *)

Lemma fold_confidence_unsigned (recs : list MigrationRecommendation) :
  forall a : float,
    unsigned a ->
    unsigned (fold_left (fun sum r => sum + confidence_of (confidenceLevel r))%num recs a).
Proof.
  induction recs as [| r recs IH]; intros a Ha; simpl; [assumption |].
  apply IH, add_unsigned; [assumption |].
  destruct (confidenceLevel r); now apply literal_unsigned.
Qed.

(** No confidence score is negative. *)
Lemma calculateConfidenceScore_unsigned (appliedChanges : list AppliedChange)
  (recommendations : list MigrationRecommendation) :
  unsigned (calculateConfidenceScore appliedChanges recommendations).
Proof.
  unfold calculateConfidenceScore.
  destruct (Nat.eqb (length appliedChanges) 0); [now apply literal_unsigned |].
  apply round2_unsigned, mul_unsigned; apply div_unsigned;
    try apply of_length_unsigned.
  apply fold_confidence_unsigned. now apply literal_unsigned.
Qed.

Lemma fold_sum (l : list FileTransformReport) :
  forall a : float,
    fold_left (fun sum f => sum + confidenceScore f)%num l a
    = fold_left num_add (map confidenceScore l) a.
Proof. induction l as [| f l IH]; intros a; simpl; [reflexivity | apply IH]. Qed.

(** The reports without applied changes add nothing to the sum. *)
Lemma sum_modified (l : list FileTransformReport) :
  Forall (fun f => modified f = false -> confidenceScore f = 0%float) l ->
  Forall (fun f => unsigned (confidenceScore f)) l ->
  forall a : float,
    unsigned a ->
    fold_left num_add (map confidenceScore l) a
    = fold_left num_add (map confidenceScore (List.filter modified l)) a.
Proof.
  induction l as [| f l IH]; intros Hz Hu a Ha; [reflexivity |].
  apply List.Forall_cons_iff in Hz as [Hf Hz]. apply List.Forall_cons_iff in Hu as [Hs Hu].
  simpl. destruct (modified f) eqn:E; simpl.
  - apply IH; try assumption. now apply add_unsigned.
  - rewrite (Hf eq_refl). change (num_add a 0%float) with (a + 0)%float.
    rewrite (add_zero a Ha). now apply IH.
Qed.

Lemma calculateConfidenceScore_none (recommendations : list MigrationRecommendation) :
  calculateConfidenceScore [] recommendations = 0%float.
Proof. reflexivity. Qed.

(** *** The loop of [transformRepository] *)

Section Agent.
Variable messages_create : string -> Result (list ContentBlock).
Variable JSON_parse : string -> Result PerFileTransformation.
Variable github_getFileContent : string -> string -> string -> Result string.
Variable toISOString : Z -> string.
Variable of_time : Z -> string.
Variable migrationPlan : MigrationPlan.
Variable analysisResult : SolidityAnalysisResult.
Variable repositoryTree : RepositoryTree.

Let transformFile :=
  Transformer.transformFile messages_create JSON_parse github_getFileContent
    analysisResult repositoryTree.
Let process_file :=
  Transformer.process_file messages_create JSON_parse github_getFileContent
    analysisResult repositoryTree.

Lemma transformFile_fields (filePath : string)
  (recommendations : list MigrationRecommendation) (t : TransformedFile) :
  transformFile filePath recommendations = Ok t ->
  hasChanges t = Nat.ltb 0 (length (appliedChanges t))
  /\ tf_confidenceScore t = calculateConfidenceScore (appliedChanges t) recommendations.
Proof using Type.
  unfold transformFile, Transformer.transformFile.
  destruct (getFileContent _ _ _) as [[| ch content] |]; try discriminate.
  destruct (performFileTransformation _ _ _) as [transformation | m]; try discriminate.
  intros H. injection H as <-. simpl. split; reflexivity.
Qed.

Lemma process_file_consistent (st : LoopState)
  (entry : string * list MigrationRecommendation) :
  consistent st -> consistent (process_file st entry).
Proof using Type.
  intros (Hm & Hz & Hu). destruct entry as [filePath recommendations].
  unfold process_file, Transformer.process_file.
  destruct (Transformer.transformFile _ _ _ _ _ filePath recommendations)
    as [t | m] eqn:E; [| repeat split; assumption].
  apply transformFile_fields in E as [Hc Hs].
  assert (U : Forall (fun f => unsigned (confidenceScore f))
                (ls_fileReports st
                 ++ [ {| fr_filePath := filePath; success := true;
                         appliedChangesCount := length (appliedChanges t);
                         skippedChangesCount := length (skippedChanges t);
                         confidenceScore := tf_confidenceScore t;
                         fr_warnings := tf_warnings t;
                         diffPreview :=
                           generateDiffPreview (originalContent t)
                             (transformedContent t) |} ])).
  { apply Forall_app. split; [assumption |]. constructor; [| constructor].
    simpl. rewrite Hs. apply calculateConfidenceScore_unsigned. }
  unfold consistent. simpl. rewrite List.filter_app, List.length_app. simpl.
  unfold modified at 2. simpl. rewrite Hc.
  destruct (Nat.ltb 0 (length (appliedChanges t))) eqn:L; simpl.
  - split; [lia | split; [| exact U]]. apply Forall_app. split; [assumption |].
    constructor; [| constructor]. unfold modified. simpl. congruence.
  - split; [lia | split; [| exact U]]. apply Forall_app. split; [assumption |].
    constructor; [| constructor]. intros _. simpl. rewrite Hs.
    apply Nat.ltb_ge in L.
    destruct (appliedChanges t); [reflexivity | simpl in L; lia].
Qed.

Lemma loop_consistent (entries : list (string * list MigrationRecommendation)) :
  forall st, consistent st -> consistent (fold_left process_file entries st).
Proof using Type.
  induction entries as [| e es IH]; intros st H; simpl; [assumption |].
  apply IH. now apply process_file_consistent.
Qed.

(** C6, as the code has it.  The overall confidence is the sum of the
    scores of the modified files divided by the number of all file
    reports (one per file whose transformation did not throw, modified
    or not), rounded to two decimals as [Math.round(x * 100) / 100] does in
    doubles, and 0 when no file was modified.  A file without applied
    changes has the score 0: it adds nothing to the sum, and it is counted
    in the divisor. *)
Theorem overall_confidence_of_run (now : Z) :
  let r := Transformer.transformRepository messages_create JSON_parse
             github_getFileContent toISOString of_time
             migrationPlan analysisResult repositoryTree now in
  overallConfidence (report_summary r)
  = (if Nat.ltb 0 (filesModified r)
     then round2 (sum_of (map confidenceScore (List.filter modified (fileReports r)))
                  / of_length (length (fileReports r)))%num
     else 0%float)
  /\ sum_of (map confidenceScore (fileReports r))
     = sum_of (map confidenceScore (List.filter modified (fileReports r)))
  /\ filesModified r = length (List.filter modified (fileReports r))
  /\ (forall f, In f (fileReports r) ->
                appliedChangesCount f = 0 -> confidenceScore f = 0%float)
  /\ (filesModified r = 0 -> overallConfidence (report_summary r) = 0%float).
Proof using Type.
  intros r.
  assert (H : consistent (fold_left process_file
                            (groupRecommendationsByFile migrationPlan) initial_state)).
  { apply loop_consistent. split; [reflexivity | split; constructor]. }
  destruct H as (Hm & Hz & Hu).
  unfold r, Transformer.transformRepository. cbn [report_summary overallConfidence
    filesModified fileReports]. fold process_file.
  set (st := fold_left process_file (groupRecommendationsByFile migrationPlan)
               initial_state) in *.
  assert (S : sum_of (map confidenceScore (ls_fileReports st))
              = sum_of (map confidenceScore (List.filter modified (ls_fileReports st)))).
  { unfold sum_of. apply sum_modified; try assumption. now apply literal_unsigned. }
  unfold overall_confidence. repeat split.
  - destruct (Nat.ltb 0 (ls_filesModified st)); [| reflexivity].
    rewrite fold_sum. fold (sum_of (map confidenceScore (ls_fileReports st))).
    now rewrite S.
  - exact S.
  - exact Hm.
  - intros f Hin Hf. rewrite List.Forall_forall in Hz. apply (Hz f Hin).
    unfold modified. now rewrite Hf.
  - intros H0. now rewrite H0.
Qed.
End Agent.

Lemma overall_confidence_of_run_witness :
  overallConfidence (report_summary two_file_report) = literal (45 # 100)
  /\ map confidenceScore (fileReports tie_report) = [literal (3 # 10); literal (15 # 100)]
  /\ overallConfidence (report_summary tie_report) = literal (22 # 100).
Proof.
  split; [| split].
  - destruct (overall_confidence_of_run two_file_model two_file_parse two_file_content
                (fun _ => "2025-01-01T00:00:00.000Z") (fun _ => "0")
                two_file_plan (sample_analysis []) sample_tree 0) as [H _].
    unfold two_file_report. rewrite H. vm_compute. reflexivity.
  - vm_compute. reflexivity.
  - destruct (overall_confidence_of_run (fun _ => Ok [TextBlock "{apply}"])
                two_file_parse two_file_content
                (fun _ => "2025-01-01T00:00:00.000Z") (fun _ => "0")
                tie_plan (sample_analysis []) sample_tree 0) as [H _].
    unfold tie_report. rewrite H. vm_compute. reflexivity.
Defined.

(** C6 fails as stated: with one modified file of score 0.9 and one skipped
    file, the mean over the modified files is 0.9, and the overall
    confidence of the report is 0.45. *)
Lemma skipped_file_lowers_overall_confidence :
  filesModified two_file_report = 1
  /\ length (fileReports two_file_report) = 2
  /\ mean_of_modified (fileReports two_file_report) = literal (9 # 10)
  /\ overallConfidence (report_summary two_file_report) = literal (45 # 100)
  /\ overallConfidence (report_summary two_file_report)
     <> mean_of_modified (fileReports two_file_report).
Proof.
  repeat split; try (vm_compute; reflexivity).
  intros H. apply (f_equal (fun x => num_lt x (literal (1 # 2)))) in H.
  vm_compute in H. discriminate H.
Qed.

(** *** The consistency check *)

(** C8 at its failing input.  A file kept as it is, at [contracts/A.sol],
    imports [./Missing.sol]; no analyzed contract lives at
    [contracts/Missing.sol].  Written with double quotes the import is
    reported; written with single quotes, or with a list of names before
    the path, it is not: the report keeps [importsValid = true] and has no
    issue. *)
Theorem unresolved_import_not_reported :
  crossFileConsistency (skipped_run missing_double)
  = {| checked := true; importsValid := false; inheritanceValid := true;
       issues := [ "File contracts/A.sol: Import not found: ./Missing.sol" ] |}
  /\ crossFileConsistency (skipped_run missing_single)
     = {| checked := true; importsValid := true; inheritanceValid := true; issues := [] |}
  /\ crossFileConsistency (skipped_run missing_named)
     = {| checked := true; importsValid := true; inheritanceValid := true; issues := [] |}
  /\ resolveImport "contracts/A.sol" "./Missing.sol" = "contracts/Missing.sol"
  /\ fileExists analysis_of_A "contracts/Missing.sol" = false
  /\ match_imports missing_single = [].
Proof. repeat split; vm_compute; reflexivity. Qed.

End TransformerProofs.

(** ** The HTTP server *)

Module HttpProofs.
Import JsString Analyzer Planner Transformer Http Samples Vocabulary HandlerLogic.

(** *** Running a handler that satisfies [Always] *)

Section Soundness.
Variable env : Env.
Variable T : Z -> Prop.
Variable Inv : Caches -> Prop.
Variable Post : Caches -> Response -> Prop.

Lemma Always_Inv (c : Caches) (h : Handler) : Always env T Inv Post c h -> Inv c.
Proof using Type. now destruct 1. Qed.

Lemma resume_always (t : Z) (w : World) (h : Handler) :
  T t -> Always env T Inv Post (caches w) h ->
  Always env T Inv Post (caches (fst (resume env t w h))) (snd (resume env t w h)).
Proof using Type.
  intros Ht H. destruct h; simpl; inversion H; subst; auto.
Qed.

Lemma run_cons (t : Z) (later : list Z) (w : World) (h : Handler) :
  run env (t :: later) w h
  = match h with
    | Done _ => (w, h)
    | _ => run env later (fst (resume env t w h)) (snd (resume env t w h))
    end.
Proof using Type.
  destruct h; try reflexivity;
    unfold run at 1; fold run; now destruct (resume env t w _).
Qed.

Lemma run_always (times : list Z) :
  forall (w : World) (h : Handler),
    Forall T times -> Always env T Inv Post (caches w) h ->
    Always env T Inv Post (caches (fst (run env times w h))) (snd (run env times w h)).
Proof using Type.
  induction times as [| t later IH]; intros w h Ht H; [assumption |].
  apply List.Forall_cons_iff in Ht as [Ht Hl].
  pose proof (resume_always t w h Ht H) as R.
  rewrite run_cons. destruct h; try assumption; now apply IH.
Qed.

(** A request served alone: the invariant holds of the caches it
    leaves, and the postcondition of its response. *)
Lemma serve_always (now : Z) (times : list Z) (w w' : World) (s : Segment) (h : Handler) :
  T now -> Forall T times ->
  Always env T Inv Post (fst (s now (caches w))) (snd (s now (caches w))) ->
  serve env now times w s = (w', h) ->
  Inv (caches w') /\ (forall r, h = Done r -> Post (caches w') r).
Proof using Type.
  intros Hn Ht H E. unfold serve, arrive in E.
  destruct (settle w (s now (caches w))) as [w1 h1] eqn:E1.
  unfold settle in E1. injection E1 as <- <-.
  pose proof (run_always times
                {| caches := fst (s now (caches w));
                   calls := calls w ++ started (snd (s now (caches w))) |}
                (snd (s now (caches w))) Ht H) as R.
  simpl in E. rewrite E in R. simpl in R.
  split; [now apply Always_Inv in R |].
  intros r ->. now inversion R.
Qed.
End Soundness.

(** *** Truncation of the plan *)

Lemma truncate_plan_spec (p : MigrationPlan) :
  length (recommendations (truncate_plan p)) <= 200
  /\ (200 < length (recommendations p) ->
      recommendations (truncate_plan p) = firstn 200 (recommendations p)
      /\ limitations (truncate_plan p) = limitations p ++ [truncation_notice])
  /\ (length (recommendations p) <= 200 -> truncate_plan p = p).
Proof.
  unfold truncate_plan, MAX_RECOMMENDATIONS.
  destruct (Nat.ltb 200 (length (recommendations p))) eqn:E.
  - apply Nat.ltb_lt in E. simpl. rewrite List.length_firstn.
    repeat split; try reflexivity; lia.
  - apply Nat.ltb_ge in E. repeat split; try lia; reflexivity.
Qed.

Lemma resolve_key_inl (body : RequestBody) (r : Response) :
  resolve_key body = inl r -> exists m, r = Status400 m.
Proof.
  unfold resolve_key.
  repeat match goal with
         | |- context [if ?b then _ else _] => destruct b
         | |- context [match ?x with _ => _ end] => destruct x
         end; intros H; try discriminate; injection H as <-; eauto.
Qed.

Lemma handlePlanMigrationRequest_always (env : Env) (body : RequestBody)
  (now : Z) (c : Caches) :
  Always env (fun _ => True) (fun _ => True) (plan_post env body)
    (fst (handlePlanMigrationRequest body now c))
    (snd (handlePlanMigrationRequest body now c)).
Proof.
  assert (Hfail : forall c m, Always env (fun _ => True) (fun _ => True) (plan_post env body)
                                c (Done (Status500 m))).
  { intros c0 m. constructor; [exact I | intros p H; discriminate]. }
  assert (Hplan : forall key meta analysis c,
             resolve_key body = inr key ->
             Always env (fun _ => True) (fun _ => True) (plan_post env body)
               (fst (plan_and_respond key meta analysis c))
               (snd (plan_and_respond key meta analysis c))).
  { intros key meta analysis c0 Hk. simpl. constructor; [exact I |].
    intros t _. destruct (planRepositoryMigration env meta analysis) as [g | m] eqn:E; simpl.
    - constructor; [exact I |]. intros p H. injection H as <-.
      exists key, meta, analysis, g, t. repeat split; try assumption.
      apply lookup_insert_eq.
    - apply Hfail. }
  assert (Hanalyze : forall key tree c,
             resolve_key body = inr key ->
             Always env (fun _ => True) (fun _ => True) (plan_post env body)
               (fst (plan_analyze key tree c)) (snd (plan_analyze key tree c))).
  { intros key tree c0 Hk. simpl. constructor; [exact I |].
    intros t _. destruct (analyzeSolidityRepository env tree) as [a | m]; simpl.
    - now apply Hplan.
    - apply Hfail. }
  unfold handlePlanMigrationRequest.
  destruct (resolve_key body) as [r | key] eqn:Hk; simpl.
  - apply resolve_key_inl in Hk as [m ->].
    constructor; [exact I | intros p H; discriminate].
  - destruct (analysisCache c !! key) as [cached |]; [now apply Hplan |].
    destruct (repoCache c !! key) as [tree |]; [now apply Hanalyze |].
    assert (H400 : forall m, Always env (fun _ => True) (fun _ => True) (plan_post env body)
                               c (Done (Status400 m))).
    { intros m. constructor; [exact I | intros p H; discriminate]. }
    destruct (repoUrl body) as [[| ch u] |]; simpl; try apply H400.
    constructor; [exact I |]. intros t _.
    destruct (ingestRepository env _) as [tree | m]; simpl.
    + now apply Hanalyze.
    + apply Hfail.
Qed.

(** C10.  When a plan request is answered with a plan, this plan is the
    generator's plan after truncation, and it is the plan stored in the
    plan cache under the repository key.  It has at most 200
    recommendations; when the generator produced more, they are its first
    200 in order and the truncation notice is appended to its limitations;
    otherwise the plan is the generator's, unchanged. *)
Theorem plan_is_truncated (env : Env) (body : RequestBody) (now : Z) (times : list Z)
  (w w' : World) (p : MigrationPlan) :
  serve env now times w (handlePlanMigrationRequest body) = (w', Done (PlanOk p)) ->
  exists key meta analysis generated stamp,
    resolve_key body = inr key
    /\ planRepositoryMigration env meta analysis = Ok generated
    /\ planCache (caches w') !! key = Some {| plan := p; pc_timestamp := stamp |}
    /\ length (recommendations p) <= 200
    /\ (200 < length (recommendations generated) ->
        recommendations p = firstn 200 (recommendations generated)
        /\ limitations p = limitations generated ++ [truncation_notice])
    /\ (length (recommendations generated) <= 200 -> p = generated).
Proof.
  intros E.
  destruct (serve_always env (fun _ => True) (fun _ => True) (plan_post env body)
              now times w w' (handlePlanMigrationRequest body) (Done (PlanOk p)))
    as [_ H]; auto.
  - apply List.Forall_forall. auto.
  - apply handlePlanMigrationRequest_always.
  - destruct (H (PlanOk p) eq_refl p eq_refl)
      as [key [meta [analysis [g [stamp [Hk [Hg [-> Hc]]]]]]]].
    destruct (truncate_plan_spec g) as [H1 [H2 H3]].
    exists key, meta, analysis, g, stamp. repeat split; auto; now apply H2.
Qed.

Lemma plan_is_truncated_witness :
  exists p : MigrationPlan,
    length (recommendations p) <= 200
    /\ limitations p = ["Static analysis only"; truncation_notice].
Proof.
  pose (generated := sample_plan (repeat (sample_recommendation "contracts/Sale.sol" low) 201)).
  pose (r := serve long_env 0 [0; 0; 0]%Z cold (handlePlanMigrationRequest (by_url sale_url))).
  assert (E : r = (fst r, Done (PlanOk (truncate_plan generated))))
    by (vm_compute; reflexivity).
  destruct (plan_is_truncated long_env (by_url sale_url) 0 [0; 0; 0]%Z cold (fst r)
              (truncate_plan generated) E)
    as [key [meta [analysis [g [stamp [_ [_ [_ [Hlen _]]]]]]]]].
  exists (truncate_plan generated). split; [exact Hlen | vm_compute; reflexivity].
Defined.

(** *** What the transform handler does to the caches *)

Section TransformInvariant.
Variable env : Env.
Variable key : string.
Variable T : Z -> Prop.
Variable Inv : Caches -> Prop.

(** A plan is stored only after the plan entry was found absent or
    expired, an analysis only after the analysis entry was, and a tree
    only after a miss. *)
Hypothesis Inv_set_plan :
  forall c t t' e, T t -> T t' -> Inv c ->
    expired t (pc_timestamp <$> planCache c !! key) = true -> Inv (set_plan key e c).
Hypothesis Inv_set_analysis :
  forall c t t' e, T t -> T t' -> Inv c ->
    expired t (ac_timestamp <$> analysisCache c !! key) = true ->
    Inv (set_analysis key e c).
Hypothesis Inv_set_repo :
  forall c tree, Inv c -> repoCache c !! key = None -> Inv (set_repo key tree c).

Let A := Always env T Inv (fun _ _ => True).

Lemma fail_always (c : Caches) (m : string) : Inv c -> A (fst (fail c m)) (snd (fail c m)).
Proof using Type. intros H. now constructor. Qed.

Lemma transform_stage_always (tree : RepositoryTree) (a : SolidityAnalysisResult)
  (p : MigrationPlan) (c : Caches) :
  Inv c -> A (fst (transform_stage tree a p c)) (snd (transform_stage tree a p c)).
Proof using Type.
  intros H. simpl. constructor; [assumption |]. intros t Ht.
  destruct (transformRepository env p a tree); simpl; now constructor.
Qed.

Lemma plan_stage_always (tree : RepositoryTree) (entry : AnalysisCache) (t : Z) (c : Caches) :
  T t -> Inv c ->
  A (fst (plan_stage key tree entry t c)) (snd (plan_stage key tree entry t c)).
Proof using Inv_set_plan.
  intros Ht H. unfold plan_stage.
  assert (R : expired t (pc_timestamp <$> planCache c !! key) = true ->
              A c (AwaitPlan (repoMetadata entry) (analysisResult entry)
                     (fun r now c =>
                        match r with
                        | Ok migrationPlan =>
                            transform_stage tree (analysisResult entry) migrationPlan
                              (set_plan key {| plan := migrationPlan; pc_timestamp := now |} c)
                        | Throw m => fail c m
                        end))).
  { intros Hx. constructor; [assumption |]. intros t' Ht'.
    destruct (planRepositoryMigration env _ _) as [p | m].
    - apply transform_stage_always. now apply (Inv_set_plan c t t').
    - now apply fail_always. }
  destruct (planCache c !! key) as [pc |] eqn:E; simpl in R.
  - destruct (expired t (Some (pc_timestamp pc))) eqn:X.
    + now apply R.
    + now apply transform_stage_always.
  - now apply R.
Qed.

Lemma analysis_stage_always (tree : RepositoryTree) (t : Z) (c : Caches) :
  T t -> Inv c ->
  A (fst (analysis_stage key tree t c)) (snd (analysis_stage key tree t c)).
Proof using Inv_set_plan Inv_set_analysis.
  intros Ht H. unfold analysis_stage.
  assert (R : expired t (ac_timestamp <$> analysisCache c !! key) = true ->
              A c (AwaitAnalyze tree
                     (fun r now c =>
                        match r with
                        | Ok analysisResult =>
                            let entry := {| analysisResult := analysisResult;
                                            repoMetadata := metadata tree;
                                            ac_timestamp := now |} in
                            plan_stage key tree entry now (set_analysis key entry c)
                        | Throw m => fail c m
                        end))).
  { intros Hx. constructor; [assumption |]. intros t' Ht'.
    destruct (analyzeSolidityRepository env tree) as [a | m].
    - apply plan_stage_always; [assumption |]. now apply (Inv_set_analysis c t t').
    - now apply fail_always. }
  destruct (analysisCache c !! key) as [ac |] eqn:E; simpl in R.
  - destruct (expired t (Some (ac_timestamp ac))) eqn:X.
    + now apply R.
    + now apply plan_stage_always.
  - now apply R.
Qed.

Lemma handleTransformRequest_always (body : RequestBody) (now : Z) (c : Caches) :
  resolve_key body = inr key -> T now -> Inv c ->
  A (fst (handleTransformRequest body now c)) (snd (handleTransformRequest body now c)).
Proof using Inv_set_plan Inv_set_analysis Inv_set_repo.
  intros Hk Ht H. unfold handleTransformRequest. rewrite Hk.
  destruct (repoCache c !! key) as [tree |] eqn:E.
  - now apply analysis_stage_always.
  - simpl. constructor; [assumption |]. intros t' Ht'.
    destruct (ingestRepository env _) as [tree | m].
    + apply analysis_stage_always; [assumption |]. now apply Inv_set_repo.
    + now apply fail_always.
Qed.
End TransformInvariant.

Lemma no_deletion_refl (c : Caches) : no_deletion c c.
Proof. repeat split; auto. Qed.

Lemma is_Some_insert {V : Type} (m : gmap string V) (key k : string) (v : V) :
  is_Some (m !! k) -> is_Some (<[key := v]> m !! k).
Proof.
  intros H. destruct (decide (key = k)) as [-> | Hne].
  - rewrite lookup_insert_eq. eauto.
  - now rewrite lookup_insert_ne.
Qed.

Lemma expired_spec (t stamp : Z) :
  expired t (Some stamp) = true <-> (CACHE_TTL_MS < t - stamp)%Z.
Proof. unfold expired. apply Z.ltb_lt. Qed.

(** The transform handler removes nothing from the caches. *)
Lemma transform_no_deletion (env : Env) (body : RequestBody) (key : string) (now : Z)
  (times : list Z) (w w' : World) (h : Handler) :
  resolve_key body = inr key ->
  serve env now times w (handleTransformRequest body) = (w', h) ->
  no_deletion (caches w) (caches w').
Proof.
  intros Hk E.
  destruct (serve_always env (fun _ => True) (no_deletion (caches w)) (fun _ _ => True)
              now times w w' (handleTransformRequest body) h) as [H _]; auto.
  - apply List.Forall_forall. auto.
  - apply (handleTransformRequest_always env key); auto.
    + intros c t t' e _ _ [H1 [H2 H3]] _. repeat split; auto.
      intros k Hs. simpl. apply is_Some_insert. auto.
    + intros c t t' e _ _ [H1 [H2 H3]] _. repeat split; auto.
      intros k Hs. simpl. apply is_Some_insert. auto.
    + intros c tree [H1 [H2 H3]] Hn. repeat split; auto.
      intros k t Hs. simpl. apply H1 in Hs.
      rewrite lookup_insert_ne; [assumption | congruence].
    + apply no_deletion_refl.
Qed.

(** While the plan of the key is within its time to live, the transform
    handler leaves it as it is. *)
Lemma transform_keeps_fresh_plan (env : Env) (body : RequestBody) (key : string) (now : Z)
  (times : list Z) (w w' : World) (h : Handler) (pc : PlanCache) :
  resolve_key body = inr key ->
  serve env now times w (handleTransformRequest body) = (w', h) ->
  planCache (caches w) !! key = Some pc ->
  Forall (fun t => t - pc_timestamp pc <= CACHE_TTL_MS)%Z (now :: times) ->
  planCache (caches w') !! key = Some pc.
Proof.
  intros Hk E Hp Hf. apply List.Forall_cons_iff in Hf as [Hn Hf].
  destruct (serve_always env (fun t => t - pc_timestamp pc <= CACHE_TTL_MS)%Z
              (fun c => planCache c !! key = Some pc) (fun _ _ => True)
              now times w w' (handleTransformRequest body) h) as [H _]; auto.
  apply (handleTransformRequest_always env key); auto.
  intros c t t' e Ht _ Hc Hx. rewrite Hc in Hx. simpl in Hx.
  apply expired_spec in Hx. lia.
Qed.

(** The record of the stage calls only grows. *)
Lemma run_calls (env : Env) (times : list Z) :
  forall (w : World) (h : Handler) (s : Stage),
    In s (calls w) -> In s (calls (fst (run env times w h))).
Proof.
  induction times as [| t later IH]; intros w h s H; [assumption |].
  rewrite run_cons. destruct h; try assumption; apply IH; simpl;
    apply in_or_app; now left.
Qed.

(** When the analysis of a cached tree is absent or expired, it is
    computed again and the new result replaces the old entry. *)
Lemma transform_replaces_stale_analysis (env : Env) (body : RequestBody) (key : string)
  (now t1 : Z) (later : list Z) (w w' : World) (h : Handler)
  (tree : RepositoryTree) (a : SolidityAnalysisResult) :
  resolve_key body = inr key ->
  serve env now (t1 :: later) w (handleTransformRequest body) = (w', h) ->
  repoCache (caches w) !! key = Some tree ->
  expired now (ac_timestamp <$> analysisCache (caches w) !! key) = true ->
  analyzeSolidityRepository env tree = Ok a ->
  analysisCache (caches w') !! key
  = Some {| analysisResult := a; repoMetadata := metadata tree; ac_timestamp := t1 |}
  /\ In StageAnalysis (calls w').
Proof.
  intros Hk E Hr Hx Ha.
  set (entry := {| analysisResult := a; repoMetadata := metadata tree; ac_timestamp := t1 |}).
  set (P := fun c : Caches => analysisCache c !! key = Some entry).
  assert (R : forall (k : Result SolidityAnalysisResult -> Z -> Caches -> Caches * Handler),
             k (Ok a) t1 (caches w)
             = plan_stage key tree entry t1 (set_analysis key entry (caches w)) ->
             run env (t1 :: later) {| caches := caches w; calls := calls w ++ [StageAnalysis] |}
               (AwaitAnalyze tree k) = (w', h) ->
             P (caches w') /\ In StageAnalysis (calls w')).
  { intros k Hkk Hrun. rewrite run_cons in Hrun.
    remember (resume env t1 {| caches := caches w; calls := calls w ++ [StageAnalysis] |}
                (AwaitAnalyze tree k)) as r2 eqn:Er.
    assert (F : caches (fst r2)
                = fst (plan_stage key tree entry t1 (set_analysis key entry (caches w)))
                /\ snd r2
                   = snd (plan_stage key tree entry t1 (set_analysis key entry (caches w)))
                /\ In StageAnalysis (calls (fst r2))).
    { subst r2. simpl. rewrite Ha, Hkk. repeat split.
      simpl. apply in_or_app. left. apply in_or_app. right. now left. }
    destruct F as [F1 [F2 F3]].
    pose proof (run_always env (fun _ => True) P (fun _ _ => True) later (fst r2) (snd r2))
      as Q.
    pose proof (run_calls env later (fst r2) (snd r2) StageAnalysis F3) as C.
    rewrite Hrun in Q, C. simpl in Q, C. split; [| exact C].
    eapply Always_Inv. apply Q.
    - apply List.Forall_forall. auto.
    - rewrite F1, F2. apply (plan_stage_always env key); auto.
      unfold P. simpl. apply lookup_insert_eq. }
  unfold serve, arrive, handleTransformRequest in E.
  rewrite Hk, Hr in E. unfold analysis_stage in E.
  destruct (analysisCache (caches w) !! key) as [ac |].
  - change (expired now (Some (ac_timestamp ac)) = true) in Hx.
    rewrite Hx in E. now apply R in E.
  - now apply R in E.
Qed.


(** After the transform stage has been started, the caches stay as they
    are. *)
Lemma run_transform_stage (env : Env) (P : Caches -> Prop) (later : list Z)
  (tree : RepositoryTree) (a : SolidityAnalysisResult) (p : MigrationPlan)
  (c : Caches) (l : list Stage) (s : Stage) (w' : World) (h : Handler) :
  P c -> In s l ->
  run env later {| caches := fst (transform_stage tree a p c); calls := l |}
    (snd (transform_stage tree a p c)) = (w', h) ->
  P (caches w') /\ In s (calls w').
Proof.
  intros HP Hs Hrun.
  pose proof (run_always env (fun _ => True) P (fun _ _ => True) later
                {| caches := fst (transform_stage tree a p c); calls := l |}
                (snd (transform_stage tree a p c))) as Q.
  pose proof (run_calls env later
                {| caches := fst (transform_stage tree a p c); calls := l |}
                (snd (transform_stage tree a p c)) s Hs) as C.
  rewrite Hrun in Q, C. simpl in Q, C. split; [| exact C].
  eapply Always_Inv. apply Q.
  - apply List.Forall_forall. auto.
  - now apply transform_stage_always.
Qed.

(** When the plan of the key is absent or expired at the plan stage, the
    planner is called and its result replaces the entry, stamped with the
    time at which the call settled. *)
Lemma plan_stage_replaces_stale_plan (env : Env) (key : string) (tree : RepositoryTree)
  (entry : AnalysisCache) (t t1 : Z) (later : list Z) (c : Caches) (l : list Stage)
  (w' : World) (h : Handler) (p : MigrationPlan) :
  expired t (pc_timestamp <$> planCache c !! key) = true ->
  planRepositoryMigration env (repoMetadata entry) (analysisResult entry) = Ok p ->
  run env (t1 :: later)
    {| caches := fst (plan_stage key tree entry t c);
       calls := l ++ started (snd (plan_stage key tree entry t c)) |}
    (snd (plan_stage key tree entry t c)) = (w', h) ->
  planCache (caches w') !! key = Some {| plan := p; pc_timestamp := t1 |}
  /\ In StagePlan (calls w').
Proof.
  intros Hx Hp Hrun.
  assert (E : plan_stage key tree entry t c
              = (c, AwaitPlan (repoMetadata entry) (analysisResult entry)
                      (fun r now c =>
                         match r with
                         | Ok migrationPlan =>
                             transform_stage tree (analysisResult entry) migrationPlan
                               (set_plan key
                                  {| plan := migrationPlan; pc_timestamp := now |} c)
                         | Throw m => fail c m
                         end))).
  { unfold plan_stage. destruct (planCache c !! key) as [pc |]; [| reflexivity].
    change (expired t (Some (pc_timestamp pc)) = true) in Hx. now rewrite Hx. }
  rewrite E in Hrun. rewrite run_cons in Hrun. simpl in Hrun. rewrite Hp in Hrun.
  refine (run_transform_stage env
            (fun c' => planCache c' !! key = Some {| plan := p; pc_timestamp := t1 |})
            later tree (analysisResult entry) p
            (set_plan key {| plan := p; pc_timestamp := t1 |} c) _ StagePlan w' h
            _ _ Hrun).
  - simpl. apply lookup_insert_eq.
  - apply in_or_app. left. apply in_or_app. right. now left.
Qed.

(** The same, for a request served alone whose analysis entry is within
    its time to live. *)
Lemma transform_replaces_stale_plan (env : Env) (body : RequestBody) (key : string)
  (now t1 : Z) (later : list Z) (w w' : World) (h : Handler)
  (tree : RepositoryTree) (ac : AnalysisCache) (p : MigrationPlan) :
  resolve_key body = inr key ->
  serve env now (t1 :: later) w (handleTransformRequest body) = (w', h) ->
  repoCache (caches w) !! key = Some tree ->
  analysisCache (caches w) !! key = Some ac ->
  (now - ac_timestamp ac <= CACHE_TTL_MS)%Z ->
  expired now (pc_timestamp <$> planCache (caches w) !! key) = true ->
  planRepositoryMigration env (repoMetadata ac) (analysisResult ac) = Ok p ->
  planCache (caches w') !! key = Some {| plan := p; pc_timestamp := t1 |}
  /\ In StagePlan (calls w').
Proof.
  intros Hk E Hr Ha Hf Hx Hp.
  unfold serve, arrive, handleTransformRequest in E.
  rewrite Hk, Hr in E. unfold analysis_stage in E. rewrite Ha in E.
  destruct (expired now (Some (ac_timestamp ac))) eqn:X;
    [apply expired_spec in X; lia |].
  unfold settle in E.
  now apply (plan_stage_replaces_stale_plan env key tree ac now t1 later (caches w)
               (calls w) w' h p).
Qed.

(** The same, for a request served alone whose analysis entry is absent
    or expired too: the analysis settles first, then the plan. *)
Lemma transform_replaces_stale_analysis_and_plan (env : Env) (body : RequestBody)
  (key : string) (now t1 t2 : Z) (later : list Z) (w w' : World) (h : Handler)
  (tree : RepositoryTree) (a : SolidityAnalysisResult) (p : MigrationPlan) :
  resolve_key body = inr key ->
  serve env now (t1 :: t2 :: later) w (handleTransformRequest body) = (w', h) ->
  repoCache (caches w) !! key = Some tree ->
  expired now (ac_timestamp <$> analysisCache (caches w) !! key) = true ->
  analyzeSolidityRepository env tree = Ok a ->
  expired t1 (pc_timestamp <$> planCache (caches w) !! key) = true ->
  planRepositoryMigration env (metadata tree) a = Ok p ->
  planCache (caches w') !! key = Some {| plan := p; pc_timestamp := t2 |}
  /\ In StagePlan (calls w').
Proof.
  intros Hk E Hr Hx Ha Hxp Hp.
  set (entry := {| analysisResult := a; repoMetadata := metadata tree; ac_timestamp := t1 |}).
  assert (R : forall (k : Result SolidityAnalysisResult -> Z -> Caches -> Caches * Handler),
             k (Ok a) t1 (caches w)
             = plan_stage key tree entry t1 (set_analysis key entry (caches w)) ->
             run env (t1 :: t2 :: later)
               {| caches := caches w; calls := calls w ++ [StageAnalysis] |}
               (AwaitAnalyze tree k) = (w', h) ->
             planCache (caches w') !! key = Some {| plan := p; pc_timestamp := t2 |}
             /\ In StagePlan (calls w')).
  { intros k Hkk Hrun. rewrite run_cons in Hrun. simpl in Hrun.
    rewrite Ha, Hkk in Hrun. unfold settle in Hrun. simpl fst in Hrun. simpl snd in Hrun.
    now apply (plan_stage_replaces_stale_plan env key tree entry t1 t2 later
                 (set_analysis key entry (caches w)) (calls w ++ [StageAnalysis]) w' h p). }
  unfold serve, arrive, handleTransformRequest in E.
  rewrite Hk, Hr in E. unfold analysis_stage in E.
  destruct (analysisCache (caches w) !! key) as [ac |].
  - change (expired now (Some (ac_timestamp ac)) = true) in Hx.
    rewrite Hx in E. now apply R in E.
  - now apply R in E.
Qed.


(** C3, as the code has it.  The transform handler deletes nothing: a
    cached tree stays as it is, and a key that has an analysis or a plan
    still has one afterwards.  When it computes the analysis of key K again,
    it overwrites K's analysis entry and leaves K's plan in the cache; the
    plan entry is kept unchanged as long as its own age is within the
    time to live at every step of the request. *)
Theorem recomputation_keeps_downstream (env : Env) (body : RequestBody) (key : string)
  (now : Z) (times : list Z) (w w' : World) (h : Handler) :
  resolve_key body = inr key ->
  serve env now times w (handleTransformRequest body) = (w', h) ->
  no_deletion (caches w) (caches w')
  /\ (forall pc,
        planCache (caches w) !! key = Some pc ->
        Forall (fun t => t - pc_timestamp pc <= CACHE_TTL_MS)%Z (now :: times) ->
        planCache (caches w') !! key = Some pc)
  /\ (forall tree a t1 later,
        times = t1 :: later ->
        repoCache (caches w) !! key = Some tree ->
        expired now (ac_timestamp <$> analysisCache (caches w) !! key) = true ->
        analyzeSolidityRepository env tree = Ok a ->
        analysisCache (caches w') !! key
        = Some {| analysisResult := a; repoMetadata := metadata tree; ac_timestamp := t1 |}
        /\ repoCache (caches w') !! key = Some tree
        /\ In StageAnalysis (calls w')).
Proof.
  intros Hk E. split; [| split].
  - now apply (transform_no_deletion env body key now times w w' h).
  - intros pc Hp Hf.
    now apply (transform_keeps_fresh_plan env body key now times w w' h pc).
  - intros tree a t1 later -> Hr Hx Ha.
    destruct (transform_replaces_stale_analysis env body key now t1 later w w' h tree a)
      as [H1 H2]; auto.
    repeat split; auto.
    destruct (transform_no_deletion env body key now (t1 :: later) w w' h Hk E) as [H _].
    now apply H.
Qed.

Lemma recomputation_keeps_downstream_witness :
  planCache (caches after_transform) !! "acme/sale"
  = Some {| plan := sample_plan [ sample_recommendation "contracts/Sale.sol" high ];
            pc_timestamp := minutes 2 |}.
Proof.
  destruct (recomputation_keeps_downstream sample_env (by_id "acme/sale") "acme/sale"
              (minutes 31) [minutes 31; minutes 31] after_plan after_transform
              (snd (serve sample_env (minutes 31) [minutes 31; minutes 31] after_plan
                      (handleTransformRequest (by_id "acme/sale"))))
              eq_refl (surjective_pairing _)) as [_ [H _]].
  apply H.
  - vm_compute. reflexivity.
  - repeat constructor; vm_compute; discriminate.
Defined.

(** C3 fails as stated.  A plan request caches the analysis at time 0 and
    the plan two minutes later.  A transform request 31 minutes after the
    start finds the analysis expired and computes it again; the plan, 29
    minutes old, is still in the cache afterwards, unchanged. *)
Lemma plan_survives_analysis_recomputation :
  ac_timestamp <$> analysisCache (caches after_plan) !! "acme/sale" = Some 0%Z
  /\ ac_timestamp <$> analysisCache (caches after_transform) !! "acme/sale"
     = Some (minutes 31)
  /\ calls after_transform = calls after_plan ++ [StageAnalysis; StageTransform]
  /\ planCache (caches after_transform) !! "acme/sale"
     = planCache (caches after_plan) !! "acme/sale"
  /\ planCache (caches after_transform) !! "acme/sale" <> None.
Proof.
  repeat split; try (vm_compute; reflexivity).
  vm_compute. discriminate.
Qed.

(** *** Expiry *)

Lemma plan_stage_started (key : string) (tree : RepositoryTree) (entry : AnalysisCache)
  (now : Z) (c : Caches) :
  started (snd (plan_stage key tree entry now c)) = [StagePlan]
  \/ started (snd (plan_stage key tree entry now c)) = [StageTransform].
Proof.
  unfold plan_stage. destruct (planCache c !! key) as [pc |]; [| now left].
  destruct (expired now (Some (pc_timestamp pc))); [now left | now right].
Qed.

Lemma analysis_stage_started (key : string) (tree : RepositoryTree) (now : Z) (c : Caches) :
  ~ In StageTree (started (snd (analysis_stage key tree now c))).
Proof.
  unfold analysis_stage.
  assert (P : forall entry, ~ In StageTree (started (snd (plan_stage key tree entry now c)))).
  { intros entry. destruct (plan_stage_started key tree entry now c) as [-> | ->];
      simpl; intuition discriminate. }
  destruct (analysisCache c !! key) as [ac |]; [| simpl; intuition discriminate].
  destruct (expired now (Some (ac_timestamp ac))); [simpl; intuition discriminate | apply P].
Qed.

(** C5, as the code has it.  In the transform handler, with the tree of
    the key in the cache: the tree is used whatever its age, and no
    ingestion is started; an analysis entry older than 30 minutes is
    treated as absent (the handler behaves as on the caches without the
    entry, and starts the analysis), and one that is not older is used; the
    same holds for the plan entry at the plan stage.  The result of a
    recomputation replaces the entry: when the analysis is absent or
    expired, the request leaves the new analysis under the key, stamped
    with the time at which the analysis settled; when the plan is absent or
    expired at the plan stage (with the analysis reused or just
    recomputed), it leaves the planner's result under the key, stamped with
    the time at which the planner settled. *)
Theorem stale_entries_are_recomputed (env : Env) (body : RequestBody) (key : string)
  (tree : RepositoryTree) (now : Z) (c : Caches) :
  resolve_key body = inr key ->
  repoCache c !! key = Some tree ->
  ~ In StageTree (started (snd (handleTransformRequest body now c)))
  /\ (forall old,
        analysisCache c !! key = Some old ->
        (CACHE_TTL_MS < now - ac_timestamp old)%Z ->
        snd (handleTransformRequest body now c)
        = snd (handleTransformRequest body now (drop_analysis key c))
        /\ started (snd (handleTransformRequest body now c)) = [StageAnalysis])
  /\ (forall old,
        analysisCache c !! key = Some old ->
        (now - ac_timestamp old <= CACHE_TTL_MS)%Z ->
        handleTransformRequest body now c = plan_stage key tree old now c)
  /\ (forall entry pc,
        planCache c !! key = Some pc ->
        (CACHE_TTL_MS < now - pc_timestamp pc)%Z ->
        snd (plan_stage key tree entry now c)
        = snd (plan_stage key tree entry now (drop_plan key c))
        /\ started (snd (plan_stage key tree entry now c)) = [StagePlan])
  /\ (forall entry pc,
        planCache c !! key = Some pc ->
        (now - pc_timestamp pc <= CACHE_TTL_MS)%Z ->
        plan_stage key tree entry now c
        = transform_stage tree (analysisResult entry) (plan pc) c)
  /\ (forall w w' h t1 later a,
        caches w = c ->
        serve env now (t1 :: later) w (handleTransformRequest body) = (w', h) ->
        expired now (ac_timestamp <$> analysisCache c !! key) = true ->
        analyzeSolidityRepository env tree = Ok a ->
        analysisCache (caches w') !! key
        = Some {| analysisResult := a; repoMetadata := metadata tree; ac_timestamp := t1 |}
        /\ In StageAnalysis (calls w'))
  /\ (forall w w' h t1 later ac p,
        caches w = c ->
        serve env now (t1 :: later) w (handleTransformRequest body) = (w', h) ->
        analysisCache c !! key = Some ac ->
        (now - ac_timestamp ac <= CACHE_TTL_MS)%Z ->
        expired now (pc_timestamp <$> planCache c !! key) = true ->
        planRepositoryMigration env (repoMetadata ac) (analysisResult ac) = Ok p ->
        planCache (caches w') !! key = Some {| plan := p; pc_timestamp := t1 |}
        /\ In StagePlan (calls w'))
  /\ (forall w w' h t1 t2 later a p,
        caches w = c ->
        serve env now (t1 :: t2 :: later) w (handleTransformRequest body) = (w', h) ->
        expired now (ac_timestamp <$> analysisCache c !! key) = true ->
        analyzeSolidityRepository env tree = Ok a ->
        expired t1 (pc_timestamp <$> planCache c !! key) = true ->
        planRepositoryMigration env (metadata tree) a = Ok p ->
        planCache (caches w') !! key = Some {| plan := p; pc_timestamp := t2 |}
        /\ In StagePlan (calls w')).
Proof.
  intros Hk Hr.
  assert (E : handleTransformRequest body now c = analysis_stage key tree now c).
  { unfold handleTransformRequest. now rewrite Hk, Hr. }
  split; [| split; [| split; [| split; [| split; [| split; [| split]]]]]].
  - rewrite E. apply analysis_stage_started.
  - intros old Ho Hx. rewrite E.
    unfold handleTransformRequest. rewrite Hk.
    change (repoCache (drop_analysis key c)) with (repoCache c). rewrite Hr.
    unfold analysis_stage.
    change (analysisCache (drop_analysis key c)) with (delete key (analysisCache c)).
    rewrite Ho, lookup_delete_eq.
    apply expired_spec in Hx. rewrite Hx. split; reflexivity.
  - intros old Ho Hf. rewrite E. unfold analysis_stage. rewrite Ho.
    destruct (expired now (Some (ac_timestamp old))) eqn:X; [| reflexivity].
    apply expired_spec in X. lia.
  - intros entry pc Hp Hx. unfold plan_stage.
    change (planCache (drop_plan key c)) with (delete key (planCache c)).
    rewrite Hp, lookup_delete_eq.
    apply expired_spec in Hx. rewrite Hx. split; reflexivity.
  - intros entry pc Hp Hf. unfold plan_stage. rewrite Hp.
    destruct (expired now (Some (pc_timestamp pc))) eqn:X; [| reflexivity].
    apply expired_spec in X. lia.
  - intros w w' h t1 later a <- Hs Hx Ha.
    now apply (transform_replaces_stale_analysis env body key now t1 later w w' h tree a).
  - intros w w' h t1 later ac p <- Hs Ha Hf Hx Hp.
    now apply (transform_replaces_stale_plan env body key now t1 later w w' h tree ac p).
  - intros w w' h t1 t2 later a p <- Hs Hx Ha Hxp Hp.
    now apply (transform_replaces_stale_analysis_and_plan env body key now t1 t2 later
                 w w' h tree a p).
Qed.

Lemma stale_entries_are_recomputed_witness :
  started (snd (handleTransformRequest (by_id "acme/sale") (minutes 31) (caches after_plan)))
  = [StageAnalysis]
  /\ planCache (caches (fst late_transform)) !! "acme/sale"
     = Some {| plan := sample_plan [ sample_recommendation "contracts/Sale.sol" high ];
               pc_timestamp := minutes 34 |}.
Proof.
  destruct (stale_entries_are_recomputed sample_env (by_id "acme/sale") "acme/sale"
              sample_tree (minutes 31) (caches after_plan) eq_refl
              ltac:(vm_compute; reflexivity)) as (_ & H & _ & _ & _ & _ & _ & H').
  split.
  - apply (H {| analysisResult := sample_analysis [Token; Sale];
                repoMetadata := sample_metadata; ac_timestamp := 0 |}).
    + vm_compute. reflexivity.
    + vm_compute. reflexivity.
  - apply (H' after_plan (fst late_transform) (snd late_transform)
             (minutes 33) (minutes 34) [minutes 35] (sample_analysis [Token; Sale])
             (sample_plan [ sample_recommendation "contracts/Sale.sol" high ])).
    + reflexivity.
    + apply surjective_pairing.
    + vm_compute. reflexivity.
    + reflexivity.
    + vm_compute. reflexivity.
    + reflexivity.
Defined.

(** C5 fails as stated for the tree stage.  The tree cached at time 0 is
    older than the time to live 31 minutes later, and the second analysis
    request uses it: the only ingestion is the one of the first request.
    The same holds for a transform request that comes 31 minutes after a plan
    request. *)
Lemma old_tree_is_reused :
  calls after_analyze = [StageTree; StageAnalysis]
  /\ (CACHE_TTL_MS < minutes 31 - 0)%Z
  /\ calls after_second_analyze = [StageTree; StageAnalysis; StageAnalysis]
  /\ count_calls StageTree after_second_analyze = 1
  /\ repoCache (caches after_second_analyze) !! "acme/sale" = Some sample_tree
  /\ calls after_transform
     = [StageTree; StageAnalysis; StagePlan; StageAnalysis; StageTransform]
  /\ count_calls StageTree after_transform = 1.
Proof. repeat split; vm_compute; reflexivity. Qed.


(** *** Requests in flight together *)




(** *** Any schedule *)








Section Schedules.
Variable env : Env.



End Schedules.

Section Together.
Variable env : Env.



Variable body : RequestBody.
Variable key : string.
Variable tree : RepositoryTree.
Variable a : SolidityAnalysisResult.
Variable p : MigrationPlan.
Variable rep : TransformationReport.
Variables t0 t1 t2 t3 t4 : Z.

Hypothesis Hkey : resolve_key body = inr key.
Hypothesis Hingest : ingestRepository env (ingest_url body key) = Ok tree.
Hypothesis Hanalyze : analyzeSolidityRepository env tree = Ok a.
Hypothesis Hplan : planRepositoryMigration env (metadata tree) a = Ok p.
Hypothesis Htransform : transformRepository env p a tree = Ok rep.

Let entry : AnalysisCache :=
      {| analysisResult := a; repoMetadata := metadata tree; ac_timestamp := t2 |}.
Let c0 : Caches := empty_caches.
Let c1 : Caches := set_repo key tree c0.
Let h1 : Handler := snd (analysis_stage key tree t1 c1).








End Together.



End HttpProofs.


(** ** Further properties of the analyzer *)

Module AnalyzerExtra.
Import JsString Analyzer Samples Vocabulary Support AnalyzerProofs.

(** *** The nodes of the graph *)

Lemma In_push_node (nodes : list string) (x y : string) :
  In y (push_node nodes x) <-> In y nodes \/ y = x.
Proof.
  unfold push_node. destruct (includes_str nodes x) eqn:E.
  - apply includes_str_In in E. split; [now left |]. intros [H | ->]; assumption.
  - rewrite in_app_iff. simpl. intuition.
Qed.

Lemma NoDup_push_node (nodes : list string) (x : string) :
  List.NoDup nodes -> List.NoDup (push_node nodes x).
Proof.
  intros H. unfold push_node. destruct (includes_str nodes x) eqn:E; [assumption |].
  apply List.NoDup_app; [assumption | repeat constructor; simpl; tauto |].
  intros a Ha [<- | []]. apply includes_str_In in Ha. congruence.
Qed.

Lemma nodes_add_edges (c : SolidityContract) (k : EdgeType) (targets : list string) :
  forall g,
    (List.NoDup (nodes g) -> List.NoDup (nodes (add_edges c k targets g)))
    /\ (forall y, In y (nodes (add_edges c k targets g)) <-> In y (nodes g) \/ In y targets).
Proof.
  unfold add_edges. induction targets as [| t ts IH]; intros g; simpl.
  - split; [auto | intuition].
  - destruct (IH {| nodes := push_node (nodes g) t;
                    edges := edges g ++ [ {| from := name c; to := t; edge_type := k |} ] |})
      as [H1 H2]. simpl in H1, H2. split.
    + intros H. apply H1. now apply NoDup_push_node.
    + intros y. rewrite H2, In_push_node. intuition.
Qed.

Lemma nodes_add_contract (g : DependencyGraph) (c : SolidityContract) :
  (List.NoDup (nodes g) -> List.NoDup (nodes (add_contract g c)))
  /\ (forall y, In y (nodes (add_contract g c))
                <-> In y (nodes g) \/ y = name c \/ In y (imports c) \/ In y (inherits c)).
Proof.
  unfold add_contract.
  set (g1 := {| nodes := push_node (nodes g) (name c); edges := edges g |}).
  destruct (nodes_add_edges c import (imports c) g1) as [A1 A2].
  destruct (nodes_add_edges c inheritance (inherits c) (add_edges c import (imports c) g1))
    as [B1 B2].
  split.
  - intros H. apply B1, A1. simpl. now apply NoDup_push_node.
  - intros y. rewrite B2, A2. simpl. rewrite In_push_node. intuition.
Qed.

Lemma nodes_fold (cs : list SolidityContract) :
  forall g,
    (List.NoDup (nodes g) -> List.NoDup (nodes (fold_left add_contract cs g)))
    /\ (forall y, In y (nodes (fold_left add_contract cs g))
                  <-> In y (nodes g)
                      \/ exists c, In c cs
                                   /\ (y = name c \/ In y (imports c) \/ In y (inherits c))).
Proof.
  induction cs as [| c cs IH]; intros g; simpl.
  - split; [auto |]. intros y. split; [now left |]. intros [H | [c [[] _]]]. assumption.
  - destruct (IH (add_contract g c)) as [H1 H2].
    destruct (nodes_add_contract g c) as [A1 A2]. split.
    + intros H. now apply H1, A1.
    + intros y. rewrite H2, A2. split.
      * intros [[H | H] | [c' [Hc H]]]; [now left | right; exists c; intuition
                                        | right; exists c'; intuition].
      * intros [H | [c' [[<- | Hc] H]]]; [left; now left | left; now right |].
        right. exists c'. now split.
Qed.

(** X1.  Every name of the graph is listed once.  The nodes are exactly the names
    of the contract units and the targets of the edges; the source of every
    edge is the name of a contract unit. *)
Theorem graph_nodes (cs : list SolidityContract) :
  let g := buildDependencyGraph cs in
  List.NoDup (nodes g)
  /\ (forall y, In y (nodes g)
                <-> (exists c, In c cs /\ name c = y) \/ (exists e, In e (edges g) /\ to e = y))
  /\ (forall e, In e (edges g) -> In (from e) (nodes g) /\ In (to e) (nodes g)).
Proof.
  intros g.
  destruct (nodes_fold cs {| nodes := []; edges := [] |}) as [H1 H2].
  assert (T : forall y, (exists e, In e (edges g) /\ to e = y)
                        <-> exists c, In c cs /\ (In y (imports c) \/ In y (inherits c))).
  { intros y. unfold g. rewrite edges_buildDependencyGraph. split.
    - intros [e [He <-]]. apply in_flat_map in He as [c [Hc He]]. exists c. split; [assumption |].
      unfold contract_edges in He. apply in_app_iff in He.
      destruct He as [He | He]; apply in_map_iff in He as [t [<- Ht]]; simpl; auto.
    - intros [c [Hc [H | H]]].
      + exists {| from := name c; to := y; edge_type := import |}. split; [| reflexivity].
        apply in_flat_map. exists c. split; [assumption |]. unfold contract_edges.
        apply in_app_iff. left. apply in_map_iff. now exists y.
      + exists {| from := name c; to := y; edge_type := inheritance |}. split; [| reflexivity].
        apply in_flat_map. exists c. split; [assumption |]. unfold contract_edges.
        apply in_app_iff. right. apply in_map_iff. now exists y. }
  assert (N : forall y, In y (nodes g)
                        <-> (exists c, In c cs /\ name c = y)
                            \/ (exists e, In e (edges g) /\ to e = y)).
  { intros y. rewrite T. unfold g, buildDependencyGraph. rewrite H2. simpl. split.
    - intros [[] | [c [Hc [-> | H]]]]; [left; now exists c | right; now exists c].
    - intros [[c [Hc <-]] | [c [Hc H]]]; right; exists c; auto. }
  split; [| split].
  - apply H1. constructor.
  - exact N.
  - intros e He. split.
    + apply N. left. unfold g in He. rewrite edges_buildDependencyGraph in He.
      apply in_flat_map in He as [c [Hc He]]. exists c. split; [assumption |].
      symmetry. now apply from_contract_edges.
    + apply N. right. now exists e.
Qed.

(** *** Searching the syntax tree *)

Lemma hd_error_app {A : Type} (l1 l2 : list A) :
  hd_error (l1 ++ l2) = match hd_error l1 with Some x => Some x | None => hd_error l2 end.
Proof. now destruct l1. Qed.

(** X2.  [findNodeByType] returns the first node, in document order, that
    [findNodesByType] returns for the same type, and [null] when there is
    none. *)
Theorem findNodeByType_first (node : SyntaxNode) (ty : string) :
  findNodeByType node ty = hd_error (findNodesByType node [ty]).
Proof.
  induction node as [t field s e ch IH] using SyntaxNode_nested_ind.
  simpl. unfold includes_str. simpl. rewrite orb_false_r.
  destruct (String.eqb t ty); [reflexivity |]. simpl.
  induction IH as [| child rest Hc _ IHrest]; simpl; [reflexivity |].
  rewrite hd_error_app, <- Hc.
  destruct (findNodeByType child ty); [reflexivity | exact IHrest].
Qed.

(** *** Functions of a contract unit *)

Lemma fold_keeps {A B : Type} (P : B -> Prop) (step : list B -> A -> list B) (l : list A) :
  (forall acc a, Forall P acc -> Forall P (step acc a)) ->
  (forall acc a, length (step acc a) <= S (length acc)) ->
  forall acc, Forall P acc ->
    Forall P (fold_left step l acc) /\ length (fold_left step l acc) <= length acc + length l.
Proof.
  intros HP HL. induction l as [| a l IH]; intros acc Hacc; simpl.
  - split; [assumption | lia].
  - destruct (IH (step acc a) (HP acc a Hacc)) as [H1 H2]. split; [assumption |].
    specialize (HL acc a). lia.
Qed.

(** X3.  Only public and external functions are kept, a kept function is never
    marked [nonpayable], it has at most one return entry, and there are no
    more functions than function definitions in the declaration. *)
Theorem extractFunctions_exposed (contractNode : SyntaxNode) (sourceCode : string) :
  Forall exposed (extractFunctions contractNode sourceCode)
  /\ length (extractFunctions contractNode sourceCode)
     <= length (findNodesByType contractNode ["function_definition"]).
Proof.
  unfold extractFunctions.
  change (length (findNodesByType contractNode ["function_definition"]))
    with (length (@nil SolidityFunction)
          + length (findNodesByType contractNode ["function_definition"])).
  apply (fold_keeps exposed); [| | constructor].
  - intros acc node Hacc.
    destruct (childForFieldName node "name") as [nameNode |]; [| assumption].
    set (v := match findNodeByType node "visibility" with
              | Some visibilityNode =>
                  if String.eqb (text_of sourceCode visibilityNode) "external" then external
                  else if String.eqb (text_of sourceCode visibilityNode) "internal" then internal
                  else if String.eqb (text_of sourceCode visibilityNode) "private" then private
                  else public
              | None => public
              end).
    assert (M : forall o : option SyntaxNode,
               match o with
               | Some mutabilityNode =>
                   if String.eqb (text_of sourceCode mutabilityNode) "pure" then Some pure
                   else if String.eqb (text_of sourceCode mutabilityNode) "view" then Some view
                   else if String.eqb (text_of sourceCode mutabilityNode) "payable"
                        then Some payable
                        else None
               | None => None
               end <> Some nonpayable).
    { intros [m |]; [| discriminate].
      repeat match goal with |- context [if ?b then _ else _] => destruct b end; discriminate. }
    destruct v eqn:Ev; try assumption;
      (apply Forall_app; split; [assumption |]; constructor; [| constructor];
       unfold exposed; simpl; split; [auto | split; [apply M |]];
       destruct (childForFieldName node "return_parameters"); simpl; lia).
  - intros acc node.
    destruct (childForFieldName node "name"); [| lia].
    match goal with |- context [match ?v with public => _ | _ => _ end] => destruct v end;
      rewrite ?List.length_app; simpl; lia.
Qed.

(** *** The files of a repository *)

Lemma findSolidityFiles_filter (dir : RepositoryDirectory) :
  findSolidityFiles dir = List.filter is_solidity (all_files dir).
Proof.
  induction dir as [path name fs subs IH] using RepositoryDirectory_nested_ind.
  simpl. rewrite List.filter_app. f_equal.
  induction IH as [| d rest Hd _ IHrest]; simpl; [reflexivity |].
  now rewrite List.filter_app, Hd, IHrest.
Qed.

(** X4.  [findSolidityFiles] returns the Solidity files of the whole tree, at any
    depth and in document order, and nothing else. *)
Theorem findSolidityFiles_all (dir : RepositoryDirectory) :
  findSolidityFiles dir = List.filter is_solidity (all_files dir)
  /\ (forall f, In f (findSolidityFiles dir)
                <-> In f (all_files dir) /\ file_type f = solidity).
Proof.
  split; [apply findSolidityFiles_filter |].
  intros f. rewrite findSolidityFiles_filter, filter_In. unfold is_solidity.
  destruct (file_type f); intuition discriminate.
Qed.

(** *** The analysis run *)

Section Run.
Variable getFileContent : string -> string -> string -> Result string.
Variable parse : string -> option SyntaxNode.

Lemma analysis_loop (owner repo : string) (fs : list RepositoryFile) :
  forall cs es,
    fold_left
      (fun '(contracts, parseErrors) file =>
         match parseFile getFileContent parse owner repo file with
         | Ok fileContracts => (contracts ++ fileContracts, parseErrors)
         | Throw errorMsg =>
             (contracts,
              parseErrors ++ [ {| err_filePath := file_path file; err_error := errorMsg |} ])
         end) fs (cs, es)
    = (cs ++ flat_map (parsed_of getFileContent parse owner repo) fs,
       es ++ flat_map (failure_of getFileContent parse owner repo) fs).
Proof using Type.
  induction fs as [| f fs IH]; intros cs es; simpl.
  - now rewrite !app_nil_r.
  - unfold parsed_of at 1, failure_of at 1.
    destruct (parseFile getFileContent parse owner repo f); rewrite IH; simpl;
      now rewrite <- ?app_assoc.
Qed.

Lemma count_kinds (cs : list SolidityContract) :
  length (List.filter (fun c => ContractType_eqb (type c) abstract) cs)
  + length (List.filter (fun c => ContractType_eqb (type c) interface) cs)
  + length (List.filter (fun c => ContractType_eqb (type c) library) cs)
  + length (List.filter (fun c => ContractType_eqb (type c) contract) cs)
  = length cs.
Proof using Type.
  induction cs as [| c cs IH]; simpl; [reflexivity |].
  destruct (type c); simpl; lia.
Qed.

(** X5.  A file that cannot be fetched or parsed is recorded with its message
    and does not stop the run: the contracts of the result are those of the
    files that parse, in file order, and there is one parse error per file
    that fails.  The statistics count what the result holds: the kinds
    partition the contracts. *)
Theorem analysis_survives_failures (repoTree : RepositoryTree) :
  let r := analyzeSolidity getFileContent parse repoTree in
  let o := owner (metadata repoTree) in
  let n := repo_name (metadata repoTree) in
  let fs := findSolidityFiles (root repoTree) in
  contracts r = flat_map (parsed_of getFileContent parse o n) fs
  /\ parseErrors r = flat_map (failure_of getFileContent parse o n) fs
  /\ stat_parseErrors (stats r) = length (parseErrors r)
  /\ totalContracts (stats r) = length (contracts r)
  /\ abstractContracts (stats r) + interfaces (stats r) + libraries (stats r)
     + length (entryPointContracts r)
     <= totalContracts (stats r).
Proof using Type.
  intros r o n fs. unfold r, analyzeSolidity. fold o n fs.
  rewrite analysis_loop. simpl.
  set (cs := flat_map (parsed_of getFileContent parse o n) fs).
  repeat split.
  unfold identifyEntryPoints. rewrite length_map.
  pose proof (count_kinds cs) as K.
  assert (L : length (List.filter
                        (fun c => ContractType_eqb (type c) contract
                                  && negb (isOnlyInherited (name c) (buildDependencyGraph cs))) cs)
              <= length (List.filter (fun c => ContractType_eqb (type c) contract) cs)).
  { clear K. generalize (buildDependencyGraph cs). intros g.
    induction cs as [| c l IH]; simpl; [lia |].
    destruct (ContractType_eqb (type c) contract); simpl; [| exact IH].
    destruct (negb (isOnlyInherited (name c) g)); simpl; lia. }
  lia.
Qed.
End Run.

End AnalyzerExtra.

(** ** Further properties of the planner *)

Module PlannerExtra.
Import JsString Analyzer Planner Samples Vocabulary Support PlannerProofs.

(** *** The delimiter regular expressions *)

Lemma append_nil_l (s : string) : "" +:+ s = s.
Proof. reflexivity. Qed.

Lemma append_assoc (a b c : string) : (a +:+ b) +:+ c = a +:+ (b +:+ c).
Proof.
  induction a as [| x a IH]; [reflexivity |].
  rewrite !append_cons. now rewrite IH.
Qed.

Lemma length_append (a b : string) :
  String.length (a +:+ b) = String.length a + String.length b.
Proof.
  induction a as [| x a IH]; [reflexivity |].
  rewrite append_cons. simpl. now rewrite IH.
Qed.

Lemma from_first_skip (o : ascii) (pre rest : string) :
  count_char o pre = 0 -> from_first o (pre +:+ String o rest) = Some (String o rest).
Proof.
  induction pre as [| x pre IH]; intros H.
  - rewrite append_nil_l. simpl. now rewrite Ascii.eqb_refl.
  - rewrite append_cons. simpl in *.
    destruct (Ascii.eqb x o); [discriminate | now apply IH].
Qed.

Lemma lastIndexOf_absent (c : ascii) (s : string) :
  count_char c s = 0 -> lastIndexOf s c = None.
Proof.
  induction s as [| x s IH]; intros H; [reflexivity |]. simpl in *.
  destruct (Ascii.eqb x c); [discriminate |]. now rewrite IH.
Qed.

Lemma lastIndexOf_last (c : ascii) (body post : string) :
  count_char c post = 0 ->
  lastIndexOf (body +:+ String c post) c = Some (String.length body).
Proof.
  intros H. induction body as [| x body IH].
  - rewrite append_nil_l. simpl. now rewrite (lastIndexOf_absent c post H), Ascii.eqb_refl.
  - rewrite append_cons. simpl. now rewrite IH.
Qed.

Lemma substring_whole_prefix (a b : string) :
  String.substring 0 (String.length a) (a +:+ b) = a.
Proof.
  induction a as [| x a IH].
  - rewrite append_nil_l. now destruct b.
  - rewrite append_cons. simpl. now rewrite IH.
Qed.

Lemma delimited_span (o c : ascii) (pre body post : string) :
  count_char o pre = 0 ->
  count_char c post = 0 ->
  match_delimited o c (pre +:+ String o (body +:+ String c post))
  = Some (String o (body +:+ String c "")).
Proof.
  intros Hpre Hpost. unfold match_delimited.
  rewrite (from_first_skip o pre _ Hpre).
  rewrite <- (append_cons o body (String c post)).
  rewrite (lastIndexOf_last c (String o body) post Hpost).
  replace (String o body +:+ String c post)
    with ((String o (body +:+ String c "")) +:+ post).
  - replace (S (String.length (String o body)))
      with (String.length (String o (body +:+ String c ""))).
    + now rewrite substring_whole_prefix.
    + simpl. rewrite length_append. simpl. lia.
  - rewrite !append_cons, append_assoc. reflexivity.
Qed.

(** X6.  The two regular expressions that pull JSON out of a reply, the
    bracketed one of the planner and the braced one of the transformer,
    match from the first opening character to the last closing one.  When
    the opening character does not occur before a span and the closing
    character does not occur after it, the match is the span: the text
    before and after is dropped. *)
Theorem match_delimited_span (pre body post : string) :
  (count_char "[" pre = 0 -> count_char "]" post = 0 ->
   match_json_array (pre +:+ String "[" (body +:+ String "]" post))
   = Some (String "[" (body +:+ String "]" "")))
  /\ (count_char "{" pre = 0 -> count_char "}" post = 0 ->
      Transformer.match_json_object (pre +:+ String "{" (body +:+ String "}" post))
      = Some (String "{" (body +:+ String "}" ""))).
Proof.
  split; intros Hpre Hpost.
  - unfold match_json_array. now apply delimited_span.
  - unfold Transformer.match_json_object. now apply delimited_span.
Qed.

Lemma match_delimited_span_witness :
  match_json_array ("Here you go: [1, 2] Thanks.") = Some "[1, 2]".
Proof.
  destruct (match_delimited_span "Here you go: " "1, 2" " Thanks.") as [H _].
  apply H; reflexivity.
Defined.

Section Planner.
Variable messages_create : string -> Result (list ContentBlock).
Variable JSON_parse : string -> option Parsed.
Variable buildContext : RepositoryMetadata -> SolidityAnalysisResult -> string.
Variable toISOString : Z -> string.
Variable of_time : Z -> string.

(** X7.  A reply whose first block is text never makes the generator throw:
    the result is the array read from the bracketed span of the text, or
    the single fallback recommendation.  An array wrapped in prose is
    accepted as it is. *)
Theorem text_reply_is_handled (context text : string) (rest : list ContentBlock) :
  messages_create (user_message context) = Ok (TextBlock text :: rest) ->
  (exists recs,
      generateRecommendations messages_create JSON_parse context = Ok recs
      /\ (recs = [ fallback_recommendation ]
          \/ exists m, match_json_array text = Some m /\ JSON_parse m = Some (ParsedArray recs)))
  /\ (forall pre body post items,
        text = pre +:+ String "[" (body +:+ String "]" post) ->
        count_char "[" pre = 0 -> count_char "]" post = 0 ->
        JSON_parse (String "[" (body +:+ String "]" "")) = Some (ParsedArray items) ->
        generateRecommendations messages_create JSON_parse context = Ok items).
Proof using Type.
  intros Hm. unfold generateRecommendations. rewrite Hm. split.
  - destruct (match_json_array text) as [m |] eqn:E; [| eexists; split; [reflexivity | now left]].
    destruct (JSON_parse m) as [[items |] |] eqn:P;
      eexists; (split; [reflexivity |]); try (now left).
    right. exists m. now split.
  - intros pre body post items -> Hpre Hpost Hparse.
    unfold match_json_array. rewrite (delimited_span _ _ _ _ _ Hpre Hpost).
    now rewrite Hparse.
Qed.

(** X8.  When the generator throws, the plan stage throws the same message.
    A plan that the plan stage returns carries the recommendations the
    generator returned, unchanged; [totalRecommendations] is their number,
    each confidence counter is the number of recommendations with that
    level, and the counter named [totalFilesAnalyzed] is the number of
    contract units of the analysis. *)
Theorem plan_summary_counts (now : Z) (repoMetadata : RepositoryMetadata)
  (analysisResult : SolidityAnalysisResult) :
  (forall m,
     generateRecommendations messages_create JSON_parse
       (buildContext repoMetadata analysisResult) = Throw m ->
     planMigration messages_create JSON_parse buildContext toISOString of_time
       now repoMetadata analysisResult = Throw m)
  /\ (forall plan,
        planMigration messages_create JSON_parse buildContext toISOString of_time
          now repoMetadata analysisResult = Ok plan ->
        generateRecommendations messages_create JSON_parse
          (buildContext repoMetadata analysisResult) = Ok (recommendations plan)
        /\ totalRecommendations (summary plan) = length (recommendations plan)
        /\ (forall level,
              match level with
              | high => highConfidenceCount (summary plan)
              | medium => mediumConfidenceCount (summary plan)
              | low => lowConfidenceCount (summary plan)
              end
              = length (List.filter
                          (fun r => ConfidenceLevel_eqb (confidenceLevel r) level)
                          (recommendations plan)))
        /\ totalFilesAnalyzed (summary plan) = length (contracts analysisResult)
        /\ repositoryName plan = fullName repoMetadata).
Proof using Type.
  unfold planMigration.
  destruct (generateRecommendations _ _ _) as [recs | m].
  - split; [discriminate |]. intros plan H. injection H as <-. simpl.
    repeat split. intros level. now destruct level.
  - split; [intros m' H; now injection H as -> | discriminate].
Qed.
End Planner.

Lemma text_reply_is_handled_witness :
  generateRecommendations (fun _ => Ok [TextBlock "Nothing to change: [] for now."])
    (fun s => if String.eqb s "[]" then Some (ParsedArray []) else None) "context"
  = Ok [].
Proof.
  destruct (text_reply_is_handled (fun _ => Ok [TextBlock "Nothing to change: [] for now."])
              (fun s => if String.eqb s "[]" then Some (ParsedArray []) else None)
              "context" "Nothing to change: [] for now." [] eq_refl) as [_ H].
  apply (H "Nothing to change: " "" " for now." []); reflexivity.
Defined.

Lemma plan_summary_counts_witness :
  exists plan,
    planMigration (fun _ => Ok [TextBlock "[two]"])
      (fun _ => Some (ParsedArray [ sample_recommendation "contracts/A.sol" high;
                                    sample_recommendation "contracts/B.sol" low ]))
      (fun _ _ => "context") (fun _ => "2025-01-01T00:00:00.000Z") (fun _ => "0")
      0 sample_metadata (sample_analysis []) = Ok plan
    /\ highConfidenceCount (summary plan) = 1
    /\ mediumConfidenceCount (summary plan) = 0
    /\ totalRecommendations (summary plan) = 2.
Proof.
  eexists. split; [reflexivity |].
  destruct (plan_summary_counts (fun _ => Ok [TextBlock "[two]"])
              (fun _ => Some (ParsedArray [ sample_recommendation "contracts/A.sol" high;
                                            sample_recommendation "contracts/B.sol" low ]))
              (fun _ _ => "context") (fun _ => "2025-01-01T00:00:00.000Z") (fun _ => "0")
              0 sample_metadata (sample_analysis [])) as [_ H].
  destruct (H _ eq_refl) as (_ & Ht & Hl & _).
  split; [exact (Hl high) | split; [exact (Hl medium) | exact Ht]].
Defined.

End PlannerExtra.

(** ** Further properties of the transformer *)

Module TransformerExtra.
Import JsString Analyzer Planner Transformer Samples Vocabulary Support.
Import PlannerProofs PlannerExtra TransformerProofs.

(** *** Grouping the recommendations *)

Lemma group_of_push (k k' : string) (r : MigrationRecommendation)
  (m : list (string * list MigrationRecommendation)) :
  group_of k' (push_grouped k r m)
  = if String.eqb k k' then group_of k m ++ [r] else group_of k' m.
Proof.
  unfold group_of. induction m as [| [k0 l0] m IH]; simpl.
  - destruct (String.eqb k k'); reflexivity.
  - destruct (String.eqb k0 k) eqn:E0; simpl.
    + apply String.eqb_eq in E0. subst k0.
      destruct (String.eqb k k'); [reflexivity |]. reflexivity.
    + destruct (String.eqb k0 k') eqn:E1; simpl.
      * apply String.eqb_eq in E1. subst k0.
        rewrite String.eqb_sym, E0. reflexivity.
      * exact IH.
Qed.

Lemma keys_push (k : string) (r : MigrationRecommendation)
  (m : list (string * list MigrationRecommendation)) :
  (List.NoDup (map fst m) -> List.NoDup (map fst (push_grouped k r m)))
  /\ (forall y, In y (map fst (push_grouped k r m)) <-> In y (map fst m) \/ y = k).
Proof.
  induction m as [| [k0 l0] m [IH1 IH2]]; simpl.
  - split; [repeat constructor; simpl; tauto | intuition].
  - destruct (String.eqb k0 k) eqn:E; simpl.
    + apply String.eqb_eq in E. subst k0. split; [auto | intuition].
    + split.
      * intros H. apply List.NoDup_cons_iff in H as [H1 H2].
        apply List.NoDup_cons_iff. split; [| auto].
        rewrite IH2. intros [H | ->]; [auto |]. now rewrite String.eqb_refl in E.
      * intros y. rewrite IH2. intuition.
Qed.

Lemma grouping_fold (recs : list MigrationRecommendation) :
  forall m,
    let g := fold_left (fun grouped rec => push_grouped (rec_filePath rec) rec grouped) recs m in
    (List.NoDup (map fst m) -> List.NoDup (map fst g))
    /\ (forall y, In y (map fst g)
                  <-> In y (map fst m) \/ exists r, In r recs /\ rec_filePath r = y)
    /\ (forall k, group_of k g = group_of k m ++ for_file k recs).
Proof.
  induction recs as [| r recs IH]; intros m; simpl.
  - repeat split; auto.
    + intros [H | [r [[] _]]]. assumption.
    + intros k. now rewrite app_nil_r.
  - destruct (IH (push_grouped (rec_filePath r) r m)) as [H1 [H2 H3]].
    destruct (keys_push (rec_filePath r) r m) as [K1 K2].
    split; [| split].
    + intros H. now apply H1, K1.
    + intros y. rewrite H2, K2. split.
      * intros [[H | ->] | [r' [Hr Hy]]]; [now left | right; exists r; auto |].
        right. exists r'. auto.
      * intros [H | [r' [[<- | Hr] Hy]]]; [left; now left | left; right; now symmetry |].
        right. now exists r'.
    + intros k. rewrite H3, group_of_push. unfold for_file. simpl.
      destruct (String.eqb (rec_filePath r) k) eqn:E; [| reflexivity].
      apply String.eqb_eq in E. rewrite E. now rewrite <- app_assoc.
Qed.

Lemma group_of_In (k : string) (l : list MigrationRecommendation)
  (m : list (string * list MigrationRecommendation)) :
  List.NoDup (map fst m) -> In (k, l) m -> group_of k m = l.
Proof.
  unfold group_of. induction m as [| [k0 l0] m IH]; simpl; intros Hn Hin; [contradiction |].
  apply List.NoDup_cons_iff in Hn as [Hk Hn].
  destruct Hin as [E | Hin].
  - injection E as -> ->. now rewrite String.eqb_refl.
  - destruct (String.eqb k0 k) eqn:E; [| now apply IH].
    apply String.eqb_eq in E. subst k0. exfalso. apply Hk.
    apply in_map_iff. now exists (k, l).
Qed.

(** X9.  No file has two groups.  The group of a file holds exactly the
    recommendations of the plan for that file, in plan order, and is not
    empty; every recommendation is in the group of its file. *)
Theorem groups_partition_plan (plan : MigrationPlan) :
  let g := groupRecommendationsByFile plan in
  List.NoDup (map fst g)
  /\ (forall k l, In (k, l) g -> l = for_file k (recommendations plan) /\ l <> [])
  /\ (forall r, In r (recommendations plan) ->
                In (rec_filePath r, for_file (rec_filePath r) (recommendations plan)) g).
Proof.
  intros g. destruct (grouping_fold (recommendations plan) []) as [H1 [H2 H3]].
  fold (groupRecommendationsByFile plan) in H1, H2, H3. fold g in H1, H2, H3.
  assert (Hn : List.NoDup (map fst g)) by (apply H1; constructor).
  assert (G : forall k l, In (k, l) g -> l = for_file k (recommendations plan)).
  { intros k l Hin. rewrite <- (group_of_In k l g Hn Hin). apply H3. }
  split; [exact Hn | split].
  - intros k l Hin. split; [now apply G |].
    assert (Hk : In k (map fst g)) by (apply in_map_iff; now exists (k, l)).
    apply H2 in Hk as [[] | [r [Hr Hy]]].
    rewrite (G k l Hin). intros E.
    assert (Hf : In r (for_file k (recommendations plan))).
    { apply filter_In. split; [assumption |]. now apply String.eqb_eq. }
    rewrite E in Hf. contradiction.
  - intros r Hr.
    assert (Hk : In (rec_filePath r) (map fst g)) by (apply H2; right; now exists r).
    apply in_map_iff in Hk as [[k l] [Ek Hin]]. simpl in Ek. subst k.
    now rewrite <- (G _ _ Hin).
Qed.

(** *** One file *)

Section Agent.
Variable messages_create : string -> Result (list ContentBlock).
Variable JSON_parse : string -> Result PerFileTransformation.
Variable github_getFileContent : string -> string -> string -> Result string.
Variable toISOString : Z -> string.
Variable of_time : Z -> string.
Variable migrationPlan : MigrationPlan.
Variable analysisResult : SolidityAnalysisResult.
Variable repositoryTree : RepositoryTree.

Let transformFile :=
  Transformer.transformFile messages_create JSON_parse github_getFileContent
    analysisResult repositoryTree.
Let process_file :=
  Transformer.process_file messages_create JSON_parse github_getFileContent
    analysisResult repositoryTree.

(** X10.  A transformed file is either applied or skipped, never both: when
    changes are applied nothing is listed as skipped, and when anything is
    skipped it is every recommendation of the file, with no change applied.
    A file without applied changes keeps its content and has the score 0.
    The content that was fetched is never empty. *)
Theorem applied_or_skipped (filePath : string)
  (recommendations : list MigrationRecommendation) (t : TransformedFile) :
  transformFile filePath recommendations = Ok t ->
  tf_filePath t = filePath
  /\ originalContent t <> ""
  /\ (appliedChanges t <> [] -> skippedChanges t = [])
  /\ (skippedChanges t <> [] ->
      appliedChanges t = []
      /\ map skipped_description (skippedChanges t) = map recommendedChange recommendations)
  /\ (appliedChanges t = [] ->
      hasChanges t = false /\ transformedContent t = originalContent t
      /\ tf_confidenceScore t = 0%float).
Proof using Type.
  unfold transformFile, Transformer.transformFile.
  destruct (getFileContent _ _ _) as [[| ch content] |]; try discriminate.
  destruct (performFileTransformation _ _ _) as [tr | m]; try discriminate.
  intros H. injection H as <-. simpl.
  split; [reflexivity | split; [discriminate |]].
  destruct (action tr); simpl.
  - split; [reflexivity | split; [intros H; now contradiction H |]].
    intros H. rewrite H. repeat split.
  - split; [| split].
    + intros H. now contradiction H.
    + intros _. split; [reflexivity |].
      rewrite map_map. simpl.
      generalize 0. induction recommendations as [| r rs IH]; intros n; simpl;
        [reflexivity | now rewrite IH].
    + intros _. repeat split.
Qed.

(** X11.  When the file cannot be fetched, or is empty, the transformation of the
    file throws and names the file.  When the model only replies with text
    that holds no JSON object, a file that was fetched is skipped: it keeps
    its content, every recommendation is listed as skipped, and the parsing
    failure is the only warning. *)
Theorem unusable_reply_skips_file (filePath : string)
  (recommendations : list MigrationRecommendation) :
  (getFileContent github_getFileContent repositoryTree filePath = None
   \/ getFileContent github_getFileContent repositoryTree filePath = Some "" ->
   transformFile filePath recommendations
   = Throw ("Could not fetch file content: " +:+ filePath))
  /\ (forall content,
        getFileContent github_getFileContent repositoryTree filePath = Some content ->
        content <> "" ->
        (forall prompt, exists text rest,
            messages_create prompt = Ok (TextBlock text :: rest)
            /\ match_json_object text = None) ->
        exists t,
          transformFile filePath recommendations = Ok t
          /\ transformedContent t = content
          /\ originalContent t = content
          /\ appliedChanges t = []
          /\ map skipped_description (skippedChanges t) = map recommendedChange recommendations
          /\ Forall (fun s => skipped_reason s = "Failed to parse transformation response")
               (skippedChanges t)
          /\ tf_warnings t = [ "Claude response parsing failed" ]
          /\ hasChanges t = false).
Proof using Type.
  split.
  - unfold transformFile, Transformer.transformFile. intros [-> | ->]; reflexivity.
  - intros content Hc Hne Hm.
    unfold transformFile, Transformer.transformFile. rewrite Hc.
    destruct content as [| ch content]; [congruence |].
    unfold performFileTransformation.
    match goal with |- context [messages_create ?p] =>
      destruct (Hm p) as [text [rest [E Hj]]]; rewrite E, Hj end.
    simpl. eexists. split; [reflexivity |]. simpl. repeat split.
    + rewrite map_map. simpl. generalize 0. clear.
      induction recommendations as [| r rs IH]; intros n; simpl;
        [reflexivity | rewrite IH; reflexivity].
    + apply List.Forall_forall. intros s Hs. apply in_map_iff in Hs as [[i r] [<- _]].
      reflexivity.
Qed.

(** *** The loop over the files *)

Lemma process_file_counted (st : LoopState) (entry : string * list MigrationRecommendation) :
  ~ In (fst entry) (map fst (ls_transformedFiles st)) ->
  counted st ->
  counted (process_file st entry)
  /\ ls_filesProcessed (process_file st entry) = S (ls_filesProcessed st)
  /\ (forall y, In y (map fst (ls_transformedFiles (process_file st entry)))
                -> In y (map fst (ls_transformedFiles st)) \/ y = fst entry).
Proof using Type.
  intros Hfresh [H1 [H2 [H3 [H4 H5]]]]. destruct entry as [filePath recommendations].
  unfold process_file, Transformer.process_file.
  destruct (Transformer.transformFile _ _ _ _ _ filePath recommendations) as [t | m].
  - assert (M : forall (m : list (string * TransformedFile)),
               ~ In filePath (map fst m) -> map fst (map_set filePath t m) = map fst m ++ [filePath]).
    { induction m as [| [k v] m IH]; simpl; intros Hn; [reflexivity |].
      destruct (String.eqb k filePath) eqn:E.
      - apply String.eqb_eq in E. subst k. exfalso. apply Hn. now left.
      - simpl. rewrite IH; [reflexivity | tauto]. }
    unfold counted. simpl. rewrite (M _ Hfresh).
    rewrite !map_app, !list_sum_app, !List.length_app. simpl.
    repeat split; try lia.
    + destruct (hasChanges t); lia.
    + now rewrite H5.
    + intros y Hy. apply in_app_iff in Hy as [Hy | [<- | []]]; auto.
  - unfold counted. simpl. rewrite List.length_app. simpl.
    repeat split; try lia; auto.
Qed.

Lemma loop_counted (entries : list (string * list MigrationRecommendation)) :
  forall st,
    List.NoDup (map fst entries) ->
    (forall k, In k (map fst entries) -> ~ In k (map fst (ls_transformedFiles st))) ->
    counted st ->
    counted (fold_left process_file entries st)
    /\ ls_filesProcessed (fold_left process_file entries st)
       = ls_filesProcessed st + length entries.
Proof using Type.
  induction entries as [| e es IH]; intros st Hn Hf Hc; simpl.
  - split; [assumption | lia].
  - simpl in Hn. apply List.NoDup_cons_iff in Hn as [He Hn].
    destruct (process_file_counted st e) as [C1 [C2 C3]]; [apply Hf; now left | assumption |].
    destruct (IH (process_file st e) Hn) as [I1 I2]; [| assumption |].
    + intros k Hk Hin. apply C3 in Hin as [Hin | ->]; [| contradiction].
      apply (Hf k); [now right | assumption].
    + split; [assumption | lia].
Qed.

(** X12.  The counters of a transformation report agree with its content.  Every
    file of the plan is processed once; a processed file is modified or
    skipped; it has a file report, or an error when its transformation
    threw; the totals of applied and skipped changes are the sums over the
    file reports. *)
Theorem report_counters (now : Z) :
  let r := Transformer.transformRepository messages_create JSON_parse
             github_getFileContent toISOString of_time
             migrationPlan analysisResult repositoryTree now in
  filesProcessed r = length (groupRecommendationsByFile migrationPlan)
  /\ filesProcessed r = filesModified r + filesSkipped r
  /\ filesProcessed r = length (fileReports r) + length (errors r)
  /\ totalAppliedChanges r = list_sum (map appliedChangesCount (fileReports r))
  /\ totalSkippedChanges r = list_sum (map skippedChangesCount (fileReports r))
  /\ checked (crossFileConsistency r) = true.
Proof using Type.
  intros r.
  destruct (grouping_fold (recommendations migrationPlan) []) as [Hn _].
  fold (groupRecommendationsByFile migrationPlan) in Hn.
  specialize (Hn (List.NoDup_nil _)).
  destruct (loop_counted (groupRecommendationsByFile migrationPlan) initial_state Hn)
    as [[H1 [H2 [H3 [H4 H5]]]] H6].
  { intros k _ []. }
  { repeat split. }
  unfold r, Transformer.transformRepository. simpl. fold process_file.
  repeat split; try assumption.
  unfold validateCrossFileConsistency.
  destruct (fold_left (check_imports analysisResult) _ _) as [i v].
  destruct (fold_left (check_inheritance analysisResult) _ _) as [i' v'].
  reflexivity.
Qed.
End Agent.

(** *** The consistency check *)

Lemma find_existsb {A : Type} (f : A -> bool) (l : list A) :
  match List.find f l with Some _ => true | None => false end = existsb f l.
Proof. induction l as [| x l IH]; simpl; [reflexivity |]. now destruct (f x). Qed.

Lemma none_app {A : Type} (l1 l2 : list A) : none (l1 ++ l2) = none l1 && none l2.
Proof. now destruct l1. Qed.

(** A step that only ever appends issues and lowers the flag when it
    appends keeps doing so over a loop. *)
Lemma fold_issues {A : Type} (step : list string * bool -> A -> list string * bool)
  (l : list A) :
  (forall st x, exists extra,
      step st x = (fst st ++ extra, snd st && none extra)) ->
  forall st, exists extra,
    fold_left step l st = (fst st ++ extra, snd st && none extra).
Proof.
  intros Hstep. induction l as [| x l IH]; intros st; simpl.
  - exists []. now rewrite app_nil_r, andb_true_r, <- surjective_pairing.
  - destruct (Hstep st x) as [e1 E1]. destruct (IH (step st x)) as [e2 E2].
    exists (e1 ++ e2). rewrite E2, E1. simpl.
    now rewrite none_app, app_assoc, andb_assoc.
Qed.

Lemma check_imports_issues (a : SolidityAnalysisResult) (st : list string * bool)
  (entry : string * TransformedFile) :
  exists extra, check_imports a st entry = (fst st ++ extra, snd st && none extra).
Proof.
  destruct entry as [filePath transformed]. unfold check_imports.
  apply fold_issues. clear st. intros [issues valid] stmt. simpl.
  destruct (match_quoted stmt) as [importPath |].
  - destruct (negb (importPath =? "")%string && negb (startsWith importPath "http")).
    + destruct (negb (fileExists a (resolveImport filePath importPath))
                && negb (includes importPath "@")).
      * eexists [_]. simpl. now rewrite andb_false_r.
      * exists []. now rewrite app_nil_r, andb_true_r.
    + exists []. now rewrite app_nil_r, andb_true_r.
  - exists []. now rewrite app_nil_r, andb_true_r.
Qed.

Lemma check_inheritance_issues (a : SolidityAnalysisResult) (c : SolidityContract) :
  forall st,
    check_inheritance a st c
    = (fst st ++ map (fun parentName =>
                        "Contract " +:+ name c +:+ ": Parent contract not found: "
                          +:+ parentName)
                   (missing_parents a c),
       snd st && none (missing_parents a c)).
Proof.
  unfold check_inheritance, missing_parents.
  induction (inherits c) as [| parentName l IH]; intros [issues valid]; simpl.
  - now rewrite app_nil_r, andb_true_r.
  - rewrite <- (find_existsb (fun p => (name p =? parentName)%string)).
    destruct (List.find _ (contracts a)); simpl.
    + apply IH.
    + destruct (includes parentName "@"); simpl.
      * apply IH.
      * rewrite IH. simpl. now rewrite <- app_assoc, andb_false_r.
Qed.

Lemma inheritance_loop (a : SolidityAnalysisResult) (cs : list SolidityContract) :
  forall st,
    fold_left (check_inheritance a) cs st
    = (fst st ++ flat_map (fun c => map (fun parentName =>
                                           "Contract " +:+ name c
                                             +:+ ": Parent contract not found: "
                                             +:+ parentName)
                                      (missing_parents a c)) cs,
       snd st && forallb (fun c => none (missing_parents a c)) cs).
Proof.
  induction cs as [| c cs IH]; intros st; simpl.
  - now rewrite app_nil_r, andb_true_r, <- surjective_pairing.
  - rewrite IH, check_inheritance_issues. simpl.
    now rewrite <- app_assoc, andb_assoc.
Qed.

Lemma inheritanceValid_spec (a : SolidityAnalysisResult)
  (transformedFiles : list (string * TransformedFile)) :
  inheritanceValid (validateCrossFileConsistency a transformedFiles)
  = inheritanceValid (validateCrossFileConsistency a [])
  /\ (inheritanceValid (validateCrossFileConsistency a transformedFiles) = true
      <-> forall c parentName,
            In c (contracts a) -> In parentName (inherits c) ->
            (exists p, In p (contracts a) /\ name p = parentName)
            \/ includes parentName "@" = true).
Proof.
  assert (E : forall tf, inheritanceValid (validateCrossFileConsistency a tf)
                         = forallb (fun c => none (missing_parents a c)) (contracts a)).
  { intros tf. unfold validateCrossFileConsistency.
    destruct (fold_left (check_imports a) tf ([], true)) as [i v].
    rewrite inheritance_loop. reflexivity. }
  split; [now rewrite !E |]. rewrite E, forallb_forall. split.
  - intros H c parentName Hc Hp. specialize (H c Hc).
    destruct (existsb (fun p => (name p =? parentName)%string) (contracts a)) eqn:X.
    + left. apply existsb_exists in X as [p [Hin Hn]]. exists p.
      split; [assumption | now apply String.eqb_eq].
    + right. destruct (includes parentName "@") eqn:I; [reflexivity |]. exfalso.
      assert (M : In parentName (missing_parents a c)).
      { apply filter_In. split; [assumption |]. now rewrite X, I. }
      destruct (missing_parents a c); [contradiction | discriminate].
  - intros H c Hc. destruct (missing_parents a c) as [| m ms] eqn:M; [reflexivity |].
    exfalso. assert (Hm : In m (missing_parents a c)) by (rewrite M; now left).
    apply filter_In in Hm as [Hin Hb]. apply andb_prop in Hb as [X I].
    apply negb_true_iff in X, I.
    destruct (H c m Hc Hin) as [[p [Hp Hn]] | Hat]; [| congruence].
    assert (X' : existsb (fun p => (name p =? m)%string) (contracts a) = true).
    { apply existsb_exists. exists p. split; [assumption | now apply String.eqb_eq]. }
    congruence.
Qed.

(** X13.  The check is always marked as done, and the list of issues is
    empty exactly when both flags of the consistency report are true.  The
    inheritance check reads the analysis only: its flag does not depend on
    the transformed files, and it is true exactly when every parent named
    by an analysed contract is the name of an analysed contract or holds
    an at sign. *)
Theorem consistency_flags (a : SolidityAnalysisResult)
  (transformedFiles : list (string * TransformedFile)) :
  let c := validateCrossFileConsistency a transformedFiles in
  checked c = true
  /\ (issues c = [] <-> importsValid c = true /\ inheritanceValid c = true)
  /\ inheritanceValid c = inheritanceValid (validateCrossFileConsistency a [])
  /\ (inheritanceValid c = true
      <-> forall ct parentName,
            In ct (contracts a) -> In parentName (inherits ct) ->
            (exists p, In p (contracts a) /\ name p = parentName)
            \/ includes parentName "@" = true).
Proof.
  intros c.
  destruct (inheritanceValid_spec a transformedFiles) as [S1 S2]. fold c in S1, S2.
  split; [| split; [| split; assumption]].
  { unfold c, validateCrossFileConsistency.
    destruct (fold_left (check_imports a) transformedFiles ([], true)) as [i v].
    destruct (fold_left (check_inheritance a) (contracts a) (i, true)) as [i' v'].
    reflexivity. }
  clear S1 S2. unfold c. clear c.
  unfold validateCrossFileConsistency.
  destruct (fold_issues (check_imports a) transformedFiles
              (check_imports_issues a) ([], true)) as [e1 ->]. simpl.
  rewrite inheritance_loop. simpl.
  destruct e1 as [| i e1]; simpl.
  - destruct (flat_map _ (contracts a)) as [| i l] eqn:E.
    + split; [| reflexivity]. intros _. split; [reflexivity |].
      apply forallb_forall. intros ct Hct.
      destruct (missing_parents a ct) as [| m ms] eqn:M; [reflexivity |].
      exfalso. assert (H : In ("Contract " +:+ name ct
                                 +:+ ": Parent contract not found: " +:+ m)
                              (flat_map (fun c => map (fun parentName =>
                                           "Contract " +:+ name c
                                             +:+ ": Parent contract not found: "
                                             +:+ parentName)
                                      (missing_parents a c)) (contracts a))).
      { apply in_flat_map. exists ct. split; [assumption |]. rewrite M. now left. }
      rewrite E in H. contradiction.
    + split; [discriminate |]. intros [_ H]. exfalso.
      assert (Hi : In i (i :: l)) by now left. rewrite <- E in Hi.
      apply in_flat_map in Hi as [ct [Hct Hi]].
      rewrite forallb_forall in H. specialize (H ct Hct).
      destruct (missing_parents a ct); [contradiction | discriminate].
  - split; [discriminate | intros [H _]; discriminate].
Qed.

(** *** The confidence score of a file *)









(** *** The recommendations of a report *)

Lemma run_recommendations_any {N : Type} `{Number N} (filesModified : nat) (overall : N)
  (consistency : ConsistencyReport) (errors : list TransformError) :
  let l := generateRecommendations filesModified overall consistency errors in
  l <> []
  /\ (In success_message l
      <-> filesModified <> 0 /\ (overall <? literal (7 # 10))%num = false
          /\ issues consistency = [] /\ errors = []).
Proof.
  unfold generateRecommendations.
  destruct (overall <? literal (7 # 10))%num.
  - destruct filesModified as [| n], (issues consistency) as [| i more],
      errors as [| e es]; simpl; (split; [discriminate |]);
      (split; [intros X | intros (H1 & H2 & H3 & H4); discriminate]);
      repeat (destruct X as [X | X]; try discriminate X); try contradiction.
  - destruct filesModified as [| n], (issues consistency) as [| i more],
      errors as [| e es]; simpl; (split; [discriminate |]);
      (split; [intros X | intros (H1 & H2 & H3 & H4)]);
      try discriminate; try (now contradiction H1);
      try (repeat split; (assumption || discriminate)); try (now left);
      repeat (destruct X as [X | X]; try discriminate X); try contradiction.
Qed.

(** X16.  A report always carries at least one recommendation.  The message that
    the run is ready for testing is given exactly when a file was modified,
    the overall confidence is at least 0.7, the consistency check raised no
    issue and no file failed.  Over the doubles of the program, the
    confidence is at least 0.7 when the test [overall < 0.7] of the source
    fails. *)
Theorem run_recommendations (filesModified : nat) (overall : Q)
  (consistency : ConsistencyReport) (errors : list TransformError) :
  let l := generateRecommendations filesModified overall consistency errors in
  (l <> []
   /\ (In success_message l
       <-> filesModified <> 0 /\ (7 # 10 <= overall)%Q
           /\ issues consistency = [] /\ errors = []))
  /\ (forall score : float,
        let l := generateRecommendations filesModified score consistency errors in
        l <> []
        /\ (In success_message l
            <-> filesModified <> 0 /\ (score <? literal (7 # 10))%num = false
                /\ issues consistency = [] /\ errors = [])).
Proof.
  cbv zeta. split; [| intros score; apply run_recommendations_any].
  destruct (run_recommendations_any filesModified overall consistency errors) as [H1 H2].
  split; [exact H1 |]. rewrite H2.
  assert (E : (overall <? literal (7 # 10))%num = false <-> (7 # 10 <= overall)%Q).
  { change (overall <? literal (7 # 10))%num with (negb (Qle_bool (7 # 10) overall)).
    rewrite negb_false_iff. apply Qle_bool_iff. }
  now rewrite E.
Qed.

(** *** The diff preview *)

Lemma length_substring (n m : nat) (s : string) :
  String.length (String.substring n m s) <= m.
Proof.
  revert n m. induction s as [| c s IH]; intros n m.
  - destruct n, m; simpl; lia.
  - destruct n as [| n]; simpl.
    + destruct m as [| m]; simpl; [lia |]. specialize (IH 0 m). lia.
    + apply IH.
Qed.

Lemma option_string_eqb_refl (a : option string) : option_string_eqb a a = true.
Proof. destruct a; simpl; [apply String.eqb_refl | reflexivity]. Qed.

(** The preview of a file that did not change is empty, and no preview is
    longer than 500 characters. *)
Lemma diff_preview_bounded (original transformed : string) :
  generateDiffPreview original original = ""
  /\ String.length (generateDiffPreview original transformed) <= 500.
Proof.
  unfold generateDiffPreview. rewrite String.eqb_refl. split; [reflexivity |].
  destruct (String.eqb original transformed); [simpl; lia | apply length_substring].
Qed.

(** X17.  Only the first ten lines are compared: when two files agree on their
    first ten lines the preview is empty, whatever comes after. *)
Theorem diff_preview_misses_late_changes (original transformed : string) :
  firstn 10 (split_lines original) = firstn 10 (split_lines transformed) ->
  generateDiffPreview original transformed = "".
Proof.
  intros H. unfold generateDiffPreview.
  destruct (String.eqb original transformed); [reflexivity |].
  assert (F : forall l, Forall (fun i => i < 10) l ->
              fold_left
                (fun diffs i =>
                   if negb (option_string_eqb (nth_error (split_lines original) i)
                              (nth_error (split_lines transformed) i))
                   then diffs ++ [ "-  " +:+ show_line (nth_error (split_lines original) i);
                                   "+  " +:+ show_line (nth_error (split_lines transformed) i) ]
                   else diffs) l [] = []).
  { induction 1 as [| i l Hi _ IH]; simpl; [reflexivity |].
    assert (E : nth_error (split_lines original) i = nth_error (split_lines transformed) i).
    { pose proof (nth_error_firstn 10 (split_lines original) i) as A.
      pose proof (nth_error_firstn 10 (split_lines transformed) i) as B.
      apply Nat.ltb_lt in Hi. rewrite Hi in A, B. now rewrite <- A, <- B, H. }
    rewrite E, option_string_eqb_refl. exact IH. }
  rewrite F; [reflexivity |].
  apply List.Forall_forall. intros i Hi. apply in_seq in Hi. lia.
Qed.

(** *** Relative imports *)

Lemma upToLast_dir (dir base : string) :
  count_char "/" base = 0 -> upToLast (dir +:+ String "/" base) "/" = dir.
Proof.
  intros H. unfold upToLast. rewrite (lastIndexOf_last "/" dir base H).
  apply substring_whole_prefix.
Qed.

Lemma upToLast_root (base : string) : count_char "/" base = 0 -> upToLast base "/" = "".
Proof. intros H. unfold upToLast. now rewrite (lastIndexOf_absent "/" base H). Qed.

Lemma substring_drop (a b : string) :
  String.substring (String.length a) (String.length (a +:+ b) - String.length a) (a +:+ b) = b.
Proof.
  rewrite length_append. replace (String.length a + String.length b - String.length a)
    with (String.length b) by lia.
  induction a as [| x a IH].
  - rewrite append_nil_l. simpl. induction b as [| y b IHb]; [reflexivity |].
    simpl. now rewrite IHb.
  - rewrite append_cons. simpl. exact IH.
Qed.

(** X18.  A path that starts with a dot and a slash is resolved against the
    directory of the importing file, and one that starts with two dots and
    a slash against the parent of that directory.  For a file at the root
    of the repository the resolved path starts with a slash.  Any other
    path is left as it is. *)
Theorem resolveImport_cases (dir sub base p : string) :
  count_char "/" base = 0 ->
  resolveImport (dir +:+ "/" +:+ base) ("./" +:+ p) = dir +:+ "/" +:+ p
  /\ resolveImport base ("./" +:+ p) = "/" +:+ p
  /\ (count_char "/" sub = 0 ->
      resolveImport (dir +:+ "/" +:+ sub +:+ "/" +:+ base) ("../" +:+ p)
      = dir +:+ "/" +:+ p)
  /\ (startsWith p "./" = false -> startsWith p "../" = false ->
      resolveImport (dir +:+ "/" +:+ base) p = p).
Proof.
  intros Hb. unfold resolveImport.
  change (startsWith ("./" +:+ p) "./") with (String.prefix "" p).
  change (startsWith ("../" +:+ p) "./") with false.
  change (startsWith ("../" +:+ p) "../") with (String.prefix "" p).
  assert (P : String.prefix "" p = true) by now destruct p.
  rewrite P.
  pose proof (substring_drop "./" p) as D2. change (String.length "./") with 2 in D2.
  pose proof (substring_drop "../" p) as D3. change (String.length "../") with 3 in D3.
  repeat split.
  - change (dir +:+ "/" +:+ base) with (dir +:+ String "/" base).
    rewrite (upToLast_dir dir base Hb). now rewrite D2.
  - rewrite (upToLast_root base Hb). now rewrite D2.
  - intros Hs.
    replace (dir +:+ "/" +:+ sub +:+ "/" +:+ base)
      with ((dir +:+ String "/" sub) +:+ String "/" base)
      by (rewrite append_assoc; reflexivity).
    rewrite (upToLast_dir _ base Hb), (upToLast_dir dir sub Hs). now rewrite D3.
  - intros H1 H2. now rewrite H1, H2.
Qed.

(** *** Imports the consistency check sees *)

Lemma span_stop (f : ascii -> bool) (a : string) (c : ascii) (b : string) :
  all_chars f a = true -> f c = false ->
  span f (a +:+ String c b) = (a, String c b).
Proof.
  intros Ha Hc. induction a as [| x a IH].
  - rewrite append_nil_l. simpl. now rewrite Hc.
  - rewrite append_cons. simpl in *. apply andb_prop in Ha as [Hx Ha].
    now rewrite Hx, (IH Ha).
Qed.

Lemma all_chars_weaken (f g : ascii -> bool) (s : string) :
  (forall c, f c = true -> g c = true) -> all_chars f s = true -> all_chars g s = true.
Proof.
  intros H. induction s as [| c s IH]; simpl; [reflexivity |].
  intros Hs. apply andb_prop in Hs as [Hc Hs]. now rewrite (H c Hc), (IH Hs).
Qed.

Lemma import_here_double_quoted (b : ascii) (bs rest : string) :
  all_chars plain (String b bs) = true ->
  import_here ("import " +:+ quoted (String b bs) +:+ rest)
  = Some ("import " +:+ quoted (String b bs)).
Proof.
  intros Hp. unfold import_here, quoted.
  assert (E : "import " +:+ String dquote (String b bs +:+ String dquote "") +:+ rest
              = "import" +:+ String " " (String dquote (String b bs +:+ String dquote rest))).
  { rewrite !append_cons, !append_nil_l. do 9 f_equal.
    rewrite append_assoc. reflexivity. }
  rewrite E. clear E.
  pose proof (substring_drop "import"
                (String " " (String dquote (String b bs +:+ String dquote rest)))) as D.
  change (String.length "import") with 6 in D.
  replace (String.prefix "import"
             ("import" +:+ String " " (String dquote (String b bs +:+ String dquote rest))))
    with true by reflexivity.
  cbv zeta. rewrite D.
  change (span is_space (String " " (String dquote (String b bs +:+ String dquote rest))))
    with (" ", String dquote (String b bs +:+ String dquote rest)).
  cbv iota beta.
  change (is_open dquote) with true. cbv iota.
  rewrite (span_stop (fun x => negb (is_close x)) (String b bs) dquote rest).
  - reflexivity.
  - revert Hp. apply all_chars_weaken. intros c. unfold plain.
    intros H. apply andb_prop in H as [_ H]. exact H.
  - reflexivity.
Qed.

Lemma match_quoted_skip (c : ascii) (r : string) :
  is_quote c = false -> match_quoted (String c r) = match_quoted r.
Proof. intros H. simpl. now rewrite H. Qed.

Lemma match_quoted_double_quoted (p : string) :
  p <> "" -> all_chars plain p = true ->
  match_quoted ("import " +:+ quoted p) = Some p.
Proof.
  intros Hne Hp. destruct p as [| b bs]; [congruence |].
  unfold quoted. rewrite !append_cons, !append_nil_l.
  do 7 (rewrite match_quoted_skip; [| reflexivity]).
  change (match_quoted (String dquote (String b (bs +:+ String dquote ""))))
    with (match quoted_here (String dquote (String b bs +:+ String dquote "")) with
          | Some q => Some q
          | None => match_quoted (String b (bs +:+ String dquote ""))
          end).
  unfold quoted_here. change (is_quote dquote) with true. cbv iota.
  rewrite (span_stop (fun x => negb (is_quote x)) (String b bs) dquote "").
  - reflexivity.
  - revert Hp. apply all_chars_weaken. intros c. unfold plain.
    intros H. apply andb_prop in H as [H _]. apply andb_prop in H as [H _]. exact H.
  - reflexivity.
Qed.

(** X19.  An import at the head of a transformed file, written with double
    quotes, is checked: when its path is relative to nothing the analysis
    knows, the import check fails and the report names the file and the
    path. *)
Theorem unresolved_import_is_reported (a : SolidityAnalysisResult) (filePath : string)
  (t : TransformedFile) (others : list (string * TransformedFile)) (p rest : string) :
  p <> "" ->
  all_chars plain p = true ->
  startsWith p "http" = false ->
  includes p "@" = false ->
  fileExists a (resolveImport filePath p) = false ->
  transformedContent t = "import " +:+ quoted p +:+ rest ->
  let c := validateCrossFileConsistency a ((filePath, t) :: others) in
  importsValid c = false
  /\ In ("File " +:+ filePath +:+ ": Import not found: " +:+ p) (issues c).
Proof.
  intros Hne Hp Hh Hat Hf Hc.
  assert (F : exists extra,
             check_imports a ([], true) (filePath, t)
             = (("File " +:+ filePath +:+ ": Import not found: " +:+ p) :: extra, false)).
  { unfold check_imports. rewrite Hc. unfold match_imports.
    destruct p as [| b bs]; [congruence |].
    assert (M : exists r, match_imports_from 0 ("import " +:+ quoted (String b bs) +:+ rest)
                         = ("import " +:+ quoted (String b bs)) :: r).
    { pose proof (import_here_double_quoted b bs rest Hp) as I.
      revert I. rewrite !append_cons, !append_nil_l. intros I.
      cbn [match_imports_from]. rewrite I. eexists. reflexivity. }
    destruct M as [r ->]. cbn [fold_left].
    rewrite (match_quoted_double_quoted (String b bs) Hne Hp).
    replace (String b bs =? "")%string with false by reflexivity.
    rewrite Hh, Hf, Hat. cbn [negb andb].
    match goal with |- context [fold_left ?f r ?st] =>
      assert (S : forall st0 x, exists extra,
                 f st0 x = (fst st0 ++ extra, snd st0 && none extra));
      [| destruct (fold_issues f r S st) as [extra E]] end.
    - intros [issues valid] stmt. simpl.
      destruct (match_quoted stmt) as [importPath |].
      + destruct (negb (importPath =? "")%string && negb (startsWith importPath "http")).
        * destruct (negb (fileExists a (resolveImport filePath importPath))
                    && negb (includes importPath "@")).
          -- eexists [_]. simpl. now rewrite andb_false_r.
          -- exists []. now rewrite app_nil_r, andb_true_r.
        * exists []. now rewrite app_nil_r, andb_true_r.
      + exists []. now rewrite app_nil_r, andb_true_r.
    - rewrite E. simpl. eexists. reflexivity. }
  destruct F as [e0 F]. unfold validateCrossFileConsistency. cbn [fold_left].
  rewrite F.
  destruct (fold_issues (check_imports a) others (check_imports_issues a)
              (("File " +:+ filePath +:+ ": Import not found: " +:+ p) :: e0, false))
    as [e1 ->].
  rewrite inheritance_loop. simpl. split; [reflexivity |]. now left.
Qed.

Lemma applied_or_skipped_witness :
  exists t,
    Transformer.transformFile two_file_model two_file_parse two_file_content
      (sample_analysis []) sample_tree "contracts/B.sol"
      [ sample_recommendation "contracts/B.sol" high ] = Ok t
    /\ transformedContent t = originalContent t.
Proof.
  eexists. split; [reflexivity |].
  apply (applied_or_skipped two_file_model two_file_parse two_file_content
           (sample_analysis []) sample_tree "contracts/B.sol"
           [ sample_recommendation "contracts/B.sol" high ] _ eq_refl).
  reflexivity.
Defined.

Lemma unusable_reply_skips_file_witness :
  exists t,
    Transformer.transformFile (fun _ => Ok [TextBlock "I would rather not."])
      two_file_parse two_file_content (sample_analysis []) sample_tree "contracts/A.sol"
      [ sample_recommendation "contracts/A.sol" high ] = Ok t
    /\ tf_warnings t = [ "Claude response parsing failed" ].
Proof.
  destruct (unusable_reply_skips_file (fun _ => Ok [TextBlock "I would rather not."])
              two_file_parse two_file_content (sample_analysis []) sample_tree
              "contracts/A.sol" [ sample_recommendation "contracts/A.sol" high ]) as [_ H].
  destruct (H "contract A { uint x = 1; }" eq_refl) as [t Ht].
  - discriminate.
  - intros prompt. exists "I would rather not.", []. split; reflexivity.
  - exists t. split; apply Ht.
Defined.


Lemma diff_preview_misses_late_changes_witness :
  generateDiffPreview (eleven_lines "uint x = 1;") (eleven_lines "uint x = 2;") = ""
  /\ eleven_lines "uint x = 1;" <> eleven_lines "uint x = 2;".
Proof.
  split; [| discriminate].
  apply (diff_preview_misses_late_changes (eleven_lines "uint x = 1;")
           (eleven_lines "uint x = 2;")).
  reflexivity.
Defined.

Lemma resolveImport_cases_witness :
  resolveImport "contracts/token/A.sol" "../B.sol" = "contracts/B.sol"
  /\ resolveImport "A.sol" "./B.sol" = "/B.sol".
Proof.
  destruct (resolveImport_cases "contracts" "token" "A.sol" "B.sol" eq_refl)
    as (_ & H2 & H3 & _).
  split; [exact (H3 eq_refl) | exact H2].
Defined.

Lemma unresolved_import_is_reported_witness :
  importsValid (validateCrossFileConsistency analysis_of_A
                  [ ("contracts/A.sol", transformed_with "contracts/A.sol" missing_double) ])
  = false.
Proof.
  destruct (unresolved_import_is_reported analysis_of_A "contracts/A.sol"
              (transformed_with "contracts/A.sol" missing_double) []
              "./Missing.sol" (";" +:+ nl +:+ "contract A {}")) as [H _];
    [discriminate | vm_compute; reflexivity .. | exact H].
Defined.

End TransformerExtra.

(** ** Further properties of the HTTP server *)

Module HttpExtra.
Import JsString Analyzer Planner Transformer Http Samples Vocabulary HandlerLogic Support.
Import PlannerProofs PlannerExtra TransformerExtra HttpProofs.

(** *** The repository key *)

Lemma span_all (f : ascii -> bool) (a : string) :
  all_chars f a = true -> span f a = (a, "").
Proof.
  induction a as [| x a IH]; simpl; [reflexivity |].
  intros H. apply andb_prop in H as [Hx Ha]. now rewrite Hx, (IH Ha).
Qed.

Lemma github_here_owner_repo (a1 b1 : ascii) (a2 b2 : string) :
  all_chars not_slash (String a1 a2) = true ->
  all_chars not_slash (String b1 b2) = true ->
  github_here ("github.com/" +:+ String a1 a2 +:+ "/" +:+ String b1 b2)
  = Some (String a1 a2, String b1 b2).
Proof.
  intros Ha Hb. unfold github_here.
  replace (String.prefix "github.com/" ("github.com/" +:+ String a1 a2 +:+ "/" +:+ String b1 b2))
    with true by reflexivity.
  pose proof (substring_drop "github.com/" (String a1 a2 +:+ "/" +:+ String b1 b2)) as D.
  change (String.length "github.com/") with 11 in D. cbv zeta. rewrite D.
  change (String a1 a2 +:+ "/" +:+ String b1 b2)
    with (String a1 a2 +:+ String "/" (String b1 b2)).
  rewrite (span_stop not_slash (String a1 a2) "/" (String b1 b2) Ha eq_refl).
  cbv iota beta. now rewrite (span_all not_slash (String b1 b2) Hb).
Qed.

Lemma match_github_https (rest : string) :
  match_github ("https://" +:+ rest) = match_github rest.
Proof. reflexivity. Qed.

Lemma match_github_head (s : string) (m : string * string) :
  github_here s = Some m -> match_github s = Some m.
Proof.
  intros H. destruct s as [| c r]; [discriminate |].
  change (match_github (String c r))
    with (match github_here (String c r) with
          | Some m => Some m
          | None => match_github r
          end).
  now rewrite H.
Qed.

Lemma strip_git_suffix (repo : string) : strip_git (repo +:+ ".git") = repo.
Proof.
  unfold strip_git. rewrite length_append. simpl String.length.
  replace (String.length repo + 4 - 4) with (String.length repo) by lia.
  replace (Nat.leb 4 (String.length repo + 4)) with true
    by (symmetry; apply Nat.leb_le; lia).
  pose proof (substring_drop repo ".git") as D. rewrite length_append in D.
  simpl String.length in D.
  replace (String.length repo + 4 - String.length repo) with 4 in D by lia.
  rewrite D. simpl. apply substring_whole_prefix.
Qed.

Lemma all_chars_app (f : ascii -> bool) (a b : string) :
  all_chars f (a +:+ b) = all_chars f a && all_chars f b.
Proof.
  induction a as [| x a IH]; [reflexivity |].
  rewrite append_cons. simpl. now rewrite IH, andb_assoc.
Qed.

(** X20.  The key of a GitHub URL is the owner, a slash, and the repository name
    without a final [.git]: the URL of a repository and its clone URL have
    the same key.  The URL the transform handler builds from a key
    resolves to that key again. *)
Theorem key_of_url_github (owner repo : string) :
  owner <> "" -> repo <> "" ->
  all_chars not_slash owner = true -> all_chars not_slash repo = true ->
  key_of_url ("https://github.com/" +:+ owner +:+ "/" +:+ repo)
  = Some (owner +:+ "/" +:+ strip_git repo)
  /\ key_of_url ("https://github.com/" +:+ owner +:+ "/" +:+ repo +:+ ".git")
     = Some (owner +:+ "/" +:+ repo)
  /\ (strip_git repo = repo ->
      key_of_url (ingest_url {| repoUrl := None; repoId := Some (owner +:+ "/" +:+ repo) |}
                    (owner +:+ "/" +:+ repo))
      = Some (owner +:+ "/" +:+ repo)).
Proof.
  intros Ho Hr Hso Hsr.
  destruct owner as [| a1 a2]; [congruence |]. destruct repo as [| b1 b2]; [congruence |].
  assert (K : forall r1 r2, all_chars not_slash (String r1 r2) = true ->
                key_of_url ("https://github.com/" +:+ String a1 a2 +:+ "/" +:+ String r1 r2)
                = Some (String a1 a2 +:+ "/" +:+ strip_git (String r1 r2))).
  { intros r1 r2 H. unfold key_of_url.
    change ("https://github.com/" +:+ String a1 a2 +:+ "/" +:+ String r1 r2)
      with ("https://" +:+ "github.com/" +:+ String a1 a2 +:+ "/" +:+ String r1 r2).
    rewrite match_github_https.
    now rewrite (match_github_head _ _ (github_here_owner_repo a1 r1 a2 r2 Hso H)). }
  split; [now apply K | split].
  - change (String b1 b2 +:+ ".git") with (String b1 (b2 +:+ ".git")).
    rewrite K.
    + change (String b1 (b2 +:+ ".git")) with (String b1 b2 +:+ ".git").
      now rewrite strip_git_suffix.
    + change (String b1 (b2 +:+ ".git")) with (String b1 b2 +:+ ".git").
      rewrite all_chars_app, Hsr. reflexivity.
  - intros Hs. unfold ingest_url. simpl truthy. cbv iota.
    rewrite <- Hs at 2. rewrite <- (K b1 b2 Hsr). reflexivity.
Qed.

Lemma key_of_url_github_witness :
  key_of_url "https://github.com/acme/sale.git" = Some "acme/sale".
Proof.
  apply (key_of_url_github "acme" "sale"); [discriminate | discriminate | reflexivity ..].
Defined.

(** *** Requests served alone *)

Lemma run_done (env : Env) (times : list Z) (w : World) (r : Response) :
  run env times w (Done r) = (w, Done r).
Proof. destruct times; reflexivity. Qed.

Lemma serve_done (env : Env) (now : Z) (times : list Z) (w : World) (s : Segment)
  (r : Response) :
  s now (caches w) = (caches w, Done r) ->
  serve env now times w s = (w, Done r).
Proof.
  intros H. unfold serve, arrive, settle. rewrite H. simpl.
  rewrite run_done, app_nil_r. now destruct w.
Qed.

Ltac walk_with tac :=
  repeat first
    [ apply Always_done; [tac |]
    | apply Always_ingest; [tac | intros ? _]
    | apply Always_analyze; [tac | intros ? _]
    | apply Always_plan; [tac | intros ? _]
    | apply Always_transform; [tac | intros ? _]
    | progress (unfold analysis_stage, plan_stage, transform_stage, plan_analyze,
                 plan_and_respond, analyze_and_respond, fail; cbn [fst snd])
    | match goal with
      | |- context [ingestRepository ?e ?u] =>
          destruct (ingestRepository e u) eqn:?
      | |- context [analyzeSolidityRepository ?e ?t] =>
          destruct (analyzeSolidityRepository e t) eqn:?
      | |- context [planRepositoryMigration ?e ?m ?a] =>
          destruct (planRepositoryMigration e m a) eqn:?
      | |- context [transformRepository ?e ?p ?a ?t] =>
          destruct (transformRepository e p a t) eqn:?
      | |- context [@lookup _ _ _ _ ?k ?m] => destruct (@lookup _ _ _ _ k m) eqn:?
      | |- context [expired ?t ?s] => destruct (expired t s) eqn:?
      end ].

Ltac walk := walk_with ltac:(exact I).

Ltac late_done :=
  unfold late, thrown, transform_response; eauto 12.

Lemma handleAnalyzeSolidityRequest_late (env : Env) (body : RequestBody) :
  early_or_late env (handleAnalyzeSolidityRequest body).
Proof.
  intros now c. unfold handleAnalyzeSolidityRequest.
  destruct (repoUrl body) as [[| ch u] |]; simpl; try (split; [reflexivity | left; eexists; reflexivity]).
  destruct (key_of_url _) as [key |]; simpl; try (split; [reflexivity | left; eexists; reflexivity]).
  destruct (repoCache c !! key) as [tree |]; simpl; (split; [reflexivity | right]);
    walk; late_done.
Qed.

Lemma handlePlanMigrationRequest_late (env : Env) (body : RequestBody) :
  early_or_late env (handlePlanMigrationRequest body).
Proof.
  intros now c. unfold handlePlanMigrationRequest.
  destruct (resolve_key body) as [r | key] eqn:Hk; simpl.
  { apply resolve_key_inl in Hk as [m ->]. split; [reflexivity | left; eexists; reflexivity]. }
  destruct (analysisCache c !! key) as [cached |]; simpl.
  { split; [reflexivity | right]. walk; late_done. }
  destruct (repoCache c !! key) as [tree |]; simpl.
  { split; [reflexivity | right]. walk; late_done. }
  destruct (repoUrl body) as [[| ch u] |]; simpl; try (split; [reflexivity | left; eexists; reflexivity]).
  split; [reflexivity | right]. walk; late_done.
Qed.

Lemma handleTransformRequest_late (env : Env) (body : RequestBody) :
  early_or_late env (handleTransformRequest body).
Proof.
  intros now c. unfold handleTransformRequest.
  destruct (resolve_key body) as [r | key] eqn:Hk; simpl.
  { apply resolve_key_inl in Hk as [m ->]. split; [reflexivity | left; eexists; reflexivity]. }
  destruct (repoCache c !! key) as [tree |]; simpl.
  - split; [unfold analysis_stage, plan_stage, transform_stage;
            repeat match goal with
                   | |- context [@lookup _ _ _ _ ?k ?m] => destruct (@lookup _ _ _ _ k m)
                   | |- context [expired ?t ?s] => destruct (expired t s)
                   end; reflexivity
           | right].
    walk; late_done.
  - split; [reflexivity | right]. walk; late_done.
Qed.

Lemma served_early_or_late (env : Env) (s : Segment) (now : Z) (times : list Z)
  (w w' : World) (r : Response) :
  early_or_late env s ->
  serve env now times w s = (w', Done r) ->
  (exists e, r = Status400 e) /\ w' = w \/ late env r.
Proof.
  intros H E. destruct (H now (caches w)) as [Hc [[e He] | Ha]].
  - left. rewrite (serve_done env now times w s (Status400 e)) in E.
    + injection E as <- <-. eauto.
    + rewrite (surjective_pairing (s now (caches w))). now rewrite Hc, He.
  - right.
    destruct (serve_always env (fun _ => True) (fun _ => True) (fun _ r => late env r)
                now times w w' s (Done r)) as [_ P]; auto.
    + apply List.Forall_forall. auto.
    + now rewrite Hc.
Qed.

(** X21.  For a request whose body holds strings, or nothing, in [repoUrl]
    and [repoId]: a request that is answered with status 400 has changed no
    cache and has called no stage function.  Such a request is answered
    with status 500 only when a stage function threw, and the response
    carries the message of that failure.  A request that is answered with a
    result carries what the last stage returned: the analysis, the plan
    after truncation, or the transformation report with the names of its
    modified files. *)
Theorem answers_come_from_stages (env : Env) (body : RequestBody) (s : Segment)
  (now : Z) (times : list Z) (w w' : World) (r : Response) :
  s = handleAnalyzeSolidityRequest body \/ s = handlePlanMigrationRequest body
  \/ s = handleTransformRequest body ->
  serve env now times w s = (w', Done r) ->
  match r with
  | Status400 _ => w' = w
  | Status500 m => thrown env m
  | AnalyzeOk a => exists tree, analyzeSolidityRepository env tree = Ok a
  | PlanOk p =>
      exists meta a generated,
        planRepositoryMigration env meta a = Ok generated /\ p = truncate_plan generated
  | TransformOk report modifiedFiles sampleDiffPreview =>
      (exists p a tree, transformRepository env p a tree = Ok report)
      /\ modifiedFiles
         = map fr_filePath
             (List.filter (fun f => Nat.ltb 0 (appliedChangesCount f)) (fileReports report))
  end.
Proof.
  intros Hs E.
  assert (H : early_or_late env s).
  { destruct Hs as [-> | [-> | ->]];
      [apply handleAnalyzeSolidityRequest_late | apply handlePlanMigrationRequest_late
       | apply handleTransformRequest_late]. }
  destruct (served_early_or_late env s now times w w' _ H E) as [[[e ->] ->] | L];
    [reflexivity |].
  destruct r; simpl in L; try assumption; try contradiction.
  destruct L as [L1 L2]. split; [assumption |].
  unfold transform_response in L2. now injection L2.
Qed.

Lemma answers_come_from_stages_witness :
  exists tree, analyzeSolidityRepository sample_env tree = Ok (sample_analysis [Token; Sale]).
Proof.
  apply (answers_come_from_stages sample_env (by_url sale_url)
           (handleAnalyzeSolidityRequest (by_url sale_url)) 0 [0; 0]%Z cold
           after_analyze (AnalyzeOk (sample_analysis [Token; Sale]))).
  - left. reflexivity.
  - reflexivity.
Defined.

(** *** What each route stores *)

(** X22.  The analysis route stores the tree and nothing else: the analysis it
    returns is not put in the analysis cache, and the plan cache is left as
    it is.  A plan request for the same URL that follows therefore runs the
    analysis again. *)
Theorem analysis_route_stores_the_tree_only (env : Env) (body : RequestBody)
  (url key : string) (now : Z) (times : list Z) (w w' : World) (a : SolidityAnalysisResult) :
  repoUrl body = Some url ->
  key_of_url url = Some key ->
  serve env now times w (handleAnalyzeSolidityRequest body) = (w', Done (AnalyzeOk a)) ->
  analysisCache (caches w') = analysisCache (caches w)
  /\ planCache (caches w') = planCache (caches w)
  /\ is_Some (repoCache (caches w') !! key)
  /\ (repoId body = None -> analysisCache (caches w) !! key = None ->
      forall t, started (snd (handlePlanMigrationRequest body t (caches w')))
                = [StageAnalysis]).
Proof.
  intros Hu Hk E.
  destruct (serve_always env (fun _ => True)
              (fun c => analysisCache c = analysisCache (caches w)
                        /\ planCache c = planCache (caches w))
              (fun c r => forall a, r = AnalyzeOk a -> is_Some (repoCache c !! key))
              now times w w' (handleAnalyzeSolidityRequest body) (Done (AnalyzeOk a)))
    as [[I1 I2] P]; auto.
  { apply List.Forall_forall. auto. }
  { unfold handleAnalyzeSolidityRequest. rewrite Hu.
    destruct url as [| ch u]; [discriminate |]. rewrite Hk.
    destruct (repoCache (caches w) !! key) as [tree |] eqn:R; simpl.
    - walk_with ltac:(split; reflexivity); intros ? H; try discriminate;
        try (eexists; reflexivity); congruence.
    - walk_with ltac:(split; reflexivity); intros ? H; try discriminate;
        try (eexists; reflexivity).
      match goal with
      | L : _ !! _ = None |- _ => simpl in L; rewrite lookup_insert_eq in L; discriminate
      end. }
  specialize (P _ eq_refl a eq_refl).
  repeat split; try assumption.
  intros Hid Hn t. unfold handlePlanMigrationRequest, resolve_key.
  rewrite Hu, Hid. destruct url as [| ch u]; [discriminate |]. simpl. rewrite Hk.
  rewrite I1, Hn. destruct P as [tree ->]. reflexivity.
Qed.

(** X23.  The plan route uses a cached analysis whatever its age, and never reads
    the plan cache: it calls the planner, and nothing else, on every
    request, and stores the truncated plan with the time of the answer. *)
Theorem plan_route_plans_again (env : Env) (body : RequestBody) (key : string)
  (entry : AnalysisCache) (now t : Z) (times : list Z) (w : World) :
  resolve_key body = inr key ->
  analysisCache (caches w) !! key = Some entry ->
  serve env now (t :: times) w (handlePlanMigrationRequest body)
  = match planRepositoryMigration env (repoMetadata entry) (analysisResult entry) with
    | Ok p =>
        ({| caches := set_plan key {| plan := truncate_plan p; pc_timestamp := t |} (caches w);
            calls := calls w ++ [StagePlan] |},
         Done (PlanOk (truncate_plan p)))
    | Throw m =>
        ({| caches := caches w; calls := calls w ++ [StagePlan] |}, Done (Status500 m))
    end.
Proof.
  intros Hk He. unfold serve, arrive, handlePlanMigrationRequest. rewrite Hk, He.
  unfold plan_and_respond, settle. cbn [fst snd started]. rewrite run_cons.
  cbn [resume caches calls settle].
  destruct (planRepositoryMigration env _ _) as [p | m]; unfold settle, fail;
    cbn [fst snd started]; now rewrite run_done, app_nil_r.
Qed.

(** X24.  With the tree in the cache and an analysis and a plan within their time
    to live, a transform request calls the transformer and nothing else,
    and leaves the caches as they are: a transformation report is never
    stored. *)
Theorem warm_transform_runs_the_transformer_only (env : Env) (body : RequestBody)
  (key : string) (tree : RepositoryTree) (ae : AnalysisCache) (pe : PlanCache)
  (now t : Z) (times : list Z) (w : World) :
  resolve_key body = inr key ->
  repoCache (caches w) !! key = Some tree ->
  analysisCache (caches w) !! key = Some ae ->
  planCache (caches w) !! key = Some pe ->
  (now - ac_timestamp ae <= CACHE_TTL_MS)%Z ->
  (now - pc_timestamp pe <= CACHE_TTL_MS)%Z ->
  serve env now (t :: times) w (handleTransformRequest body)
  = ({| caches := caches w; calls := calls w ++ [StageTransform] |},
     Done (match transformRepository env (plan pe) (analysisResult ae) tree with
           | Ok report => transform_response report
           | Throw m => Status500 m
           end)).
Proof.
  intros Hk Hr Ha Hp Xa Xp.
  assert (Ea : expired now (Some (ac_timestamp ae)) = false).
  { unfold expired. apply Z.ltb_ge. lia. }
  assert (Ep : expired now (Some (pc_timestamp pe)) = false).
  { unfold expired. apply Z.ltb_ge. lia. }
  unfold serve, arrive, handleTransformRequest. rewrite Hk, Hr.
  unfold analysis_stage. rewrite Ha, Ea. unfold plan_stage. rewrite Hp, Ep.
  unfold transform_stage, settle. cbn [fst snd started]. rewrite run_cons.
  cbn [resume caches calls settle].
  destruct (transformRepository env _ _ _) as [report | m]; unfold settle, fail;
    cbn [fst snd started]; now rewrite run_done, app_nil_r.
Qed.

(** X25.  What was computed before a failure is kept.  On a key that is not in
    the caches, a transform request whose planner throws answers with
    status 500 and leaves the tree and the analysis in the caches; a second
    request within the time to live of this analysis starts at the plan
    stage. *)
Theorem failure_keeps_earlier_stages (env : Env) (body : RequestBody) (key : string)
  (tree : RepositoryTree) (a : SolidityAnalysisResult) (m : string)
  (now t1 t2 t3 : Z) (times : list Z) (w : World) :
  resolve_key body = inr key ->
  repoCache (caches w) !! key = None ->
  analysisCache (caches w) !! key = None ->
  planCache (caches w) !! key = None ->
  ingestRepository env (ingest_url body key) = Ok tree ->
  analyzeSolidityRepository env tree = Ok a ->
  planRepositoryMigration env (metadata tree) a = Throw m ->
  let entry := {| analysisResult := a; repoMetadata := metadata tree; ac_timestamp := t2 |} in
  let w' := {| caches := set_analysis key entry (set_repo key tree (caches w));
               calls := calls w ++ [StageTree; StageAnalysis; StagePlan] |} in
  serve env now (t1 :: t2 :: t3 :: times) w (handleTransformRequest body)
  = (w', Done (Status500 m))
  /\ (forall t, (t - t2 <= CACHE_TTL_MS)%Z ->
                started (snd (handleTransformRequest body t (caches w'))) = [StagePlan]).
Proof.
  intros Hk Hr Ha Hp Ei Ea Ep entry w'. split.
  - unfold serve, arrive, handleTransformRequest. rewrite Hk, Hr.
    unfold settle. cbn [fst snd started]. rewrite run_cons.
    cbn [resume caches calls]. rewrite Ei.
    unfold analysis_stage. cbn [analysisCache set_repo]. rewrite Ha.
    unfold settle. cbn [fst snd started]. rewrite run_cons.
    cbn [resume caches calls]. rewrite Ea. cbv zeta.
    unfold plan_stage. cbn [planCache set_analysis set_repo]. rewrite Hp.
    unfold settle. cbn [fst snd started]. rewrite run_cons.
    cbn [resume caches calls repoMetadata analysisResult]. rewrite Ep.
    unfold settle, fail. cbn [fst snd started]. rewrite run_done.
    unfold w', entry. rewrite app_nil_r, <- !app_assoc. reflexivity.
  - intros t Ht. unfold handleTransformRequest. rewrite Hk.
    unfold w'. cbn [caches repoCache set_analysis set_repo].
    rewrite lookup_insert_eq. unfold analysis_stage.
    cbn [analysisCache set_analysis]. rewrite lookup_insert_eq.
    replace (expired t (Some (ac_timestamp entry))) with false
      by (symmetry; unfold expired; apply Z.ltb_ge; simpl; lia).
    unfold plan_stage. cbn [planCache set_analysis set_repo]. rewrite Hp. reflexivity.
Qed.

Lemma analysis_route_stores_the_tree_only_witness :
  analysisCache (caches after_analyze) = analysisCache (caches cold).
Proof.
  apply (analysis_route_stores_the_tree_only sample_env (by_url sale_url) sale_url
           "acme/sale" 0 [0; 0]%Z cold after_analyze (sample_analysis [Token; Sale]));
    reflexivity.
Defined.

Lemma plan_route_plans_again_witness :
  snd (serve sample_env (minutes 90) [minutes 90] after_plan
         (handlePlanMigrationRequest (by_id "acme/sale")))
  = Done (PlanOk (sample_plan [ sample_recommendation "contracts/Sale.sol" high ])).
Proof.
  rewrite (plan_route_plans_again sample_env (by_id "acme/sale") "acme/sale"
             {| analysisResult := sample_analysis [Token; Sale];
                repoMetadata := metadata sample_tree; ac_timestamp := 0 |}
             (minutes 90) (minutes 90) [] after_plan eq_refl eq_refl).
  reflexivity.
Defined.

Lemma warm_transform_runs_the_transformer_only_witness :
  fst (serve sample_env (minutes 3) [minutes 3] after_plan
         (handleTransformRequest (by_id "acme/sale")))
  = {| caches := caches after_plan; calls := calls after_plan ++ [StageTransform] |}.
Proof.
  rewrite (warm_transform_runs_the_transformer_only sample_env (by_id "acme/sale")
             "acme/sale" sample_tree
             {| analysisResult := sample_analysis [Token; Sale];
                repoMetadata := metadata sample_tree; ac_timestamp := 0 |}
             {| plan := sample_plan [ sample_recommendation "contracts/Sale.sol" high ];
                pc_timestamp := minutes 2 |}
             (minutes 3) (minutes 3) [] after_plan eq_refl eq_refl eq_refl eq_refl).
  - reflexivity.
  - vm_compute. discriminate.
  - vm_compute. discriminate.
Defined.

Lemma failure_keeps_earlier_stages_witness :
  snd (serve failing_planner_env 0 [1; 2; 3]%Z cold (handleTransformRequest (by_id "acme/sale")))
  = Done (Status500 "overloaded").
Proof.
  destruct (failure_keeps_earlier_stages failing_planner_env (by_id "acme/sale") "acme/sale"
              sample_tree (sample_analysis [Token; Sale]) "overloaded" 0 1 2 3 [] cold
              eq_refl eq_refl eq_refl eq_refl eq_refl eq_refl eq_refl) as [H _].
  rewrite H. reflexivity.
Defined.

End HttpExtra.

(** ** Properties of the ingestion *)

Module IngestionExtra.
Import JsString Analyzer Ingestion IngestionSupport Support.
Import PlannerProofs PlannerExtra TransformerExtra AnalyzerExtra.

(** *** File types *)

Lemma split_char_absent (c : ascii) (s : string) :
  count_char c s = 0 -> split_char c s = [s].
Proof.
  induction s as [| x s IH]; simpl; [reflexivity |].
  destruct (Ascii.eqb x c); [discriminate |]. intros H. now rewrite (IH H).
Qed.

Lemma last_cons {A : Type} (x : A) (l : list A) (d : A) :
  l <> [] -> List.last (x :: l) d = List.last l d.
Proof. destruct l; [congruence | reflexivity]. Qed.

Lemma last_split_char (c : ascii) (a b : string) :
  count_char c b = 0 ->
  List.last (split_char c (a +:+ String c b)) "" = b
  /\ 2 <= length (split_char c (a +:+ String c b)).
Proof.
  intros H. induction a as [| x a [IH1 IH2]].
  - rewrite append_nil_l. simpl. rewrite Ascii.eqb_refl, (split_char_absent c b H).
    split; [reflexivity | simpl; lia].
  - rewrite append_cons. simpl.
    destruct (split_char c (a +:+ String c b)) as [| l ls] eqn:E; [simpl in IH2; lia |].
    destruct (Ascii.eqb x c).
    + split; [| simpl in *; lia]. rewrite last_cons; [assumption | discriminate].
    + destruct ls as [| l' ls]; [simpl in IH2; lia |].
      split; [| simpl in *; lia]. exact IH1.
Qed.

Lemma getFileExtension_dot (stem ext : string) :
  count_char "." ext = 0 ->
  getFileExtension (stem +:+ "." +:+ ext) = "." +:+ toLowerCase ext.
Proof.
  intros H. unfold getFileExtension.
  change (stem +:+ "." +:+ ext) with (stem +:+ String "." ext).
  destruct (last_split_char "." stem ext H) as [L N]. cbv zeta. rewrite L.
  destruct (Nat.leb (length (split_char "." (stem +:+ String "." ext))) 1) eqn:E;
    [apply Nat.leb_le in E; lia | reflexivity].
Qed.

Lemma substring_split (n : nat) (s : string) :
  n <= String.length s ->
  s = String.substring 0 n s +:+ String.substring n (String.length s - n) s.
Proof.
  revert s. induction n as [| n IH]; intros s H.
  - rewrite Nat.sub_0_r.
    replace (String.substring 0 0 s) with "" by now destruct s.
    rewrite append_nil_l. clear. induction s as [| x s IHs]; [reflexivity |].
    simpl. now rewrite <- IHs.
  - destruct s as [| x s]; simpl in *; [lia |].
    rewrite append_cons. f_equal. apply IH. lia.
Qed.

Lemma endsWith_suffix (s e : string) :
  endsWith s e = true -> exists stem, s = stem +:+ e.
Proof.
  unfold endsWith. intros H. apply andb_prop in H as [L E].
  apply Nat.leb_le in L. apply String.eqb_eq in E.
  exists (String.substring 0 (String.length s - String.length e) s).
  pose proof (substring_split (String.length s - String.length e) s) as S.
  replace (String.length s - (String.length s - String.length e))
    with (String.length e) in S by lia.
  rewrite E in S. apply S. lia.
Qed.

(** X26.  The type of a file is decided by its extension alone, the text after
    the last dot in lower case.  The entry [.config.js] of the
    configuration extensions is never used: such a file is a JavaScript
    file. *)
Theorem extension_decides_type (filename stem ext : string) :
  detectFileType filename = type_of_extension (getFileExtension filename)
  /\ (count_char "." ext = 0 ->
      getFileExtension (stem +:+ "." +:+ ext) = "." +:+ toLowerCase ext)
  /\ detectFileType (stem +:+ ".config.js") = javascript.
Proof.
  assert (J : forall s, detectFileType (s +:+ ".config.js") = javascript).
  { intros s. unfold detectFileType.
    replace (s +:+ ".config.js") with ((s +:+ ".config") +:+ "." +:+ "js")
      by (rewrite append_assoc; reflexivity).
    rewrite getFileExtension_dot; reflexivity. }
  split; [| split; [apply getFileExtension_dot | apply J]].
  unfold detectFileType, type_of_extension.
  destruct (existsb (fun e => endsWith filename e) CONFIG_EXTENSIONS) eqn:X;
    [| now rewrite orb_false_r].
  apply existsb_exists in X as [e [He Hs]].
  apply endsWith_suffix in Hs as [s ->].
  assert (C : forall x, count_char "." x = 0 -> toLowerCase x = x ->
              getFileExtension (s +:+ "." +:+ x) = "." +:+ x).
  { intros x H1 H2. rewrite getFileExtension_dot; [now rewrite H2 | assumption]. }
  simpl in He. destruct He as [<- | [<- | [<- | [<- | [<- | []]]]]].
  - change (s +:+ ".json") with (s +:+ "." +:+ "json"). now rewrite C.
  - change (s +:+ ".yaml") with (s +:+ "." +:+ "yaml"). now rewrite C.
  - change (s +:+ ".yml") with (s +:+ "." +:+ "yml"). now rewrite C.
  - change (s +:+ ".toml") with (s +:+ "." +:+ "toml"). now rewrite C.
  - replace (s +:+ ".config.js") with ((s +:+ ".config") +:+ "." +:+ "js")
      by (rewrite append_assoc; reflexivity).
    rewrite getFileExtension_dot; reflexivity.
Qed.

Lemma extension_decides_type_witness :
  getFileExtension "contracts/Token.SOL" = ".sol"
  /\ detectFileType "hardhat.config.js" = javascript.
Proof.
  destruct (extension_decides_type "" "contracts/Token" "SOL") as (_ & H & _).
  destruct (extension_decides_type "" "hardhat" "") as (_ & _ & J).
  split; [exact (H eq_refl) | exact J].
Defined.

(** *** The counters and the tree *)

Lemma tally_app (t : FileType) (a b : list RepositoryFile) :
  tally t (a ++ b) = (tally t a + tally t b)%Z.
Proof. unfold tally. rewrite List.filter_app, List.length_app. lia. Qed.

Lemma tallied_refl (k : Counters) : tallied k k [].
Proof. unfold tallied, tally. simpl. repeat split; lia. Qed.

Lemma tallied_trans (k0 k1 k2 : Counters) (a b : list RepositoryFile) :
  tallied k0 k1 a -> tallied k1 k2 b -> tallied k0 k2 (a ++ b).
Proof.
  unfold tallied. rewrite !tally_app, List.length_app.
  intros (A1 & A2 & A3 & A4 & A5 & A6) (B1 & B2 & B3 & B4 & B5 & B6).
  repeat split; lia.
Qed.

Lemma tally_one (t : FileType) (f : RepositoryFile) :
  tally t [f] = if counted_in t f then 1%Z else 0%Z.
Proof. unfold tally. simpl. now destruct (counted_in t f). Qed.

Lemma tallied_file (k0 k : Counters) (a b : list RepositoryFile) (f : RepositoryFile) :
  tallied k0 k (a ++ b) -> tallied k0 (count_file (file_type f) k) ((a ++ [f]) ++ b).
Proof.
  unfold tallied. rewrite !tally_app, !List.length_app.
  intros (A1 & A2 & A3 & A4 & A5 & A6).
  rewrite !tally_one. unfold counted_in.
  destruct (file_type f); simpl; repeat split; lia.
Qed.

Lemma tally_total (fs : list RepositoryFile) :
  Z.of_nat (length fs)
  = (tally solidity fs + tally typescript fs + tally javascript fs
     + tally config fs + tally other fs)%Z.
Proof.
  induction fs as [| f fs IH]; [reflexivity |].
  change (f :: fs) with ([f] ++ fs). rewrite !tally_app, List.length_app, Nat2Z.inj_add, IH.
  rewrite !tally_one. unfold counted_in.
  destruct (file_type f); simpl; lia.
Qed.

Lemma fold_left_invariant {A B : Type} (I : B -> Prop) (f : B -> A -> B) (l : list A) :
  (forall b x, I b -> I (f b x)) -> forall b, I b -> I (fold_left f l b).
Proof.
  intros H. induction l as [| x l IH]; intros b Hb; simpl; [assumption |].
  apply IH. now apply H.
Qed.

Lemma all_files_empty (dir : RepositoryDirectory) :
  files dir = [] -> subdirectories dir = [] -> all_files dir = [].
Proof. destruct dir as [p n fs subs]. simpl. now intros -> ->. Qed.

Lemma inhabited_test (dir : RepositoryDirectory) :
  Nat.ltb 0 (length (files dir)) || Nat.ltb 0 (length (subdirectories dir)) = true
  <-> inhabited dir.
Proof.
  unfold inhabited. destruct (files dir), (subdirectories dir); simpl; split;
    intros H; try reflexivity; try discriminate; try (left; discriminate);
    try (right; discriminate). destruct H as [H | H]; now contradiction H.
Qed.

Lemma flat_map_snoc {A B : Type} (f : A -> list B) (l : list A) (x : A) :
  flat_map f (l ++ [x]) = flat_map f l ++ f x.
Proof. rewrite flat_map_app. simpl. now rewrite app_nil_r. Qed.

Lemma list_max_bound (l : list nat) (n : nat) :
  Forall (fun x => x <= n) l -> list_max l <= n.
Proof. induction 1 as [| x l Hx _ IH]; simpl; lia. Qed.

Section Client.
Variable getRepository : string -> string -> Result RepositoryMetadata.
Variable getRepositoryContents : string -> string -> string -> Result (list ContentItem).
Variable toISOString : Z -> string.

Let fetch_levels := Ingestion.fetch_levels getRepositoryContents.

Lemma fetched_empty (levels : nat) (k : Counters) (path : string) :
  fetched levels k (k, empty_directory path).
Proof using Type.
  unfold fetched. simpl. split; [apply tallied_refl |]. repeat split.
  - constructor.
  - lia.
  - constructor.
  - intros [H | H]; now contradiction H.
Qed.

Lemma fetch_levels_fetched (levels : nat) :
  forall owner repo path k, fetched levels k (fetch_levels levels owner repo path k).
Proof using Type.
  induction levels as [| deeper IH]; intros owner repo path k.
  - apply fetched_empty.
  - unfold fetch_levels. simpl. fold (Ingestion.fetch_levels getRepositoryContents).
    fold fetch_levels.
    destruct (Z.ltb MAX_FILES_TO_FETCH (fileCount k)); [apply fetched_empty |].
    destruct (getRepositoryContents owner repo path) as [contents | m];
      [| apply fetched_empty].
    match goal with
    | |- context [fold_left ?f contents ?b] =>
        assert (G : (fun '(ka, fs, subs) =>
                       tallied k ka (fs ++ flat_map all_files subs)
                       /\ Forall recorded (fs ++ flat_map all_files subs)
                       /\ Forall (fun s => height s <= deeper /\ inhabited s
                                           /\ Forall inhabited (descendants s)) subs)
                      (fold_left f contents b))
    end.
    { apply fold_left_invariant.
      - intros [[ka fs] subs] item (I1 & I2 & I3).
        destruct (String.eqb (item_type item) "dir").
        + destruct (shouldIgnoreDirectory (item_name item));
            [exact (conj I1 (conj I2 I3)) |].
          pose proof (IH owner repo (item_path item) ka) as (S1 & S2 & S3 & S4 & S5).
          destruct (fetch_levels deeper owner repo (item_path item) ka) as [k1 subdir].
          simpl in S1, S2, S3, S4, S5.
          destruct (Nat.ltb 0 (length (files subdir))
                    || Nat.ltb 0 (length (subdirectories subdir))) eqn:T.
          * apply inhabited_test in T. rewrite flat_map_snoc, app_assoc.
            split; [now apply tallied_trans with ka |].
            split; [apply List.Forall_app; now split |].
            apply List.Forall_app. split; [assumption |].
            constructor; [| constructor]. specialize (S5 T). repeat split; try assumption. lia.
          * assert (N : all_files subdir = []).
            { apply all_files_empty.
              - destruct (files subdir); [reflexivity | discriminate].
              - destruct (files subdir); [| discriminate].
                destruct (subdirectories subdir); [reflexivity | discriminate]. }
            rewrite N in S1. split; [| now split].
            rewrite <- (app_nil_r (fs ++ flat_map all_files subs)).
            now apply tallied_trans with ka.
        + destruct (shouldIgnoreFile (item_name item)) eqn:X;
            [exact (conj I1 (conj I2 I3)) |].
          cbv zeta.
          match goal with
          | |- tallied _ _ ((_ ++ [?f]) ++ _) /\ _ =>
              split; [exact (tallied_file k ka fs _ f I1) |]
          end.
          split; [| assumption].
          apply List.Forall_app in I2 as [I2a I2b].
          apply List.Forall_app. split; [| assumption].
          apply List.Forall_app. split; [assumption |].
          constructor; [| constructor]. repeat split. exact X.
      - simpl. split; [apply tallied_refl |]. split; constructor. }
    destruct (fold_left _ contents _) as [[k' fs] subs].
    destruct G as (G1 & G2 & G3). unfold fetched. simpl.
    split; [assumption |]. split; [assumption |]. split; [| split].
    + assert (list_max (map height subs) <= deeper); [| lia].
      apply list_max_bound. apply List.Forall_map.
      revert G3. apply List.Forall_impl. intros s H. apply H.
    + clear - G3. induction G3 as [| s subs (_ & Hs & Hd) _ IHs]; simpl; [constructor |].
      constructor; [assumption |]. apply List.Forall_app. now split.
    + intros _. lia.
Qed.

(** X27.  The statistics of an ingested repository count its tree: the total is
    the number of files of the tree, the Solidity count is the number of
    files the analyzer will parse, every file is counted under exactly one
    type, and Markdown files are counted with the other files. *)
Theorem stats_count_the_tree (now : Z) (repoUrl : string) (tree : RepositoryTree) :
  Ingestion.ingestRepository getRepository getRepositoryContents toISOString now repoUrl
  = Ok tree ->
  totalFiles (tree_stats tree) = Z.of_nat (length (all_files (root tree)))
  /\ solidityFiles (tree_stats tree) = Z.of_nat (length (findSolidityFiles (root tree)))
  /\ typescriptFiles (tree_stats tree) = tally typescript (all_files (root tree))
  /\ javascriptFiles (tree_stats tree) = tally javascript (all_files (root tree))
  /\ configFiles (tree_stats tree) = tally config (all_files (root tree))
  /\ otherFiles (tree_stats tree) = tally other (all_files (root tree))
  /\ totalFiles (tree_stats tree)
     = (solidityFiles (tree_stats tree) + typescriptFiles (tree_stats tree)
        + javascriptFiles (tree_stats tree) + configFiles (tree_stats tree)
        + otherFiles (tree_stats tree))%Z.
Proof using Type.
  unfold Ingestion.ingestRepository.
  destruct (parseRepositoryUrl repoUrl) as [[owner repo] | m]; [| discriminate].
  destruct (getRepository owner repo) as [meta | m]; [| discriminate].
  unfold fetchDirectoryTree.
  pose proof (fetch_levels_fetched (MAX_RECURSION_DEPTH + 1 - 0) owner repo "" zero_counters)
    as (T & _).
  unfold fetch_levels in T.
  destruct (Ingestion.fetch_levels _ _ _ _ _ _) as [k d]. simpl in T.
  intros H. injection H as <-. simpl.
  destruct T as (T1 & T2 & T3 & T4 & T5 & T6). simpl in T1, T2, T3, T4, T5, T6.
  assert (S : Z.of_nat (length (findSolidityFiles d)) = tally solidity (all_files d)).
  { rewrite findSolidityFiles_filter. reflexivity. }
  rewrite S. repeat split; try assumption.
  rewrite T1, T2, T3, T4, T5, T6. apply tally_total.
Qed.

(** X28.  An ingested tree holds no file with an ignored name; the type and the
    extension of each file are those of its name.  The tree has at most 11
    levels of directories, and no directory below the root is empty. *)
Theorem ingested_tree_is_clean (now : Z) (repoUrl : string) (tree : RepositoryTree) :
  Ingestion.ingestRepository getRepository getRepositoryContents toISOString now repoUrl
  = Ok tree ->
  Forall recorded (all_files (root tree))
  /\ height (root tree) <= 11
  /\ Forall inhabited (descendants (root tree)).
Proof using Type.
  unfold Ingestion.ingestRepository.
  destruct (parseRepositoryUrl repoUrl) as [[owner repo] | m]; [| discriminate].
  destruct (getRepository owner repo) as [meta | m]; [| discriminate].
  unfold fetchDirectoryTree.
  pose proof (fetch_levels_fetched (MAX_RECURSION_DEPTH + 1 - 0) owner repo "" zero_counters)
    as (_ & F & H & D & _).
  unfold fetch_levels in F, H, D.
  destruct (Ingestion.fetch_levels _ _ _ _ _ _) as [k d]. simpl in F, H, D.
  intros E. injection E as <-. simpl. repeat split; assumption.
Qed.
End Client.

Lemma stats_count_the_tree_witness :
  exists tree,
    sample_ingestion = Ok tree
    /\ solidityFiles (tree_stats tree) = Z.of_nat (length (findSolidityFiles (root tree))).
Proof.
  destruct sample_ingestion as [tree | m] eqn:E; [| vm_compute in E; discriminate].
  exists tree. split; [reflexivity |].
  apply (stats_count_the_tree sample_repository sample_listing
           (fun _ => "2025-01-01T00:00:00.000Z") 0 "https://github.com/acme/sale" tree E).
Defined.

Lemma ingested_tree_is_clean_witness :
  exists tree, sample_ingestion = Ok tree /\ height (root tree) <= 11.
Proof.
  destruct sample_ingestion as [tree | m] eqn:E; [| vm_compute in E; discriminate].
  exists tree. split; [reflexivity |].
  apply (ingested_tree_is_clean sample_repository sample_listing
           (fun _ => "2025-01-01T00:00:00.000Z") 0 "https://github.com/acme/sale" tree E).
Defined.

End IngestionExtra.

(** ** Properties of the ingestion route *)

Module IngestRouteExtra.
Import JsString Analyzer Http IngestRoute IngestionSupport Support.
Import IngestionExtra.

(** *** The preview *)

Lemma length_flat_map_bound {A B : Type} (f : A -> list B) (l : list A) (b : nat) :
  Forall (fun x => length (f x) <= b) l -> length (flat_map f l) <= length l * b.
Proof.
  induction 1 as [| x l Hx _ IH]; simpl; [lia |]. rewrite List.length_app. lia.
Qed.

Lemma incl_firstn {A : Type} (n : nat) (l : list A) : incl (firstn n l) l.
Proof. intros x H. rewrite <- (firstn_skipn n l). apply in_or_app. now left. Qed.

Lemma preview_levels_spec (levels : nat) :
  forall dir,
    let p := preview_levels levels dir in
    dir_path p = dir_path dir /\ dir_name p = dir_name dir
    /\ small p /\ Forall small (descendants p)
    /\ height p <= S levels
    /\ length (all_files p) <= preview_bound levels
    /\ incl (all_files p) (all_files dir).
Proof.
  induction levels as [| below IH]; intros [path name fs subs]; simpl.
  - unfold small. simpl. rewrite app_nil_r, List.length_firstn.
    repeat split; try lia; try constructor.
    intros x H. apply in_or_app. left. revert H. apply incl_firstn.
  - assert (S5 : length (firstn 5 subs) <= 5) by (rewrite List.length_firstn; lia).
    assert (A : Forall (fun x =>
                 small (preview_levels below x)
                 /\ Forall small (descendants (preview_levels below x))
                 /\ height (preview_levels below x) <= S below
                 /\ length (all_files (preview_levels below x)) <= preview_bound below
                 /\ incl (all_files (preview_levels below x)) (all_files x))
                (firstn 5 subs)).
    { apply List.Forall_forall. intros x _. destruct (IH x) as (_ & _ & H). exact H. }
    unfold small. simpl. rewrite List.length_map, List.length_app, List.length_firstn.
    repeat split; try lia.
    + clear - A. induction A as [| x l (H1 & H2 & _) _ IHl]; simpl; [constructor |].
      constructor; [assumption |]. apply List.Forall_app. now split.
    + assert (list_max (map height (map (preview_levels below) (firstn 5 subs))) <= S below);
        [| lia].
      apply list_max_bound. rewrite map_map. apply List.Forall_map.
      revert A. apply List.Forall_impl. intros x H. apply H.
    + assert (length (flat_map all_files (map (preview_levels below) (firstn 5 subs)))
              <= length (map (preview_levels below) (firstn 5 subs)) * preview_bound below).
      { apply length_flat_map_bound. apply List.Forall_map.
        revert A. apply List.Forall_impl. intros x H. apply H. }
      rewrite List.length_map in H. nia.
    + intros f H. apply in_app_or in H as [H | H]; apply in_or_app.
      * left. revert H. apply incl_firstn.
      * right. apply in_flat_map in H as [q [Hq Hf]].
        apply in_map_iff in Hq as [x [<- Hx]].
        apply in_flat_map. exists x. split; [revert Hx; apply incl_firstn |].
        rewrite List.Forall_forall in A. now apply (A x Hx).
Qed.

(** X29.  The preview of a tree keeps the path and the name of the root, has at
    most three levels of directories, at most ten files and five
    subdirectories in each directory, and at most 310 files in all; each of
    them is a file of the tree. *)
Theorem preview_is_bounded (dir : RepositoryDirectory) :
  let p := buildPreview dir 0 2 in
  dir_path p = dir_path dir /\ dir_name p = dir_name dir
  /\ height p <= 3
  /\ small p /\ Forall small (descendants p)
  /\ length (all_files p) <= 310
  /\ incl (all_files p) (all_files dir).
Proof.
  destruct (preview_levels_spec 2 dir) as (H1 & H2 & H3 & H4 & H5 & H6 & H7).
  exact (conj H1 (conj H2 (conj H5 (conj H3 (conj H4 (conj H6 H7)))))).
Qed.

(** *** The route *)

(** X30.  The ingestion route stores the tree under the owner and the name that
    the repository metadata give, and touches neither the analysis nor
    the plan of that key; a request that fails stores nothing.  An analysis
    request for the same URL uses the stored tree when the URL has that
    key, and fetches the repository again when it has another one. *)
Theorem ingest_route_stores_the_tree (env : Env) (body : RequestBody) (c c' : Caches)
  (r : IngestResponse) :
  handleIngestRequest env body c = (c', r) ->
  analysisCache c' = analysisCache c
  /\ planCache c' = planCache c
  /\ match r with
     | IngestOk meta stats preview maxDepth =>
         exists url tree,
           repoUrl body = Some url
           /\ ingestRepository env url = Ok tree
           /\ c' = set_repo (owner (metadata tree) +:+ "/" +:+ repo_name (metadata tree)) tree c
           /\ preview = buildPreview (root tree) 0 2
           /\ forall key t,
                key_of_url url = Some key ->
                (key = owner (metadata tree) +:+ "/" +:+ repo_name (metadata tree) ->
                 handleAnalyzeSolidityRequest body t c' = analyze_and_respond tree c')
                /\ (key <> owner (metadata tree) +:+ "/" +:+ repo_name (metadata tree) ->
                    repoCache c !! key = None ->
                    started (snd (handleAnalyzeSolidityRequest body t c')) = [StageTree])
     | Ingest400 _ | Ingest500 _ => c' = c
     end.
Proof.
  unfold handleIngestRequest.
  destruct (repoUrl body) as [[| ch u] |] eqn:U;
    try (intros H; injection H as <- <-; repeat split; reflexivity).
  destruct (ingestRepository env (String ch u)) as [tree | m] eqn:I;
    intros H; injection H as <- <-; [| repeat split; reflexivity].
  split; [reflexivity | split; [reflexivity |]].
  exists (String ch u), tree. repeat split; try reflexivity; try assumption.
  - intros ->. unfold handleAnalyzeSolidityRequest. rewrite U, H. simpl.
    now rewrite lookup_insert_eq.
  - intros Hne Hc. unfold handleAnalyzeSolidityRequest. rewrite U, H. simpl.
    rewrite lookup_insert_ne; [| congruence]. now rewrite Hc.
Qed.

Lemma ingest_route_stores_the_tree_witness :
  analysisCache (fst (handleIngestRequest Samples.sample_env (Samples.by_url Samples.sale_url)
                        (caches Samples.after_plan)))
  = analysisCache (caches Samples.after_plan).
Proof.
  apply (ingest_route_stores_the_tree Samples.sample_env (Samples.by_url Samples.sale_url)
           (caches Samples.after_plan) _
           (snd (handleIngestRequest Samples.sample_env (Samples.by_url Samples.sale_url)
                   (caches Samples.after_plan)))).
  apply surjective_pairing.
Defined.

End IngestRouteExtra.

(** ** Properties of the validator *)

Module ValidatorExtra.
Import JsString Analyzer Transformer Validator Samples Support.
Import TransformerExtra.

Lemma nested_issues {A : Type} (bad : A -> string -> bool) (msg : A -> string -> string)
  (items : A -> list string) (cs : list A) :
  forall acc,
    fold_left
      (fun issues c =>
         fold_left (fun issues x => if bad c x then issues ++ [msg c x] else issues)
           (items c) issues)
      cs acc
    = acc ++ flat_map (fun c => map (msg c) (List.filter (bad c) (items c))) cs.
Proof.
  induction cs as [| c cs IH]; intros acc; simpl.
  - now rewrite app_nil_r.
  - rewrite IH. rewrite app_assoc. f_equal.
    generalize acc. induction (items c) as [| x l IHl]; intros acc0; simpl.
    + now rewrite app_nil_r.
    + rewrite IHl. destruct (bad c x); simpl; [now rewrite <- app_assoc |reflexivity].
Qed.

Lemma no_issue {A : Type} (bad : A -> string -> bool) (msg : A -> string -> string)
  (items : A -> list string) (cs : list A) :
  flat_map (fun c => map (msg c) (List.filter (bad c) (items c))) cs = []
  <-> forall c x, In c cs -> In x (items c) -> bad c x = false.
Proof.
  split.
  - intros H c x Hc Hx. destruct (bad c x) eqn:B; [| reflexivity]. exfalso.
    assert (I : In (msg c x) (flat_map (fun c => map (msg c) (List.filter (bad c) (items c))) cs)).
    { apply in_flat_map. exists c. split; [assumption |]. apply in_map.
      apply filter_In. now split. }
    rewrite H in I. contradiction.
  - intros H. induction cs as [| c cs IH]; simpl; [reflexivity |].
    rewrite IH; [| intros c' x Hc; apply H; now right].
    rewrite app_nil_r.
    assert (F : List.filter (bad c) (items c) = []).
    { specialize (H c). induction (items c) as [| x l IHl]; simpl; [reflexivity |].
      rewrite (H x); [| now left | now left]. apply IHl. intros y Hy Hin.
      apply H; [now left | now right]. }
    now rewrite F.
Qed.

Lemma known_file (cs : list SolidityContract) (k : string) :
  forall m : gmap string string,
    is_Some (fold_left (fun m c => <[name c := filePath c]> m) cs m !! k)
    <-> is_Some (m !! k) \/ exists c, In c cs /\ name c = k.
Proof.
  induction cs as [| c cs IH]; intros m; simpl.
  - split; [now left | intros [H | [c [[] _]]]; assumption].
  - rewrite IH. split.
    + intros [H | [c' [Hc Hn]]]; [| right; exists c'; auto].
      destruct (decide (name c = k)) as [E | N].
      * right. exists c. auto.
      * left. now rewrite lookup_insert_ne in H.
    + intros [H | [c' [[<- | Hc] Hn]]].
      * left. destruct (decide (name c = k)) as [E | N].
        -- rewrite E, lookup_insert_eq. eauto.
        -- now rewrite lookup_insert_ne.
      * left. rewrite Hn, lookup_insert_eq. eauto.
      * right. exists c'. auto.
Qed.

(** X14.  The validator reports no inheritance error exactly when every
    parent named by an analysed contract is the name of an analysed
    contract or holds the text IERC, and no import error exactly when every
    import is the name of an analysed contract or holds an at sign.  On an
    analysis whose parents hold an at sign exactly when they hold IERC, the
    validator and the consistency check of the transformer agree on the
    inheritance. *)
Theorem validator_checks (a : SolidityAnalysisResult)
  (transformedFiles : list (string * TransformedFile)) :
  (validateInheritance a = []
   <-> forall c parent,
         In c (contracts a) -> In parent (inherits c) ->
         (exists p, In p (contracts a) /\ name p = parent) \/ includes parent "IERC" = true)
  /\ (validateImports a = []
      <-> forall c importedName,
            In c (contracts a) -> In importedName (imports c) ->
            (exists p, In p (contracts a) /\ name p = importedName)
            \/ includes importedName "@" = true)
  /\ ((forall c parent,
         In c (contracts a) -> In parent (inherits c) ->
         includes parent "@" = includes parent "IERC") ->
      (validateInheritance a = []
       <-> inheritanceValid (validateCrossFileConsistency a transformedFiles) = true)).
Proof.
  assert (I : validateInheritance a = []
              <-> forall c parent,
                    In c (contracts a) -> In parent (inherits c) ->
                    (exists p, In p (contracts a) /\ name p = parent)
                    \/ includes parent "IERC" = true).
  { unfold validateInheritance.
    rewrite (nested_issues
               (fun _ parent =>
                  negb (bool_decide (parent ∈ (list_to_set (map name (contracts a)) : gset string)))
                  && negb (includes parent "IERC"))
               (fun contract parent =>
                  "Contract " +:+ name contract +:+ " inherits from unknown parent: " +:+ parent)
               inherits).
    simpl. rewrite no_issue.
    split; intros H c parent Hc Hp; specialize (H c parent Hc Hp).
    - apply andb_false_iff in H as [H | H]; apply negb_false_iff in H.
      + left. apply bool_decide_eq_true in H. apply elem_of_list_to_set in H.
        apply list_elem_of_In in H. apply in_map_iff in H as [p [Hn Hin]]. eauto.
      + now right.
    - apply andb_false_iff. destruct H as [[p [Hin Hn]] | H].
      + left. apply negb_false_iff, bool_decide_eq_true, elem_of_list_to_set.
        apply list_elem_of_In. apply in_map_iff. eauto.
      + right. now rewrite H. }
  split; [exact I | split].
  - unfold validateImports.
    rewrite (nested_issues
               (fun _ importedName =>
                  negb (bool_decide
                          (is_Some (fold_left (fun m c => <[name c := filePath c]> m)
                                      (contracts a) (∅ : gmap string string) !! importedName)))
                  && negb (includes importedName "@"))
               (fun contract importedName =>
                  "Contract " +:+ name contract +:+ " imports unknown contract: "
                    +:+ importedName)
               imports).
    simpl. rewrite no_issue.
    split; intros H c importedName Hc Hp; specialize (H c importedName Hc Hp).
    + apply andb_false_iff in H as [H | H]; apply negb_false_iff in H.
      * left. apply bool_decide_eq_true in H. apply known_file in H as [H | H]; [| exact H].
        rewrite lookup_empty in H. now destruct H.
      * now right.
    + apply andb_false_iff. destruct H as [H | H].
      * left. apply negb_false_iff, bool_decide_eq_true. apply known_file. now right.
      * right. now rewrite H.
  - intros Hsame. rewrite I.
    destruct (inheritanceValid_spec a transformedFiles) as [_ ->].
    split; intros H c parent Hc Hp; destruct (H c parent Hc Hp) as [K | K]; auto; right.
    + now rewrite (Hsame c parent Hc Hp).
    + now rewrite <- (Hsame c parent Hc Hp).
Qed.

Lemma validator_checks_witness :
  validateInheritance (sample_analysis [Token; Sale]) = []
  <-> inheritanceValid (validateCrossFileConsistency (sample_analysis [Token; Sale]) []) = true.
Proof.
  apply (validator_checks (sample_analysis [Token; Sale]) []).
  intros c parent Hc Hp. vm_compute in Hc.
  destruct Hc as [<- | [<- | []]]; vm_compute in Hp;
    repeat (destruct Hp as [<- | Hp]; [reflexivity |]); contradiction.
Defined.

End ValidatorExtra.
